(** * Femtosense voice-command generation: batch pipeline and storage layer

    A shallow embedding of the Python sources

      - backend/src/core/batch_processor.py
      - backend/src/core/input_processor.py
      - backend/src/core/file_manager.py
      - backend/src/utils/audio_converter.py
      - database/src/utils/path_generator.py
      - database/src/utils/file_validator.py
      - database/src/config/storage_config.py
      - database/src/file_storage/s3_storage.py

    followed by the properties of the specification that concern them.

    Conventions of the embedding.
      - A Python [str] is a [string]; the character predicates and case
        maps are the ones Python applies to the 7-bit ASCII repertoire.
        Code points from 128 on are carried around unchanged and have
        neither case, nor the alphanumeric or white-space property.
      - [bytes] is a list of bytes.
      - A [Dict[str, str]] is a [gmap string string].
      - A call that may raise lives in the error monad [res]; a call that
        also touches the disk or the bucket threads the store explicitly.
      - Logging is not part of the model: no result depends on it. *)

From Stdlib Require Import ZArith NArith Ascii String Permutation.
From Stdlib Require Strings.Byte.
From stdpp Require Import gmap strings list fin_maps pretty.

(* ===================================================================== *)
(** * The Python run time the sources rely on                             *)
(* ===================================================================== *)

Module Py.

(** ** Exceptions and the error monad *)

(** The exception classes the sources raise, catch or let through.
    [Other] stands for any further class a collaborator may raise. *)
Inductive exn_class :=
  | TypeError | NameError | KeyError | ValueError
  | IsADirectoryError | NotADirectoryError | FileExistsError
  | FileNotFoundError
  | ValidationError | FileSystemError
  | ClientError | NoCredentialsError
  | WaveError
  | Other (name : string).

Global Instance exn_class_eq_dec : EqDecision exn_class.
Proof. solve_decision. Defined.

(** [str(e)] is kept next to the class. *)
Record exn := Exn { exn_cls : exn_class; exn_msg : string }.

Inductive res (A : Type) :=
  | Ok (a : A)
  | Raise (e : exn).
Arguments Ok {A} a.
Arguments Raise {A} e.

(** Sequencing is written [x ← m; k]. *)
Global Instance res_ret : MRet res := λ A a, Ok a.
Global Instance res_bind : MBind res := λ A B k m,
  match m with
  | Ok a => k a
  | Raise e => Raise e
  end.

(** The classes an [except] clause takes: [except Exception] takes
    them all, [except (C1, ..., Cn)] the listed ones. *)
Definition Exception : exn_class → bool := λ _, true.
Definition only (classes : list exn_class) : exn_class → bool :=
  λ c, bool_decide (c ∈ classes).

(** [try: m  except classes as e: h e] *)
Definition try_except {A} (m : res A) (classes : exn_class → bool)
    (h : exn → res A) : res A :=
  match m with
  | Raise e => if classes (exn_cls e) then h e else Raise e
  | Ok a => Ok a
  end.

(** Calls that read or change a store [St]: the store that is left is
    returned also when the call raises. *)
Definition io (St A : Type) : Type := St → res A * St.

Global Instance io_ret {St} : MRet (io St) := λ A a st, (Ok a, st).
Global Instance io_bind {St} : MBind (io St) := λ A B k m st,
  match m st with
  | (Ok a, st') => k a st'
  | (Raise e, st') => (Raise e, st')
  end.

Definition lift {St A} (r : res A) : io St A := λ st, (r, st).

Definition io_try_except {St A} (m : io St A) (classes : exn_class → bool)
    (h : exn → io St A) : io St A :=
  λ st,
    match m st with
    | (Raise e, st') => if classes (exn_cls e) then h e st' else (Raise e, st')
    | ok => ok
    end.

Definition is_raise {A} (m : res A) : bool :=
  match m with Raise _ => true | Ok _ => false end.

Definition raises {A} (m : res A) (c : exn_class) : Prop :=
  ∃ msg, m = Raise (Exn c msg).

(** [d[k]] on a dictionary: [KeyError] when the key is absent; the
    message of a [KeyError] is the [repr] of the key. *)
Definition getitem (d : gmap string string) (k : string) : res string :=
  match d !! k with
  | Some v => Ok v
  | None => Raise (Exn KeyError ("'" +:+ k +:+ "'"))
  end.

(** [bytes], and the literal [b'...'] *)
Abbreviation bytes := (list Byte.byte).
Definition b (s : string) : bytes := String.list_byte_of_string s.

(** [len(x)] as a Python integer *)
Definition len {A} (l : list A) : Z := Z.of_nat (length l).

(** ** Values and calls *)

(** The values that are passed between the functions of the sources. *)
Inductive value :=
  | VNone
  | VBool (x : bool)
  | VInt (z : Z)
  | VStr (s : string)
  | VBytes (x : bytes)
  | VDict (d : gmap string string).

Global Instance byte_eq_dec : EqDecision Byte.byte :=
  Strings.Byte.byte_eq_dec.

Global Instance value_eq_dec : EqDecision value.
Proof. solve_decision. Defined.

(** ['a'], ['a' and 'b'], ['a', 'b', and 'c'] *)
Fixpoint quoted_names (names : list string) : string :=
  match names with
  | [] => ""
  | [x] => "'" +:+ x +:+ "'"
  | [x; y] => "'" +:+ x +:+ "' and '" +:+ y +:+ "'"
  | x :: rest => "'" +:+ x +:+ "', " +:+
      match rest with
      | [y; z] => "'" +:+ y +:+ "', and '" +:+ z +:+ "'"
      | _ => quoted_names rest
      end
  end.

Definition plural (n : nat) (s : string) : string :=
  if bool_decide (n = 1) then s else s +:+ "s".

(** Binding positional arguments to the parameters [params] of [f], the
    first [required] of which have no default: [TypeError] when an
    argument is left over or a parameter without default gets none. *)
Definition bind_positional (f : string) (params : list string)
    (required : nat) (args : list value) : res (list value) :=
  let given := length args in
  if bool_decide (length params < given)
  then Raise (Exn TypeError
         (f +:+ "() takes " +:+
          (if bool_decide (required = length params)
           then pretty required
           else "from " +:+ pretty required +:+ " to "
                +:+ pretty (length params)) +:+
          " positional " +:+ plural (length params) "argument" +:+ " but "
          +:+ pretty given +:+
          (if bool_decide (given = 1) then " was" else " were") +:+ " given"))
  else if bool_decide (given < required)
  then let missing := drop given (take required params) in
       Raise (Exn TypeError
         (f +:+ "() missing " +:+ pretty (length missing)
          +:+ " required positional "
          +:+ plural (length missing) "argument" +:+ ": "
          +:+ quoted_names missing))
  else Ok args.

(** [str(v)] inside an f-string *)
Definition str_of_value (v : value) : string :=
  match v with
  | VNone => "None"
  | VBool true => "True"
  | VBool false => "False"
  | VInt z => pretty z
  | VStr s => s
  | VBytes x => "b'" +:+ String.string_of_list_byte x +:+ "'"
  | VDict _ => "{...}"
  end.

(** ** Characters *)

Definition is_upper (c : ascii) : bool :=
  (65 <=? N_of_ascii c)%N && (N_of_ascii c <=? 90)%N.
Definition is_lower (c : ascii) : bool :=
  (97 <=? N_of_ascii c)%N && (N_of_ascii c <=? 122)%N.
Definition is_digit (c : ascii) : bool :=
  (48 <=? N_of_ascii c)%N && (N_of_ascii c <=? 57)%N.

(** [str.isalnum] and [str.isspace] on one character of ASCII text.
    Beyond ASCII Python asks the Unicode tables, which this development
    does not hold: what is proved of the character classes is proved of
    ASCII strings, [isascii] below. *)
Definition isalnum (c : ascii) : bool := is_upper c || is_lower c || is_digit c.
Definition isspace (c : ascii) : bool :=
  ((9 <=? N_of_ascii c)%N && (N_of_ascii c <=? 13)%N)
  || ((28 <=? N_of_ascii c)%N && (N_of_ascii c <=? 32)%N).

Definition lower_char (c : ascii) : ascii :=
  if is_upper c then ascii_of_N (N_of_ascii c + 32) else c.
Definition upper_char (c : ascii) : ascii :=
  if is_lower c then ascii_of_N (N_of_ascii c - 32) else c.

(** ** Strings *)

Fixpoint str_map (f : ascii → ascii) (s : string) : string :=
  match s with
  | EmptyString => EmptyString
  | String c s' => String (f c) (str_map f s')
  end.

Fixpoint str_filter (p : ascii → bool) (s : string) : string :=
  match s with
  | EmptyString => EmptyString
  | String c s' => if p c then String c (str_filter p s') else str_filter p s'
  end.

Fixpoint str_all (p : ascii → bool) (s : string) : bool :=
  match s with
  | EmptyString => true
  | String c s' => p c && str_all p s'
  end.

Definition str_empty (s : string) : bool :=
  match s with EmptyString => true | _ => false end.

(** [s.isascii()] *)
Definition isascii_char (c : ascii) : bool := (N_of_ascii c <? 128)%N.
Definition isascii (s : string) : bool := str_all isascii_char s.

(** [s.lower()], [s.upper()] *)
Definition lower (s : string) : string := str_map lower_char s.
Definition upper (s : string) : string := str_map upper_char s.

(** [s.lstrip(chars)], [s.rstrip(chars)], [s.strip(chars)], the set of
    characters given as a predicate. *)
Fixpoint lstrip_by (p : ascii → bool) (s : string) : string :=
  match s with
  | EmptyString => EmptyString
  | String c s' => if p c then lstrip_by p s' else s
  end.

Fixpoint rstrip_by (p : ascii → bool) (s : string) : string :=
  match s with
  | EmptyString => EmptyString
  | String c s' =>
      let r := rstrip_by p s' in
      if str_empty r && p c then EmptyString else String c r
  end.

Definition strip_by (p : ascii → bool) (s : string) : string :=
  rstrip_by p (lstrip_by p s).

Definition is_char (c : ascii) : ascii → bool := fun x => bool_decide (x = c).
Definition nonspace (c : ascii) : bool := negb (isspace c).
Definition not_slash (c : ascii) : bool := negb (bool_decide (c = "/"%char)).

(** [s.strip()] *)
Definition strip (s : string) : string := strip_by isspace s.

(** [s.startswith(p)] *)
Fixpoint startswith (p s : string) : bool :=
  match p, s with
  | EmptyString, _ => true
  | String a p', String b s' => bool_decide (a = b) && startswith p' s'
  | String _ _, EmptyString => false
  end.

(** [s.endswith(p)] *)
Fixpoint endswith (p s : string) : bool :=
  bool_decide (s = p) ||
  match s with
  | EmptyString => false
  | String _ s' => endswith p s'
  end.

(** [sub in s] *)
Fixpoint contains (sub s : string) : bool :=
  startswith sub s ||
  match s with
  | EmptyString => false
  | String _ s' => contains sub s'
  end.

(** [repr(s)]: in single quotes, or in double quotes when [s] holds a
    single quote and no double quote; the quote, the backslash and the
    control characters are escaped. Characters beyond ASCII are taken
    to be printable and kept. *)
Definition hex_digit (n : N) : ascii :=
  ascii_of_N (if (n <? 10)%N then 48 + n else 87 + n).

Definition repr_char (quote c : ascii) : string :=
  if bool_decide (c = quote) || bool_decide (c = "\"%char)
  then String "\"%char (String c EmptyString)
  else if bool_decide (c = "009"%char) then "\t"
  else if bool_decide (c = "010"%char) then "\n"
  else if bool_decide (c = "013"%char) then "\r"
  else if (N_of_ascii c <? 32)%N || bool_decide (c = "127"%char)
  then "\x" +:+ String (hex_digit (N_of_ascii c / 16))
                  (String (hex_digit (N_of_ascii c mod 16)) EmptyString)
  else String c EmptyString.

Definition repr (s : string) : string :=
  let quote :=
    if contains "'" s && negb (contains (String "034"%char EmptyString) s)
    then "034"%char else "'"%char in
  String quote
    (String.concat EmptyString
       (map (repr_char quote) (String.list_ascii_of_string s))
     +:+ String quote EmptyString).

(** [sep.join(l)] *)
Fixpoint join (sep : string) (l : list string) : string :=
  match l with
  | [] => ""
  | [x] => x
  | x :: l' => x +:+ sep +:+ join sep l'
  end.

(** [s.split()]: the maximal runs of characters that are not white
    space. [split_run s] is the run [s] starts with (empty when [s]
    starts with white space) and the words after it. *)
Definition cons_word (w : string) (ws : list string) : list string :=
  if str_empty w then ws else w :: ws.

Fixpoint split_run (s : string) : string * list string :=
  match s with
  | EmptyString => (EmptyString, [])
  | String c s' =>
      let '(w, ws) := split_run s' in
      if isspace c then (EmptyString, cons_word w ws) else (String c w, ws)
  end.

Definition split (s : string) : list string :=
  let '(w, ws) := split_run s in cons_word w ws.

(** [s.split(sep)] for a one-character separator: never empty, keeps
    empty fields. *)
Fixpoint split_on (sep : ascii) (s : string) : list string :=
  match s with
  | EmptyString => [EmptyString]
  | String c s' =>
      if bool_decide (c = sep) then EmptyString :: split_on sep s'
      else match split_on sep s' with
           | w :: ws => String c w :: ws
           | [] => [String c EmptyString]
           end
  end.

(** [s.split(sep, 1)]: cut at the first separator, if there is one. *)
Fixpoint split_first (sep : ascii) (s : string) : list string :=
  match s with
  | EmptyString => [EmptyString]
  | String c s' =>
      if bool_decide (c = sep) then [EmptyString; s']
      else match split_first sep s' with
           | w :: ws => String c w :: ws
           | [] => [String c EmptyString]
           end
  end.

(** [s[n:]] *)
Fixpoint drop_start (n : nat) (s : string) : string :=
  match n, s with
  | S k, String _ s' => drop_start k s'
  | _, _ => s
  end.

(** [s.replace(old, new)]: the occurrences of [old] are replaced from the
    left, without overlap. [skip] counts the characters of a matched
    occurrence still to be dropped. *)
Fixpoint replace_go (old new : string) (skip : nat) (s : string) : string :=
  match s with
  | EmptyString => EmptyString
  | String c s' =>
      match skip with
      | S k => replace_go old new k s'
      | O =>
          if startswith old s
          then new +:+ replace_go old new (String.length old - 1) s'
          else String c (replace_go old new 0 s')
      end
  end.

Definition replace (old new s : string) : string :=
  match old with
  | EmptyString =>
      (* the empty string occurs before every character and at the end *)
      new +:+ String.concat EmptyString
                (map (fun c => String c new) (String.list_ascii_of_string s))
  | _ => replace_go old new 0 s
  end.

(** [s.isalnum()]: false on the empty string *)
Definition str_isalnum (s : string) : bool :=
  negb (str_empty s) && str_all isalnum s.

End Py.

(* ===================================================================== *)
(** * pathlib: pure POSIX paths                                           *)
(* ===================================================================== *)

Module Pathlib.
Import Py.

(** A path is its root flag and its components. [Path(s)] drops empty
    components and ["."]; a segment that starts with ["/"] restarts the
    path. (The two-slash root of POSIX is not modelled.) *)
Record Path := MkPath { is_abs : bool; parts : list string }.

Global Instance Path_eq_dec : EqDecision Path.
Proof. solve_decision. Defined.

Global Instance Path_countable : Countable Path :=
  inj_countable' (λ p, (is_abs p, parts p)) (λ x, MkPath x.1 x.2)
                 (λ p, match p with MkPath _ _ => eq_refl end).

Definition parse (s : string) : Path :=
  MkPath (startswith "/" s)
         (filter (λ p, p ≠ "" ∧ p ≠ ".") (split_on "/"%char s)).

(** A segment that is one component: no slash, not empty, not a dot. *)
Definition simple (s : string) : bool :=
  str_all not_slash s && negb (bool_decide (s = ""))
  && negb (bool_decide (s = ".")).

(** [p / q] for two paths *)
Definition joinpath (p q : Path) : Path :=
  if is_abs q then q else MkPath (is_abs p) (parts p ++ parts q).

(** [p / s] for a string [s] *)
Definition div (p : Path) (s : string) : Path := joinpath p (parse s).

(** [Path(s1, ..., sn)] *)
Definition of_segments (l : list string) : Path :=
  foldl div (MkPath false []) l.

(** [str(p)] *)
Definition to_str (p : Path) : string :=
  if is_abs p then "/" +:+ join "/" (parts p)
  else match parts p with
       | [] => "."
       | _ => join "/" (parts p)
       end.

(** [p.name], [p.parent] *)
Definition name (p : Path) : string := List.last (parts p) "".
Definition parent (p : Path) : Path :=
  MkPath (is_abs p) (removelast (parts p)).

(** The tail of [s] that starts at the last occurrence of [c]. *)
Fixpoint rfind_tail (c : ascii) (s : string) : option string :=
  match s with
  | EmptyString => None
  | String a s' =>
      match rfind_tail c s' with
      | Some t => Some t
      | None => if bool_decide (a = c) then Some s else None
      end
  end.

(** [p.suffix]: from the last dot of the name on, unless that dot is the
    first or the last character of the name. *)
Definition suffix_of_name (n : string) : string :=
  match n with
  | EmptyString => ""
  | String _ rest =>
      match rfind_tail "."%char rest with
      | Some t => if bool_decide (String.length t = 1) then "" else t
      | None => ""
      end
  end.
Definition suffix (p : Path) : string := suffix_of_name (name p).

(** [name[:-len(old_suffix)]] *)
Definition drop_end (n : nat) (s : string) : string :=
  String.substring 0 (String.length s - n) s.

(** [p.with_suffix(sfx)] for a suffix that starts with a dot and holds
    no separator, the only kind the sources pass. *)
Definition with_suffix (sfx : string) (p : Path) : res Path :=
  let n := name p in
  if str_empty n then Raise (Exn ValueError "path has an empty name")
  else
    let old := suffix p in
    let n' := if str_empty old then n +:+ sfx
              else drop_end (String.length old) n +:+ sfx in
    Ok (MkPath (is_abs p) (removelast (parts p) ++ [n'])).

(** [s.rsplit('.', 1)[0]] *)
Definition rsplit_dot_head (s : string) : string :=
  match rfind_tail "."%char s with
  | Some t => drop_end (String.length t) s
  | None => s
  end.

(** [p.parts]: the root is a part of its own. *)
Definition parts_tuple (p : Path) : list string :=
  (if is_abs p then ["/"] else []) ++ parts p.

End Pathlib.

(* ===================================================================== *)
(** * The local file system                                               *)
(* ===================================================================== *)

Module Disk.
Import Py Pathlib.

(** What a path names on a disk the process may read and write: every
    path that is there has its directories there, and no name on it is
    longer than the file system allows. The root and the working
    directory always exist; [".."] is an ordinary name; links,
    permissions and failing devices are not modelled. *)
Inductive node :=
  | File (content : bytes)
  | Dir.

Abbreviation t := (gmap Path node).

Definition lookup (d : t) (p : Path) : option node :=
  match parts p with
  | [] => Some Dir
  | _ => d !! p
  end.

(** [os.path.exists(p)], and [p.is_dir()] where it answers *)
Definition exists_ (d : t) (p : Path) : bool :=
  match lookup d p with Some _ => true | None => false end.

Definition is_dir (d : t) (p : Path) : bool :=
  match lookup d p with Some Dir => true | _ => false end.

(** The errors of the system calls, as Python raises them:
    [[Errno n] text: 'path'], the path being the one given to the
    call. *)
Definition os_error (cls : exn_class) (errno text : string) (p : Path) : exn :=
  Exn cls ("[Errno " +:+ errno +:+ "] " +:+ text +:+ ": " +:+ repr (to_str p)).

Definition ENOENT : Path → exn :=
  os_error FileNotFoundError "2" "No such file or directory".
Definition EEXIST : Path → exn := os_error FileExistsError "17" "File exists".
Definition ENOTDIR : Path → exn :=
  os_error NotADirectoryError "20" "Not a directory".
Definition EISDIR : Path → exn :=
  os_error IsADirectoryError "21" "Is a directory".
Definition ENAMETOOLONG : Path → exn :=
  os_error (Other "OSError") "36" "File name too long".

(** The limits of Linux file systems, in bytes: of one name, and of a
    path with its final zero. *)
Definition NAME_MAX : nat := 255.
Definition PATH_MAX : nat := 4096.

(** The components of a path before its first name longer than
    [NAME_MAX], when it has one: the directory in which the kernel
    would look that name up. *)
Fixpoint long_name_from (pre rest : list string) : option (list string) :=
  match rest with
  | [] => None
  | x :: rest' =>
      if bool_decide (NAME_MAX < String.length x) then Some pre
      else long_name_from (pre ++ [x]) rest'
  end.

(** A call on [p] fails with [ENAMETOOLONG]: the path is too long as a
    whole, or the kernel reaches a name that is too long, which it does
    when the directory before that name exists. *)
Definition name_too_long (d : t) (p : Path) : bool :=
  bool_decide (PATH_MAX ≤ String.length (to_str p))
  || match long_name_from [] (parts p) with
     | Some pre => is_dir d (MkPath (is_abs p) pre)
     | None => false
     end.

(** [p.exists()] of pathlib: [stat], of whose errors only those that
    say the path names nothing are answered with [False]. *)
Definition Path_exists (p : Path) : io t bool :=
  λ d, if name_too_long d p then (Raise (ENAMETOOLONG p), d)
       else (Ok (exists_ d p), d).

(** [p.mkdir(parents=True, exist_ok=True)]: every missing directory on
    the way from the root to [p] is made; a file on the way, or a name
    that is too long, is an error. [pre] is the part of the way already
    checked. The error names [target], the path of the call, when it is
    met before anything is made, and the directory that could not be
    made otherwise; the directories made before it stay. *)
Fixpoint mkdir_from (target : Path) (made : bool) (pre rest : list string)
    (d : t) : res unit * t :=
  match rest with
  | [] => (Ok (), d)
  | x :: rest' =>
      let p := MkPath (is_abs target) (pre ++ [x]) in
      if bool_decide (NAME_MAX < String.length x)
      then (Raise (ENAMETOOLONG (if made then p else target)), d)
      else
        match d !! p with
        | Some Dir => mkdir_from target made (pre ++ [x]) rest' d
        | Some (File _) =>
            (Raise (match rest' with
                    | [] => EEXIST target
                    | _ => ENOTDIR target
                    end), d)
        | None => mkdir_from target true (pre ++ [x]) rest' (<[p := Dir]> d)
        end
  end.

Definition mkdir_parents (p : Path) : io t unit :=
  λ d, if bool_decide (PATH_MAX ≤ String.length (to_str p))
       then (Raise (ENAMETOOLONG p), d)
       else mkdir_from p false [] (parts p) d.

(** [with open(p, 'wb') as f: f.write(content)] *)
Definition write_bytes (p : Path) (content : bytes) : io t unit :=
  λ d, if name_too_long d p then (Raise (ENAMETOOLONG p), d)
       else
         match lookup d p with
         | Some Dir => (Raise (EISDIR p), d)
         | _ =>
             match lookup d (parent p) with
             | Some Dir => (Ok (), <[p := File content]> d)
             | Some (File _) => (Raise (ENOTDIR p), d)
             | None => (Raise (ENOENT p), d)
             end
         end.

(** [p.unlink()] *)
Definition unlink (p : Path) : io t unit :=
  λ d, if name_too_long d p then (Raise (ENAMETOOLONG p), d)
       else
         match lookup d p with
         | Some (File _) => (Ok (), delete p d)
         | Some Dir => (Raise (EISDIR p), d)
         | None => (Raise (ENOENT p), d)
         end.

(** [with open(p, 'rb') as f: f.read()] *)
Definition read_bytes (p : Path) : io t bytes :=
  λ d, if name_too_long d p then (Raise (ENAMETOOLONG p), d)
       else
         match lookup d p with
         | Some (File content) => (Ok content, d)
         | Some Dir => (Raise (EISDIR p), d)
         | None => (Raise (ENOENT p), d)
         end.

End Disk.

(* ===================================================================== *)
(** * database/src/config/storage_config.py                               *)
(* ===================================================================== *)

Module StorageConfig.
Import Py.

(** [FILE_STRUCTURE] *)
Definition FILE_STRUCTURE : gmap string string :=
  {[ "bucket" := "{bucket_name}";
     "language" := "{language}";
     "intent" := "{intent}";
     "variation" := "{phrase_variation}" ]}.

(** [template.format(key=value)] for a template whose only braces are
    those of the replacement field [{key}]. *)
Definition format1 (template key value : string) : string :=
  replace ("{" +:+ key +:+ "}") value template.

(** The attributes of a [StorageConfig]; [file_structure] is always
    [FILE_STRUCTURE]. *)
Record t := Build {
  temp_path : Pathlib.Path;
  s3_bucket : string;
  aws_region : string;
  local_root : Pathlib.Path
}.

(** The instance the module builds when no environment variable is set;
    [home] is the home directory. *)
Definition default (home : Pathlib.Path) : t :=
  {| temp_path := Pathlib.parse "/tmp/femtosense_poc";
     s3_bucket := "femtosense-voice-commands";
     aws_region := "us-west-2";
     local_root := Pathlib.div (Pathlib.div home "femtosense") "voice_commands" |}.

Definition get_s3_path (self : t) (language intent variation : string)
  : res string :=
  b ← getitem FILE_STRUCTURE "bucket";
  l ← getitem FILE_STRUCTURE "language";
  i ← getitem FILE_STRUCTURE "intent";
  v ← getitem FILE_STRUCTURE "variation";
  Ok (format1 b "bucket_name" (s3_bucket self) +:+ "/" +:+
      format1 l "language" language +:+ "/" +:+
      format1 i "intent" intent +:+ "/" +:+
      format1 v "phrase_variation" variation).

Definition get_local_path (self : t) (language intent variation : string)
  : Pathlib.Path :=
  Pathlib.div (Pathlib.div (Pathlib.div (local_root self) language) intent)
              variation.

End StorageConfig.

(* ===================================================================== *)
(** * database/src/utils/path_generator.py                                *)
(* ===================================================================== *)

Module PathGenerator.
Import Py.

(** The fields of a [VoiceCommand] other than its list of variations. *)
Record VoiceCommand := {
  vc_id : string;
  phrase : string;
  intent : string;
  language : string;
  is_distractor : bool
}.

(** [VALID_PATH_CHARS = re.compile(r'[^a-zA-Z0-9_-]')]: the characters
    the pattern matches. *)
Definition VALID_PATH_CHARS (c : ascii) : bool :=
  negb (is_lower c || is_upper c || is_digit c
        || bool_decide (c = "_"%char) || bool_decide (c = "-"%char)).

(** [pattern.sub(repl, s)] for a pattern that matches one character *)
Definition re_sub (pattern : ascii → bool) (repl : ascii) (s : string)
  : string :=
  str_map (λ c, if pattern c then repl else c) s.

Definition sanitize_path_component (component : string) : string :=
  let sanitized := re_sub VALID_PATH_CHARS "-"%char component in
  let sanitized := lower sanitized in
  strip_by (is_char "-"%char) sanitized.

Section Generator.
Variable storage_config : StorageConfig.t.

Definition generate_local_path (voice_command : VoiceCommand)
    (variation_id voice_id : string) : res Pathlib.Path :=
  let language := sanitize_path_component (language voice_command) in
  let intent := sanitize_path_component (intent voice_command) in
  let variation := sanitize_path_component variation_id in
  let voice := sanitize_path_component voice_id in
  Ok (Pathlib.div
        (StorageConfig.get_local_path storage_config language intent variation)
        (voice +:+ ".wav")).

Definition generate_s3_path (voice_command : VoiceCommand)
    (variation_id voice_id : string) : res string :=
  let language := sanitize_path_component (language voice_command) in
  let intent := sanitize_path_component (intent voice_command) in
  let variation := sanitize_path_component variation_id in
  let voice := sanitize_path_component voice_id in
  p ← StorageConfig.get_s3_path storage_config language intent variation;
  Ok (p +:+ "/" +:+ voice +:+ ".wav").
End Generator.

End PathGenerator.

(* ===================================================================== *)
(** * Regular expressions, for the shape of a canonical path              *)
(* ===================================================================== *)

Module Regex.
Import Py.

Inductive re :=
  | Empty
  | Eps
  | Chr (p : ascii → bool)
  | Cat (r1 r2 : re)
  | Alt (r1 r2 : re)
  | Star (r : re).

Definition Plus (r : re) : re := Cat r (Star r).

Fixpoint Lit (s : string) : re :=
  match s with
  | EmptyString => Eps
  | String c s' => Cat (Chr (is_char c)) (Lit s')
  end.

(** [Matches r s]: the whole of [s] is a word of [r]. *)
Inductive Matches : re → string → Prop :=
  | MEps : Matches Eps ""
  | MChr p c : p c = true → Matches (Chr p) (String c "")
  | MCat r1 r2 s1 s2 :
      Matches r1 s1 → Matches r2 s2 → Matches (Cat r1 r2) (s1 +:+ s2)
  | MAltL r1 r2 s : Matches r1 s → Matches (Alt r1 r2) s
  | MAltR r1 r2 s : Matches r2 s → Matches (Alt r1 r2) s
  | MStar0 r : Matches (Star r) ""
  | MStarS r s1 s2 :
      Matches r s1 → Matches (Star r) s2 → Matches (Star r) (s1 +:+ s2).

Fixpoint nullable (r : re) : bool :=
  match r with
  | Empty => false
  | Eps => true
  | Chr _ => false
  | Cat r1 r2 => nullable r1 && nullable r2
  | Alt r1 r2 => nullable r1 || nullable r2
  | Star _ => true
  end.

(** Brzozowski derivative *)
Fixpoint deriv (c : ascii) (r : re) : re :=
  match r with
  | Empty => Empty
  | Eps => Empty
  | Chr p => if p c then Eps else Empty
  | Cat r1 r2 =>
      if nullable r1 then Alt (Cat (deriv c r1) r2) (deriv c r2)
      else Cat (deriv c r1) r2
  | Alt r1 r2 => Alt (deriv c r1) (deriv c r2)
  | Star r1 => Cat (deriv c r1) (Star r1)
  end.

Fixpoint matchb (r : re) (s : string) : bool :=
  match s with
  | EmptyString => nullable r
  | String c s' => matchb (deriv c r) s'
  end.

(** The class [[a-z0-9_-]] *)
Definition path_class (c : ascii) : bool :=
  is_lower c || is_digit c
  || bool_decide (c = "_"%char) || bool_decide (c = "-"%char).

(** [^[a-z0-9_-]+/[a-z0-9_-]+/[a-z0-9_-]+/[a-z0-9_-]+\.wav$] *)
Definition canonical_re : re :=
  let seg := Plus (Chr path_class) in
  Cat seg (Cat (Lit "/") (Cat seg (Cat (Lit "/")
    (Cat seg (Cat (Lit "/") (Cat seg (Lit ".wav"))))))).

(** What [[a-z0-9_-]+] matches: a non-empty word over the class. *)
Definition component (x : string) : Prop :=
  x ≠ "" ∧ str_all path_class x = true.

End Regex.

(* ===================================================================== *)
(** * backend/src/core/input_processor.py                                 *)
(* ===================================================================== *)

Module InputProcessor.
Import Py.

(** backend/src/config/app_config.py *)
Definition SUPPORTED_LANGUAGES : list string := ["korean"; "english"; "japanese"].

(** A row of the input table and a validated command are both
    dictionaries from column names to strings. *)
Abbreviation row := (gmap string string).

Definition map_intent (phrase intent_column : string) : string :=
  upper (strip intent_column).

Definition _sanitize_phrase (phrase : string) : string :=
  (* Remove leading/trailing whitespace and normalize internal whitespace *)
  let sanitized := join " " (split phrase) in
  (* Remove any non-alphanumeric characters except spaces *)
  let sanitized := str_filter (λ char, isalnum char || isspace char) sanitized in
  sanitized.

Definition validate_row (r : row) : res row :=
  p ← getitem r "phrase";
  ic ← getitem r "intent";
  let intent := map_intent p ic in
  lg ← getitem r "language";
  let language := lower lg in
  p' ← getitem r "phrase";
  let phrase := _sanitize_phrase p' in
  if bool_decide (language ∉ SUPPORTED_LANGUAGES)
  then Raise (Exn ValidationError ("Unsupported language: " +:+ language))
  else if str_empty intent || str_empty phrase
  then Raise (Exn ValidationError "Intent and phrase cannot be empty")
  else Ok ({[ "intent" := intent; "phrase" := phrase;
              "language" := language ]} : row).

(** The loop of [process_file] over the rows of the table: a row that
    fails validation with a [ValidationError] is skipped, any other
    exception ends the loop. *)
Fixpoint validate_rows (rows : list row) : res (list row) :=
  match rows with
  | [] => Ok []
  | r :: rows' =>
      match validate_row r with
      | Ok c => cs ← validate_rows rows'; Ok (c :: cs)
      | Raise e =>
          if bool_decide (exn_cls e = ValidationError)
          then validate_rows rows'
          else Raise e
      end
  end.

(** The characters [_sanitize_phrase] keeps. *)
Definition kept_char (char : ascii) : bool := isalnum char || isspace char.

(** [file_path.endswith(('.csv', '.xlsx', '.xls'))] *)
Definition _is_valid_file (file_path : string) : bool :=
  endswith ".csv" file_path || endswith ".xlsx" file_path
  || endswith ".xls" file_path.

Definition required_columns : list string := ["intent"; "phrase"; "language"].

(** What pandas reads from a file: the column names and the rows. *)
Record DataFrame := { columns : list string; rows : list row }.

Section Reader.
(** [pd.read_csv] or [pd.read_excel], by the extension of the file *)
Variable read_table : string → Z → res DataFrame.

Definition process_file (file_path : string) (skip_header : Z)
  : res (list row) :=
  if negb (_is_valid_file file_path)
  then Raise (Exn ValidationError
                "Invalid file format. Supported formats are CSV and Excel.")
  else
    df ← try_except (read_table file_path skip_header) Exception
           (λ e, Raise (Exn ValidationError
                          ("Error reading file: " +:+ exn_msg e)));
    if bool_decide (Forall (λ col, col ∈ columns df) required_columns)
    then validate_rows (rows df)
    else Raise (Exn ValidationError
                  ("Missing required columns: " +:+
                   join ", " (filter (λ col, col ∉ columns df)
                                     required_columns))).
End Reader.

End InputProcessor.

(* ===================================================================== *)
(** * database/src/utils/file_validator.py                                *)
(* ===================================================================== *)

Module FileValidator.
Import Py.

(** The names the module binds at its top level: its imports (lines
    1-8), its constants and its class. *)
Definition module_globals : list string :=
  [ "wave"; "Path"; "Tuple"; "List"; "os";
    "AudioFile"; "VoiceCommand"; "StorageConfig";
    "VALID_SAMPLE_RATES"; "MAX_FILE_SIZE"; "REQUIRED_CHANNELS";
    "FileValidator" ].

(** The built-in names the module uses. *)
Definition builtins : list string := [ "len"; "all"; "bytes"; "bool"; "str" ].

(** Evaluating a global name: the module's globals, then the
    built-ins, else [NameError]. *)
Definition load_name (n : string) : res unit :=
  if bool_decide (n ∈ module_globals ∨ n ∈ builtins) then Ok ()
  else Raise (Exn NameError ("name '" +:+ n +:+ "' is not defined")).

Definition VALID_SAMPLE_RATES : list Z := [16000; 22050; 44100]%Z.
Definition MAX_FILE_SIZE : Z := (10 * 1024 * 1024)%Z.
Definition REQUIRED_CHANNELS : Z := 1%Z.

(** database/src/models/metadata.py, without the time stamp and the
    duration, which no check reads *)
Record Metadata := {
  language : string;
  voice_profile : string;
  intent : string;
  original_phrase : string;
  variation : string;
  file_format : string;
  file_size : Z;
  sample_rate : Z
}.

(** database/src/models/audio_file.py *)
Record AudioFile := { data : bytes; metadata : Metadata }.

(** What the checks read from an opened WAV file. *)
Record Wave_read := { getframerate : Z; getnchannels : Z }.

Section Validator.
(** [wave.open(f, 'rb')] of the standard library, given the content of
    the stream: the header it parsed, or the exception it raised. *)
Variable wave_open : bytes → res Wave_read.

Definition validate_wav_format (wav_data : bytes) : res (bool * string) :=
  try_except
    (_ ← load_name "wave";
     (* the argument of the call is evaluated first *)
     _ ← load_name "BytesIO";
     wav_file ← wave_open wav_data;
     if bool_decide (getframerate wav_file ∉ VALID_SAMPLE_RATES)
     then Ok (false, "Invalid sample rate: " +:+ pretty (getframerate wav_file))
     else if bool_decide (getnchannels wav_file ≠ REQUIRED_CHANNELS)
     then Ok (false, "Invalid number of channels: "
                     +:+ pretty (getnchannels wav_file))
     else Ok (true, "WAV format is valid"))
    (only [WaveError])
    (λ _, Ok (false, "Invalid WAV file format")).

Definition validate_audio_file (audio_file : AudioFile) : res bool :=
  (* Check file size *)
  if bool_decide (len (data audio_file) > MAX_FILE_SIZE)%Z then Ok false
  else
    (* Validate WAV format *)
    r ← validate_wav_format (data audio_file);
    if negb r.1 then Ok false
    else
      (* Verify metadata consistency *)
      let metadata := metadata audio_file in
      if bool_decide (lower (file_format metadata) ≠ "wav") then Ok false
      else if bool_decide (file_size metadata ≠ len (data audio_file))
      then Ok false
      else if bool_decide (sample_rate metadata ∉ VALID_SAMPLE_RATES)
      then Ok false
      else Ok true.
End Validator.


Definition validate_file_path (file_path : string) (config : StorageConfig.t)
  : res bool :=
  _ ← load_name "Path";
  let path_parts := Pathlib.parts_tuple (Pathlib.parse file_path) in
  (* Check if the path has the correct number of components *)
  if bool_decide (length path_parts ≠ 5) then Ok false
  else
    match path_parts with
    | [_; language; intent; variation; file_name] =>
        (* Validate language code *)
        structure ← getitem StorageConfig.FILE_STRUCTURE "language";
        if negb (contains language structure) then Ok false
        (* Check intent name format *)
        else if negb (str_isalnum (replace "_" "" intent)) then Ok false
        (* Validate phrase variation structure *)
        else if negb (str_isalnum
                        (replace "_" "" (replace "-" "" variation)))
        then Ok false
        (* Ensure file naming follows convention *)
        else if negb (endswith ".wav" file_name) || contains "_" file_name
        then Ok false
        else Ok true
    | _ => Raise (Exn (Other "IndexError") "tuple index out of range")
    end.

(** database/src/models/voice_command.py: a variation with its audio
    files, and a command with its variations. *)
Record VoiceCommandVariation := {
  variation_id : string;
  variation_phrase : string;
  audio_files : list AudioFile
}.

Record VoiceCommand := {
  command : PathGenerator.VoiceCommand;
  variations : list VoiceCommandVariation
}.

Section Structure.
Variable wave_open : bytes → res Wave_read.

(** The loops of [validate_voice_command_structure]: [None] when a
    loop runs to its end, [Some b] when it returns [b]. *)
Fixpoint check_audio_files (files : list AudioFile) : res (option bool) :=
  match files with
  | [] => Ok None
  | audio_file :: rest =>
      valid ← validate_audio_file wave_open audio_file;
      if negb valid then Ok (Some false) else check_audio_files rest
  end.

Fixpoint check_variations (vs : list VoiceCommandVariation)
  : res (option bool) :=
  match vs with
  | [] => Ok None
  | variation :: rest =>
      if str_empty (variation_phrase variation) then Ok (Some false)
      else
        r ← check_audio_files (audio_files variation);
        match r with
        | Some b => Ok (Some b)
        | None => check_variations rest
        end
  end.

Definition consistent (c : PathGenerator.VoiceCommand)
    (audio_file : AudioFile) : bool :=
  bool_decide (language (metadata audio_file) = PathGenerator.language c)
  && bool_decide (intent (metadata audio_file) = PathGenerator.intent c).

Definition validate_voice_command_structure (c : VoiceCommand) : res bool :=
  let cmd := command c in
  (* Check completeness of command data *)
  if negb (forallb (λ s, negb (str_empty s))
             [ PathGenerator.vc_id cmd; PathGenerator.phrase cmd;
               PathGenerator.intent cmd; PathGenerator.language cmd ])
  then Ok false
  else
    (* Validate relationships between commands and audio files *)
    r ← check_variations (variations c);
    match r with
    | Some b => Ok b
    | None =>
        (* Verify language and intent consistency *)
        if forallb (λ variation,
                      forallb (consistent cmd) (audio_files variation))
                   (variations c)
        then Ok true else Ok false
    end.
End Structure.

End FileValidator.

(* ===================================================================== *)
(** * backend/src/core/file_manager.py                                    *)
(* ===================================================================== *)

Module FileManager.
Import Py Pathlib.

Section Manager.
(** The state of the bucket, and the two calls of the boto3 client the
    class makes on it; [upload_file] is given the content of the local
    file it is asked to send. *)
Variable S3 : Type.
Variable upload_file :
  ∀ (Bucket Key : string) (Body : bytes) (Metadata : gmap string string),
    io S3 unit.
Variable delete_object : ∀ (Bucket Key : string), io S3 unit.

(** [convert_to_wav] is imported from utils/audio_converter.py, which
    does not define it: whatever it is, it works on the disk. *)
Variable convert_to_wav : Path → Path → io Disk.t unit.

(** The two stores a [FileManager] writes to. *)
Record world := World { disk : Disk.t; bucket : S3 }.

Definition on_disk {A} (m : io Disk.t A) : io world A :=
  λ w, let '(r, d) := m (disk w) in (r, World d (bucket w)).
Definition on_bucket {A} (m : io S3 A) : io world A :=
  λ w, let '(r, b) := m (bucket w) in (r, World (disk w) b).

(** The attributes of [self] that the methods read. *)
Record t := Build { local_base_path : Path; bucket_name : string }.

Definition _generate_file_path (metadata : gmap string string) : res Path :=
  language ← getitem metadata "language";
  intent ← getitem metadata "intent";
  variation ← getitem metadata "variation";
  Ok (of_segments
        [language; intent;
         variation +:+ "_" +:+ default "default" (metadata !! "voice_id")
         +:+ ".wav"]).

(** [s3_client.upload_file(str(local_path), bucket, key, ExtraArgs)] *)
Definition upload (self : t) (local_path : Path) (s3_path : string)
    (metadata : gmap string string) : io world unit :=
  λ w, match Disk.lookup (disk w) local_path with
       | Some (Disk.File content) =>
           on_bucket (upload_file (bucket_name self) s3_path content metadata) w
       | _ => (Raise (Exn FileNotFoundError (to_str local_path)), w)
       end.

Definition save_audio_file (self : t) (audio_data : bytes)
    (metadata : gmap string string) : io world (string * string) :=
  (* Generate file paths *)
  relative_path ← lift (_generate_file_path metadata);
  let local_path := joinpath (local_base_path self) relative_path in
  language ← lift (getitem metadata "language");
  intent ← lift (getitem metadata "intent");
  let s3_path := language +:+ "/" +:+ intent +:+ "/" +:+ name relative_path in
  (* Ensure the local directory exists *)
  _ ← on_disk (Disk.mkdir_parents (parent local_path));
  (* Save file locally *)
  _ ← on_disk (Disk.write_bytes local_path audio_data);
  (* Convert to WAV if necessary *)
  paths ← (if bool_decide (lower (suffix local_path) ≠ ".wav")
           then
             wav_path ← lift (with_suffix ".wav" local_path);
             _ ← on_disk (convert_to_wav local_path wav_path);
             mret (wav_path, rsplit_dot_head s3_path +:+ ".wav")
           else mret (local_path, s3_path));
  (* Upload file to S3 *)
  _ ← upload self paths.1 paths.2 metadata;
  mret (to_str paths.1, paths.2).

Definition delete_audio_file (self : t) (file_path : string) : io world bool :=
  let local_path := div (local_base_path self) file_path in
  let s3_path :=
    lstrip_by (is_char "/"%char)
              (replace (to_str (local_base_path self)) "" file_path) in
  (* Delete from local storage *)
  found ← on_disk (Disk.Path_exists local_path);
  _ ← (if (found : bool) then on_disk (Disk.unlink local_path) else mret ());
  (* Delete from S3 *)
  io_try_except
    (_ ← on_bucket (delete_object (bucket_name self) s3_path); mret true)
    Exception
    (λ _, mret false).
(** A call of [file_manager.save_audio_file] with the positional
    arguments [args]: the object itself
    is bound to [self], then the arguments to [audio_data] and
    [metadata]. An argument that is not what its parameter is annotated
    with makes the body fail with a [TypeError] at its first use; the
    model raises it at the call. *)
Definition save_audio_file_method (self : t) (args : list value)
  : io world (string * string) :=
  bound ← lift (bind_positional "save_audio_file"
                  ["self"; "audio_data"; "metadata"] 3 (VNone :: args));
  match bound with
  | [_; VBytes audio_data; VDict metadata] =>
      save_audio_file self audio_data metadata
  | _ => lift (Raise (Exn TypeError "a bytes-like object and a dict are required"))
  end.
End Manager.


Section Retrieval.
Variable S3 : Type.
(** [s3_client.get_object(Bucket=..., Key=...)['Body'].read()], and the
    keys of the [Contents] of [s3_client.list_objects_v2(Bucket=...,
    Prefix=...)], when the response has that entry. *)
Variable get_object : ∀ (Bucket Key : string), io S3 bytes.
Variable list_objects_v2 :
  ∀ (Bucket Prefix : string), io S3 (option (list string)).

Definition get_audio_file (self : t) (file_path : string)
    (prefer_local : bool) : io (world S3) bytes :=
  let local_path := div (local_base_path self) file_path in
  found ← (if prefer_local then on_disk S3 (Disk.Path_exists local_path)
           else mret false);
  if (found : bool)
  then on_disk S3 (Disk.read_bytes local_path)
  else
    let s3_path :=
      lstrip_by (is_char "/"%char)
                (replace (to_str (local_base_path self)) "" file_path) in
    on_bucket S3 (get_object (bucket_name self) s3_path).

Definition list_audio_files (self : t) (intent language : string)
  : io (world S3) (list string) :=
  let prefix := language +:+ "/" +:+ intent +:+ "/" in
  response ← on_bucket S3 (list_objects_v2 (bucket_name self) prefix);
  let file_list := match response with
                   | Some contents => contents
                   | None => []
                   end in
  mret file_list.
End Retrieval.

End FileManager.

(* ===================================================================== *)
(** * backend/src/utils/audio_converter.py                                *)
(* ===================================================================== *)

Module AudioConverter.
Import Py.

Definition SUPPORTED_FORMATS : list string := ["m4a"; "wav"].
Definition DEFAULT_SAMPLE_RATE : Z := 16000.
Definition DEFAULT_BIT_DEPTH : Z := 16.

(** [os.path.exists(x)] *)
Definition path_exists (x : value) : io Disk.t bool :=
  λ d, match x with
       | VStr s => (Ok (Disk.exists_ d (Pathlib.parse s)), d)
       | VBytes y =>
           (Ok (Disk.exists_ d (Pathlib.parse (String.string_of_list_byte y))), d)
       | VInt _ | VBool _ => (Ok false, d)
       | _ => (Raise (Exn TypeError
                 "stat: path should be string, bytes, os.PathLike or integer"), d)
       end.

Section Converter.
(** [subprocess.run(command, capture_output=True, text=True).returncode] *)
Variable subprocess_run : list value → io Disk.t Z.

(** The body of [convert_audio], its parameters bound. *)
Definition convert_audio_body
    (input_path output_path target_format sample_rate bit_depth : value)
  : io Disk.t bool :=
  io_try_except
    ((* Validate input and output paths *)
     found ← path_exists input_path;
     if negb found
     then lift (Raise (Exn FileSystemError
                  ("Input file does not exist: " +:+ str_of_value input_path)))
     (* Check if target format is supported *)
     else if bool_decide (target_format ∉ (VStr <$> SUPPORTED_FORMATS))
     then lift (Raise (Exn ValidationError
                  ("Unsupported target format: " +:+ str_of_value target_format)))
     else
       (* Construct and execute FFmpeg command *)
       returncode ← subprocess_run
         [ VStr "ffmpeg"; VStr "-i"; input_path;
           VStr "-ar"; VStr (str_of_value sample_rate);
           VStr "-acodec";
           VStr (if bool_decide (target_format = VStr "wav")
                 then "pcm_s16le" else "aac");
           VStr "-b:a"; VStr (str_of_value bit_depth +:+ "k");
           VStr "-y"; output_path ];
       if bool_decide (returncode ≠ 0%Z) then mret false else mret true)
    Exception
    (λ e, if bool_decide (exn_cls e ∈ [FileSystemError; ValidationError])
          then lift (Raise e)
          else mret false).

(** A call of [convert_audio] with the positional arguments [args].
    The logging decorator passes the
    arguments on as they are and raises again what the function
    raises. *)
Definition convert_audio (args : list value) : io Disk.t bool :=
  bound ← lift (bind_positional "convert_audio"
                  ["input_path"; "output_path"; "target_format";
                   "sample_rate"; "bit_depth"] 3 args);
  match bound with
  | [input_path; output_path; target_format] =>
      convert_audio_body input_path output_path target_format
        (VInt DEFAULT_SAMPLE_RATE) (VInt DEFAULT_BIT_DEPTH)
  | [input_path; output_path; target_format; sample_rate] =>
      convert_audio_body input_path output_path target_format
        sample_rate (VInt DEFAULT_BIT_DEPTH)
  | [input_path; output_path; target_format; sample_rate; bit_depth] =>
      convert_audio_body input_path output_path target_format
        sample_rate bit_depth
  | _ => lift (Raise (Exn TypeError "convert_audio()"))
  end.
End Converter.


(** The names of [subprocess.__all__]; no other attribute of the module
    is called [loads] either. *)
Definition subprocess_all : list string :=
  [ "Popen"; "PIPE"; "STDOUT"; "call"; "check_call"; "getstatusoutput";
    "getoutput"; "check_output"; "run"; "CalledProcessError"; "DEVNULL";
    "SubprocessError"; "TimeoutExpired"; "CompletedProcess" ].

(** [subprocess.<name>] *)
Definition subprocess_attr (n : string) : res unit :=
  if bool_decide (n ∈ subprocess_all) then Ok ()
  else Raise (Exn (Other "AttributeError")
                ("module 'subprocess' has no attribute '" +:+ n +:+ "'")).

(** [os.path.splitext(p)[1]]: from the last dot of the last component
    on, unless only dots come before it in that component. *)
Definition splitext_ext (p : string) : string :=
  let base := List.last (split_on "/"%char p) "" in
  match Pathlib.rfind_tail "."%char base with
  | Some ext =>
      let stem := Pathlib.drop_end (String.length ext) base in
      if str_all (is_char "."%char) stem then "" else ext
  | None => ""
  end.

Section Probe.
Variable subprocess_run : list value → io Disk.t Z.
(** [int(x)] for a text [x], and what the lines after
    [subprocess.loads] make of the parsed output of [ffprobe]. *)
Variable int_text : value → res Z.
Variable extract_metadata : io Disk.t (gmap string value).

(** [int(x)] *)
Definition int_ (x : value) : res Z :=
  match x with
  | VInt z => Ok z
  | VBool x => Ok (if x then 1 else 0)%Z
  | VStr _ | VBytes _ => int_text x
  | VNone | VDict _ =>
      Raise (Exn TypeError
        "int() argument must be a string, a bytes-like object or a real number")
  end.

Definition get_audio_metadata (file_path : string)
  : io Disk.t (gmap string value) :=
  io_try_except
    (found ← path_exists (VStr file_path);
     if negb found
     then lift (Raise (Exn FileSystemError
                  ("File does not exist: " +:+ file_path)))
     else
       (* Execute FFprobe command *)
       returncode ← subprocess_run
         [ VStr "ffprobe"; VStr "-v"; VStr "quiet";
           VStr "-print_format"; VStr "json";
           VStr "-show_format"; VStr "-show_streams"; VStr file_path ];
       if bool_decide (returncode ≠ 0%Z) then mret ∅
       else
         (* Parse FFprobe output *)
         _ ← lift (subprocess_attr "loads");
         extract_metadata)
    Exception
    (λ e, if bool_decide (exn_cls e = FileSystemError)
          then lift (Raise e)
          else mret ∅).

Definition validate_audio_file (file_path : string) : io Disk.t bool :=
  io_try_except
    (found ← path_exists (VStr file_path);
     if negb found
     then lift (Raise (Exn FileSystemError
                  ("File does not exist: " +:+ file_path)))
     else
       (* Extract file extension *)
       let extension := splitext_ext file_path in
       if bool_decide (lower (drop_start 1 extension) ∉ SUPPORTED_FORMATS)
       then mret false
       else
         (* Get audio metadata *)
         metadata ← get_audio_metadata file_path;
         (* Validate sample rate and bit depth *)
         sample_rate ←
           lift (int_ (default (VInt 0) (metadata !! "sample_rate")));
         if bool_decide (sample_rate < DEFAULT_SAMPLE_RATE)%Z then mret false
         else
           bit_depth ←
             lift (int_ (default (VInt 0) (metadata !! "bit_depth")));
           if bool_decide (bit_depth < DEFAULT_BIT_DEPTH)%Z then mret false
           else mret true)
    Exception
    (λ e, if bool_decide (exn_cls e = FileSystemError)
          then lift (Raise e)
          else mret false).
End Probe.

End AudioConverter.

(* ===================================================================== *)
(** * backend/src/core/batch_processor.py                                 *)
(* ===================================================================== *)

Module BatchProcessor.
Import Py FileManager.

Abbreviation command := (gmap string string).

(** The dictionary [results] of [process_batch]; an entry of [errors] is
    the command and [str(e)]. *)
Record batch_results := Results {
  total_commands : Z;
  successful_variations : Z;
  successful_audio_files : Z;
  errors : list (command * string)
}.

(** The placeholder bodies of the two collaborators. *)
Definition _call_gpt_api_placeholder (phrase : string) : res (list string) :=
  Ok ((λ i : Z, phrase +:+ " (variation " +:+ pretty i +:+ ")")
        <$> [1; 2; 3; 4; 5]%Z).

Definition _generate_audio_placeholder (text language : string) : res bytes :=
  Ok (b "audio_data_placeholder").

Definition _validate_variations (variations : list string) (intent : string)
  : list string :=
  List.filter (λ v, contains (lower intent) (lower v)) variations.

(** How the future of a command ends: with the result of
    [_process_command], of which the loop of [process_batch] reads the
    two lengths, or with an exception, of which it reads [str(e)]. *)
Inductive outcome :=
  | Stored (variations audio_files : Z)
  | Failed (reason : string).

(** What one pass of the loop does to [results]. *)
Definition record (results : batch_results) (entry : command * outcome)
  : batch_results :=
  match entry.2 with
  | Stored variations audio_files =>
      Results (total_commands results)
              (successful_variations results + variations)
              (successful_audio_files results + audio_files)
              (errors results)
  | Failed reason =>
      Results (total_commands results)
              (successful_variations results)
              (successful_audio_files results)
              (errors results ++ [(entry.1, reason)])
  end.

Definition failed_commands (os : list (command * outcome)) : list command :=
  omap (λ entry, match entry.2 with
                 | Failed _ => Some entry.1
                 | Stored _ _ => None
                 end) os.

Definition stored_commands (os : list (command * outcome)) : list command :=
  omap (λ entry, match entry.2 with
                 | Stored _ _ => Some entry.1
                 | Failed _ => None
                 end) os.

Section Processor.
Variable S3 : Type.
Variable upload_file :
  ∀ (Bucket Key : string) (Body : bytes) (Metadata : gmap string string),
    io S3 unit.
Variable convert_to_wav : Pathlib.Path → Pathlib.Path → io Disk.t unit.
Variable subprocess_run : list value → io Disk.t Z.

(** The text-generation and the speech-synthesis call. *)
Variable _call_gpt_api : string → res (list string).
Variable _generate_audio : string → string → res bytes.

(** [file_manager.validate_file], which the class [FileManager] does not
    define, and the reader behind [input_processor.process_file]. *)
Variable validate_file : string → res bool.
Variable read_table : string → Z → res InputProcessor.DataFrame.

(** [concurrent.futures.as_completed]: the submitted commands in the
    order in which their futures complete. *)
Variable as_completed : list command → list command.

Variable file_manager : FileManager.t.

Definition generate_variations (command : command) : res (list string) :=
  _ ← getitem command "phrase";
  try_except
    (phrase ← getitem command "phrase";
     raw_variations ← _call_gpt_api phrase;
     intent ← getitem command "intent";
     Ok (_validate_variations raw_variations intent))
    Exception
    (λ e, Raise e).

(** The body of the [try] of [create_audio_files], for one variation. *)
Definition create_audio_file (variation : string) (metadata : command)
  : io (world S3) (string * string) :=
  language ← lift (getitem metadata "language");
  (* Generate audio for the variation *)
  audio_data ← lift (_generate_audio variation language);
  (* Convert audio to required format *)
  converted_audio ←
    on_disk S3 (AudioConverter.convert_audio subprocess_run
                  [VBytes audio_data; VStr "wav"]);
  (* Save audio file using file manager *)
  intent ← lift (getitem metadata "intent");
  language' ← lift (getitem metadata "language");
  save_audio_file_method S3 upload_file convert_to_wav file_manager
    [VBool converted_audio; VStr intent; VStr variation; VStr language'].

Fixpoint create_audio_files_from (audio_files : list (string * string))
    (variations : list string) (metadata : command)
  : io (world S3) (list (string * string)) :=
  match variations with
  | [] => mret audio_files
  | variation :: rest =>
      audio_files' ←
        io_try_except
          (paths ← create_audio_file variation metadata;
           mret (audio_files ++ [paths]))
          Exception
          (λ _, mret audio_files);
      create_audio_files_from audio_files' rest metadata
  end.

Definition create_audio_files (variations : list string) (metadata : command)
  : io (world S3) (list (string * string)) :=
  create_audio_files_from [] variations metadata.

Definition _process_command (command : command)
  : io (world S3) (list string * list (string * string)) :=
  variations ← lift (generate_variations command);
  audio_files ← create_audio_files variations command;
  mret (variations, audio_files).

(** The loop over the completed futures. The workers run at the same
    time; the model runs each command when its future completes. The
    executor is taken as constructed, [max_workers] being positive. *)
Fixpoint collect (completed : list command) (results : batch_results)
  : io (world S3) batch_results :=
  match completed with
  | [] => mret results
  | command :: rest =>
      results' ←
        io_try_except
          (r ← _process_command command;
           mret (Results (total_commands results)
                         (successful_variations results + len r.1)
                         (successful_audio_files results + len r.2)
                         (errors results)))
          Exception
          (λ e, mret (Results (total_commands results)
                              (successful_variations results)
                              (successful_audio_files results)
                              (errors results ++ [(command, exn_msg e)])));
      collect rest results'
  end.

(** [future.result()] for the future of one command, and for the
    completed futures in turn. *)
Definition terminal_outcome (command : command) : io (world S3) outcome :=
  io_try_except
    (r ← _process_command command; mret (Stored (len r.1) (len r.2)))
    Exception
    (λ e, mret (Failed (exn_msg e))).

Fixpoint outcomes (completed : list command)
  : io (world S3) (list (command * outcome)) :=
  match completed with
  | [] => mret []
  | command :: rest =>
      o ← terminal_outcome command;
      os ← outcomes rest;
      mret ((command, o) :: os)
  end.

Definition process_batch (input_file : string) (skip_header : Z)
  : io (world S3) batch_results :=
  (* Validate input file *)
  valid ← lift (validate_file input_file);
  if negb valid
  then lift (Raise (Exn ValueError ("Invalid input file: " +:+ input_file)))
  else
    (* Process input file *)
    commands ← lift (InputProcessor.process_file read_table input_file
                       skip_header);
    collect (as_completed commands) (Results (len commands) 0 0 []).
End Processor.

End BatchProcessor.

(* ===================================================================== *)
(** * database/src/models/audio_file.py                                   *)
(* ===================================================================== *)

Module AudioFileModel.
Import Py.

(** [AudioFile.get_file_path] *)
Definition get_file_path (self : FileValidator.AudioFile) : string :=
  let m := FileValidator.metadata self in
  FileValidator.language m +:+ "/" +:+ FileValidator.intent m +:+ "/" +:+
  FileValidator.variation m +:+ "/" +:+ FileValidator.voice_profile m +:+
  "." +:+ FileValidator.file_format m.

End AudioFileModel.

(* ===================================================================== *)
(** * database/src/file_storage/s3_storage.py                             *)
(* ===================================================================== *)

Module S3Storage.
Import Py.

Definition _parse_s3_uri (s3_uri : string) : res (string * string) :=
  if negb (startswith "s3://" s3_uri)
  then Raise (Exn ValueError ("Invalid S3 URI: " +:+ s3_uri))
  else match split_first "/"%char (drop_start 5 s3_uri) with
       | [bucket; key] => Ok (bucket, key)
       | _ => Raise (Exn ValueError ("Invalid S3 URI: " +:+ s3_uri))
       end.

Section Storage.
Variable S3 : Type.
Variable delete_object : ∀ (Bucket Key : string), io S3 unit.

Definition delete_file (s3_uri : string) : io S3 bool :=
  io_try_except
    (parsed ← lift (_parse_s3_uri s3_uri);
     _ ← delete_object parsed.1 parsed.2;
     mret true)
    (only [ClientError; NoCredentialsError])
    (λ e, if bool_decide (exn_cls e = ClientError) then mret false
          else lift (Raise e)).
End Storage.


Section Upload.
Variable S3 : Type.
Variable put_object :
  ∀ (Bucket Key : string) (Body : bytes)
    (ContentType ServerSideEncryption : string), io S3 unit.
Variable config : StorageConfig.t.

Definition upload_file (audio_file : FileValidator.AudioFile) : io S3 string :=
  let m := FileValidator.metadata audio_file in
  io_try_except
    (s3_path ← lift (StorageConfig.get_s3_path config
                       (FileValidator.language m) (FileValidator.intent m)
                       (FileValidator.variation m));
     let file_name :=
       FileValidator.voice_profile m +:+ "." +:+ FileValidator.file_format m in
     let s3_key := s3_path +:+ "/" +:+ file_name in
     _ ← put_object (StorageConfig.s3_bucket config) s3_key
           (FileValidator.data audio_file)
           ("audio/" +:+ FileValidator.file_format m) "AES256";
     let s3_uri :=
       "s3://" +:+ StorageConfig.s3_bucket config +:+ "/" +:+ s3_key in
     mret s3_uri)
    (only [ClientError; NoCredentialsError])
    (λ e, lift (Raise e)).
End Upload.

End S3Storage.

(* ===================================================================== *)
(** * Sample data, after the test suites                                  *)
(* ===================================================================== *)

Module Sample.

(** database/tests/test_utils.py: the command behind [Matt.wav] *)
Definition lights_on : PathGenerator.VoiceCommand :=
  {| PathGenerator.vc_id := "1";
     PathGenerator.phrase := "Turn on the lights";
     PathGenerator.intent := "LIGHTS_ON";
     PathGenerator.language := "english";
     PathGenerator.is_distractor := false |}.

Definition storage_config : StorageConfig.t :=
  StorageConfig.default (Pathlib.parse "/home/femto").

(** A row whose phrase holds a punctuation mark between two words, and
    one whose phrase is punctuation only. *)
Definition row_mark : gmap string string :=
  {[ "intent" := "LIGHTS_ON"; "phrase" := "lights ! on";
     "language" := "english" ]}.

Definition row_marks_only : gmap string string :=
  {[ "intent" := "LIGHTS_ON"; "phrase" := "! !"; "language" := "english" ]}.

(** database/tests/test_utils.py: a payload that is not a WAV file, with
    metadata that agrees with it *)
Definition not_a_wav : FileValidator.AudioFile :=
  {| FileValidator.data := Py.b "NOT_A_WAV_FILE";
     FileValidator.metadata :=
       {| FileValidator.language := "english";
          FileValidator.voice_profile := "Matt";
          FileValidator.intent := "LIGHTS_ON";
          FileValidator.original_phrase := "Turn on the lights";
          FileValidator.variation := "turn_on_the_lights";
          FileValidator.file_format := "wav";
          FileValidator.file_size := 14;
          FileValidator.sample_rate := 16000 |} |}.

(** A reader of WAV headers that rejects every payload. *)
Definition wave_reject (_ : Py.bytes) : Py.res FileValidator.Wave_read :=
  Py.Raise (Py.Exn Py.WaveError "file does not start with RIFF id").

(** An in-memory bucket store, after the mocked client of the test
    suites: no call raises, a put replaces, a delete forgets. *)
Abbreviation mem_s3 := (gmap (string * string) Py.bytes).

Definition mem_upload_file (Bucket Key : string) (Body : Py.bytes)
    (Metadata : gmap string string) : Py.io mem_s3 unit :=
  λ st, (Py.Ok (), <[(Bucket, Key) := Body]> st).

Definition mem_delete_object (Bucket Key : string) : Py.io mem_s3 unit :=
  λ st, (Py.Ok (), delete (Bucket, Key) st).

(** No conversion tool installed. *)
Definition no_convert (_ _ : Pathlib.Path) : Py.io Disk.t unit :=
  Py.lift (Py.Raise (Py.Exn (Py.Other "ImportError") "convert_to_wav")).

(** backend/tests/test_file_manager.py *)
Definition file_manager : FileManager.t :=
  FileManager.Build (Pathlib.parse "/tmp/femtosense_poc") "test-bucket".

Definition sample_metadata : gmap string string :=
  {[ "language" := "korean"; "intent" := "LIGHTS_ON";
     "variation" := "turn_on_lights"; "voice_id" := "voice1" ]}.

Definition sample_audio_data : Py.bytes := Py.b "dummy audio data".

(** A disk that holds the base directory and nothing else, and an empty
    bucket. *)
Definition fresh_disk : Disk.t :=
  {[ Pathlib.parse "/tmp" := Disk.Dir;
     Pathlib.parse "/tmp/femtosense_poc" := Disk.Dir ]}.


Definition fresh_world : FileManager.world mem_s3 :=
  FileManager.World mem_s3 fresh_disk ∅.

(** A batch of two commands. Each phrase holds the word of its intent,
    so that every variation of the placeholder generator passes the
    intent filter. *)
Definition lights_row : gmap string string :=
  {[ "intent" := "lights"; "phrase" := "turn on the lights";
     "language" := "english" ]}.
Definition volume_row : gmap string string :=
  {[ "intent" := "volume"; "phrase" := "turn the volume up";
     "language" := "english" ]}.

Definition lights_command : gmap string string :=
  {[ "intent" := "LIGHTS"; "phrase" := "turn on the lights";
     "language" := "english" ]}.
Definition volume_command : gmap string string :=
  {[ "intent" := "VOLUME"; "phrase" := "turn the volume up";
     "language" := "english" ]}.

Definition read_two_commands (_ : string) (_ : Z)
  : Py.res InputProcessor.DataFrame :=
  Py.Ok {| InputProcessor.columns := ["intent"; "phrase"; "language"];
           InputProcessor.rows := [lights_row; volume_row] |}.

(** backend/tests/test_batch_processor.py: the command [LIGHTS_ON], whose
    intent is in no paraphrase of its phrase *)
Definition lights_on_row : gmap string string :=
  {[ "intent" := "LIGHTS_ON"; "phrase" := "Turn on the lights";
     "language" := "english" ]}.

Definition read_lights_on (_ : string) (_ : Z)
  : Py.res InputProcessor.DataFrame :=
  Py.Ok {| InputProcessor.columns := ["intent"; "phrase"; "language"];
           InputProcessor.rows := [lights_on_row] |}.

Definition always_valid (_ : string) : Py.res bool := Py.Ok true.

(** No [ffmpeg] on the machine. *)
Definition no_ffmpeg (_ : list Py.value) : Py.io Disk.t Z :=
  Py.lift (Py.Raise (Py.Exn Py.FileNotFoundError "ffmpeg")).

(** A speech synthesis that raises on every text about lights. *)
Definition synthesis_fails_on_lights (text language : string)
  : Py.res Py.bytes :=
  if Py.contains "lights" text
  then Py.Raise (Py.Exn (Py.Other "SynthesisError") "no voice for this text")
  else Py.Ok (Py.b "RIFF").

(** The pipeline of the samples: the in-memory bucket, no conversion
    tool, the placeholder text generation, and the futures completing in
    the reverse of the order of submission. *)
Definition run_batch (synthesis : string → string → Py.res Py.bytes)
    (read_table : string → Z → Py.res InputProcessor.DataFrame)
    (input_file : string) :=
  BatchProcessor.process_batch mem_s3 mem_upload_file no_convert
    no_ffmpeg BatchProcessor._call_gpt_api_placeholder synthesis always_valid
    read_table reverse file_manager input_file 0 fresh_world.

Definition lights_variations : list string :=
  [ "turn on the lights (variation 1)"; "turn on the lights (variation 2)";
    "turn on the lights (variation 3)"; "turn on the lights (variation 4)";
    "turn on the lights (variation 5)" ].

(** backend/tests/test_input_processor.py, [test_validate_row_valid],
    with white space added to the phrase *)
Definition volume_up_row : gmap string string :=
  {[ "intent" := "VOLUME_UP"; "phrase" := "  Increase   the volume ";
     "language" := "english" ]}.

(** The mocked client again, for [put_object]. *)
Definition mem_put_object (Bucket Key : string) (Body : Py.bytes)
    (ContentType ServerSideEncryption : string) : Py.io mem_s3 unit :=
  λ st, (Py.Ok (), <[(Bucket, Key) := Body]> st).

(** database/tests/test_file_storage.py: an audio file with its metadata *)
Definition matt_wav : FileValidator.AudioFile :=
  {| FileValidator.data := Py.b "RIFF";
     FileValidator.metadata :=
       {| FileValidator.language := "english";
          FileValidator.voice_profile := "Matt";
          FileValidator.intent := "LIGHTS_ON";
          FileValidator.original_phrase := "Turn on the lights";
          FileValidator.variation := "turn_on_the_lights";
          FileValidator.file_format := "wav";
          FileValidator.file_size := 4;
          FileValidator.sample_rate := 16000 |} |}.

(** The mocked client, reading: an absent key is a [ClientError], and a
    listing has no [Contents] when no key starts with the prefix. *)
Definition mem_get_object (Bucket Key : string) : Py.io mem_s3 Py.bytes :=
  λ st, match st !! (Bucket, Key) with
        | Some body => (Py.Ok body, st)
        | None => (Py.Raise (Py.Exn Py.ClientError "NoSuchKey"), st)
        end.

Definition mem_keys (Bucket Prefix : string) (st : gmap (string * string) Py.bytes) : list string :=
  filter (λ k, Py.startswith Prefix k = true)
         (omap (λ o : string * string * Py.bytes,
                  if bool_decide (o.1.1 = Bucket) then Some o.1.2 else None)
               (map_to_list st)).

Definition mem_list_objects_v2 (Bucket Prefix : string)
  : Py.io mem_s3 (option (list string)) :=
  λ st, (Py.Ok (match mem_keys Bucket Prefix st with
                | [] => None
                | keys => Some keys
                end), st).

(** A manager on one directory, a short command, and the world where
    that directory is the only thing there is. *)
Definition small_manager : FileManager.t :=
  FileManager.Build (Pathlib.MkPath true ["srv"]) "poc".

Definition small_metadata : gmap string string :=
  {[ "language" := "ko"; "intent" := "ON"; "variation" := "a" ]}.

Definition small_world : FileManager.world mem_s3 :=
  FileManager.World mem_s3 {[ Pathlib.MkPath true ["srv"] := Disk.Dir ]} ∅.

(** A disk with one recording, and tools that always succeed. *)
Definition take_disk : Disk.t :=
  {[ Pathlib.MkPath false ["take.wav"] := Disk.File (Py.b "RIFF") ]}.

Definition tools_succeed (_ : list Py.value) : Py.io Disk.t Z :=
  λ d, (Py.Ok 0%Z, d).

(** A command with one variation and no audio file. *)
Definition lights_on_bare : FileValidator.VoiceCommand :=
  {| FileValidator.command := lights_on;
     FileValidator.variations :=
       [ {| FileValidator.variation_id := "1";
            FileValidator.variation_phrase := "Switch on the lights";
            FileValidator.audio_files := [] |} ] |}.



(** A reader that finds no file. *)
Definition read_nothing (file_path : string) (_ : Z)
  : Py.res InputProcessor.DataFrame :=
  Py.Raise (Py.Exn Py.FileNotFoundError
              ("[Errno 2] No such file or directory: " +:+ Py.repr file_path)).

(** A table without the column [language]. *)
Definition read_two_columns (_ : string) (_ : Z)
  : Py.res InputProcessor.DataFrame :=
  Py.Ok {| InputProcessor.columns := ["intent"; "phrase"];
           InputProcessor.rows :=
             [ {[ "intent" := "LIGHTS"; "phrase" := "turn on the lights" ]} ] |}.

End Sample.

(* ===================================================================== *)
(** * Properties                                                          *)
(* ===================================================================== *)

(** ** Strings *)

Section StringFacts.
Import Py.

Lemma str_app_cons (c : ascii) (s1 s2 : string) :
  String c s1 +:+ s2 = String c (s1 +:+ s2).
Proof. reflexivity. Qed.

Lemma str_app_nil_l (s : string) : "" +:+ s = s.
Proof. reflexivity. Qed.

Lemma str_app_nil_r (s : string) : s +:+ "" = s.
Proof. induction s as [|c s IH]; [done|]. by rewrite str_app_cons, IH. Qed.

Lemma str_app_assoc (s1 s2 s3 : string) :
  (s1 +:+ s2) +:+ s3 = s1 +:+ (s2 +:+ s3).
Proof.
  induction s1 as [|c s1 IH]; [done|]. by rewrite !str_app_cons, IH.
Qed.

Lemma str_app_eq_nil (s1 s2 : string) : s1 +:+ s2 = "" → s1 = "" ∧ s2 = "".
Proof. destruct s1; [done|]. rewrite str_app_cons. discriminate. Qed.

Lemma str_app_length (s1 s2 : string) :
  String.length (s1 +:+ s2) = String.length s1 + String.length s2.
Proof.
  induction s1 as [|c s1 IH]; [done|]. rewrite str_app_cons. cbn. by rewrite IH.
Qed.

Lemma str_app_inv_tail (s1 s2 t : string) : s1 +:+ t = s2 +:+ t → s1 = s2.
Proof.
  revert s2. induction s1 as [|c s1 IH]; intros [|d s2] H.
  - done.
  - apply (f_equal String.length) in H. rewrite !str_app_length in H.
    cbn in H. lia.
  - apply (f_equal String.length) in H. rewrite !str_app_length in H.
    cbn in H. lia.
  - rewrite !str_app_cons in H. injection H as -> H. f_equal. by apply IH.
Qed.

Lemma str_empty_true (s : string) : str_empty s = true ↔ s = "".
Proof. destruct s; cbn; split; congruence. Qed.

Lemma str_empty_false (s : string) : str_empty s = false ↔ s ≠ "".
Proof. destruct s; cbn; split; congruence. Qed.

Lemma str_all_app p (s1 s2 : string) :
  str_all p (s1 +:+ s2) = str_all p s1 && str_all p s2.
Proof.
  induction s1 as [|c s1 IH]; [done|]. rewrite str_app_cons. cbn. rewrite IH.
  by rewrite andb_assoc.
Qed.

Lemma str_all_map (p : ascii → bool) f (s : string) :
  (∀ c, p (f c) = true) → str_all p (str_map f s) = true.
Proof. intros H. induction s as [|c s IH]; [done|]. cbn. by rewrite H, IH. Qed.

Lemma str_all_impl (p q : ascii → bool) (s : string) :
  (∀ c, p c = true → q c = true) → str_all p s = true → str_all q s = true.
Proof.
  intros H. induction s as [|c s IH]; [done|]. cbn.
  intros [Hc Hs]%andb_true_iff. by rewrite (H _ Hc), IH.
Qed.

Lemma str_all_lstrip p q (s : string) :
  str_all p s = true → str_all p (lstrip_by q s) = true.
Proof.
  induction s as [|c s IH]; [done|]. cbn.
  intros [Hc Hs]%andb_true_iff. destruct (q c); [by apply IH|].
  cbn. by rewrite Hc, Hs.
Qed.

Lemma str_all_rstrip p q (s : string) :
  str_all p s = true → str_all p (rstrip_by q s) = true.
Proof.
  induction s as [|c s IH]; [done|]. cbn.
  intros [Hc Hs]%andb_true_iff.
  destruct (str_empty (rstrip_by q s) && q c); [done|].
  cbn. by rewrite Hc, IH.
Qed.

Lemma lstrip_head q (s : string) :
  match lstrip_by q s with String c _ => q c = false | EmptyString => True end.
Proof.
  induction s as [|c s IH]; [done|]. cbn.
  destruct (q c) eqn:E; [done|]. done.
Qed.

Lemma rstrip_head q c (s : string) :
  q c = false →
  match rstrip_by q (String c s) with
  | String d _ => d = c
  | EmptyString => False
  end.
Proof. intros E. cbn. rewrite E, andb_false_r. done. Qed.

(** Neither end of a stripped string is a stripped character. *)
Lemma rstrip_last q (s : string) :
  ∀ t c, rstrip_by q s = t +:+ String c "" → q c = false.
Proof.
  induction s as [|a s IH]; intros t c; cbn.
  - destruct t; discriminate.
  - destruct (rstrip_by q s) as [|b r] eqn:E; cbn.
    + destruct (q a) eqn:Ea; [destruct t; discriminate|].
      destruct t as [|x [|y t]]; rewrite ?str_app_cons, ?str_app_nil_l;
        intros H; simplify_eq. done.
    + destruct t as [|x t]; rewrite ?str_app_cons, ?str_app_nil_l; intros H.
      * simplify_eq.
      * injection H as -> H. by apply (IH t c).
Qed.

Lemma strip_first q (s : string) c t :
  strip_by q s = String c t → q c = false.
Proof.
  unfold strip_by. pose proof (lstrip_head q s) as H.
  destruct (lstrip_by q s) as [|d r]; [discriminate|].
  pose proof (rstrip_head q d r H) as H'.
  intros E. rewrite E in H'. by subst.
Qed.

Lemma strip_last q (s : string) t c :
  strip_by q s = t +:+ String c "" → q c = false.
Proof. apply rstrip_last. Qed.
End StringFacts.

(** ** Regular expressions: the matcher decides [Matches] *)

Section RegexFacts.
Import Py Regex.

Lemma nullable_complete r s : Matches r s → s = "" → nullable r = true.
Proof.
  induction 1 as [|p c Hc|r1 r2 s1 s2 _ IH1 _ IH2|r1 r2 s _ IH|r1 r2 s _ IH
                 |r|r s1 s2 _ _ _ _]; intros E; cbn; try done.
  - apply str_app_eq_nil in E as [-> ->]. by rewrite IH1, IH2.
  - by rewrite IH.
  - rewrite IH by done. apply orb_true_r.
Qed.

Lemma nullable_sound r : nullable r = true → Matches r "".
Proof.
  induction r as [| |p|r1 IH1 r2 IH2|r1 IH1 r2 IH2|r IH]; cbn; intros H;
    try discriminate.
  - constructor.
  - apply andb_true_iff in H as [H1 H2].
    change "" with ("" +:+ ""). constructor; auto.
  - apply orb_true_iff in H as [H|H]; [apply MAltL|apply MAltR]; auto.
  - constructor.
Qed.

Lemma deriv_complete r s :
  Matches r s → ∀ c s', s = String c s' → Matches (deriv c r) s'.
Proof.
  induction 1 as [|p c0 Hc|r1 r2 s1 s2 H1 IH1 H2 IH2|r1 r2 s _ IH
                 |r1 r2 s _ IH|r|r s1 s2 H1 IH1 H2 IH2];
    intros c s' E; cbn.
  - discriminate.
  - injection E as -> <-. rewrite Hc. constructor.
  - destruct s1 as [|a s1].
    + rewrite str_app_nil_l in E.
      rewrite (nullable_complete _ _ H1 eq_refl).
      apply MAltR. by apply IH2.
    + rewrite str_app_cons in E. injection E as -> <-.
      assert (Matches (Cat (deriv c r1) r2) (s1 +:+ s2)) as HC
        by (constructor; [by apply IH1|done]).
      destruct (nullable r1); [by apply MAltL|done].
  - apply MAltL. by apply IH.
  - apply MAltR. by apply IH.
  - discriminate.
  - destruct s1 as [|a s1].
    + rewrite str_app_nil_l in E. by apply IH2.
    + rewrite str_app_cons in E. injection E as -> <-.
      constructor; [by apply IH1|done].
Qed.

Lemma deriv_sound r : ∀ c s, Matches (deriv c r) s → Matches r (String c s).
Proof.
  induction r as [| |p|r1 IH1 r2 IH2|r1 IH1 r2 IH2|r IH]; intros c s; cbn.
  - inversion 1.
  - inversion 1.
  - destruct (p c) eqn:E; inversion 1; subst. by constructor.
  - assert (∀ t, Matches (Cat (deriv c r1) r2) t →
                 Matches (Cat r1 r2) (String c t)) as HC.
    { intros t Ht. inversion Ht as [| |? ? s1 s2 Ha Hb| | | |]; subst.
      rewrite <- str_app_cons. constructor; [by apply IH1|done]. }
    destruct (nullable r1) eqn:N; [|by apply HC].
    inversion 1 as [| | |? ? ? Ha|? ? ? Hb| |]; subst; [by apply HC|].
    rewrite <- (str_app_nil_l (String c s)).
    constructor; [by apply nullable_sound|by apply IH2].
  - inversion 1; subst; [apply MAltL|apply MAltR]; auto.
  - inversion 1 as [| |? ? s1 s2 Ha Hb| | | |]; subst.
    rewrite <- str_app_cons. constructor; [by apply IH|done].
Qed.

Lemma matchb_spec r s : matchb r s = true ↔ Matches r s.
Proof.
  revert r. induction s as [|c s IH]; intros r; cbn.
  - split; [apply nullable_sound|].
    intros H. by apply (nullable_complete r "").
  - rewrite IH. split; [apply deriv_sound|].
    intros H. by apply (deriv_complete r (String c s)).
Qed.

Lemma matches_cat_inv r1 r2 s :
  Matches (Cat r1 r2) s →
  ∃ s1 s2, s = s1 +:+ s2 ∧ Matches r1 s1 ∧ Matches r2 s2.
Proof. inversion 1; subst; eauto. Qed.

Lemma matches_lit t s : Matches (Lit t) s ↔ s = t.
Proof.
  revert s. induction t as [|c t IH]; intros s; cbn.
  - split; [by inversion 1|intros ->; constructor].
  - split.
    + intros (s1 & s2 & -> & H1 & H2)%matches_cat_inv.
      apply IH in H2 as ->. inversion H1 as [|? ? E| | | | |]; subst.
      unfold is_char in E. apply bool_decide_eq_true in E. by subst.
    + intros ->. rewrite <- (str_app_nil_l t), <- str_app_cons.
      constructor; [|by apply IH].
      constructor. unfold is_char. by apply bool_decide_eq_true.
Qed.

Lemma matches_star_chr p s :
  Matches (Star (Chr p)) s ↔ str_all p s = true.
Proof.
  split.
  - intros H. remember (Star (Chr p)) as r eqn:Er.
    induction H as [| | | | | |r s1 s2 H1 _ H2 IH2]; try discriminate.
    + done.
    + injection Er as ->. inversion H1; subst.
      rewrite str_app_cons, str_app_nil_l. cbn. apply andb_true_iff; auto.
  - induction s as [|c s IH]; cbn; [constructor|].
    intros [Hc Hs]%andb_true_iff.
    rewrite <- (str_app_nil_l s), <- str_app_cons.
    constructor; [by constructor|by apply IH].
Qed.

Lemma matches_plus_chr p s :
  Matches (Plus (Chr p)) s ↔ s ≠ "" ∧ str_all p s = true.
Proof.
  unfold Plus. split.
  - intros (s1 & s2 & -> & H1 & H2)%matches_cat_inv.
    inversion H1; subst. apply matches_star_chr in H2.
    rewrite str_app_cons, str_app_nil_l. cbn. split; [done|].
    apply andb_true_iff; auto.
  - intros [Hne Hall]. destruct s as [|c s]; [done|].
    cbn in Hall. apply andb_true_iff in Hall as [Hc Hs].
    rewrite <- (str_app_nil_l s), <- str_app_cons.
    constructor; [by constructor|by apply matches_star_chr].
Qed.

(** A word of [canonical_re] is four components, the last one followed
    by [.wav]. *)
Lemma matches_canonical s :
  Matches canonical_re s ↔
  ∃ a b c d, component a ∧ component b ∧ component c ∧ component d ∧
    s = a +:+ "/" +:+ b +:+ "/" +:+ c +:+ "/" +:+ d +:+ ".wav".
Proof.
  unfold canonical_re, component. split.
  - intros (a & ? & -> & Ha & H)%matches_cat_inv.
    apply matches_cat_inv in H as (? & ? & -> & ->%matches_lit & H).
    apply matches_cat_inv in H as (b & ? & -> & Hb & H).
    apply matches_cat_inv in H as (? & ? & -> & ->%matches_lit & H).
    apply matches_cat_inv in H as (c & ? & -> & Hc & H).
    apply matches_cat_inv in H as (? & ? & -> & ->%matches_lit & H).
    apply matches_cat_inv in H as (d & ? & -> & Hd & ->%matches_lit).
    apply matches_plus_chr in Ha, Hb, Hc, Hd.
    exists a, b, c, d. done.
  - intros (a & b & c & d & Ha & Hb & Hc & Hd & ->).
    apply matches_plus_chr in Ha, Hb, Hc, Hd.
    repeat (constructor; [done || by apply matches_lit|]).
    by apply matches_lit.
Qed.

(** A component holds no slash, so a path splits in one way only. *)
Lemma component_split_unique (a l r1 r2 : string) :
  str_all path_class a = true → str_all path_class l = true →
  a +:+ "/" +:+ r1 = l +:+ "/" +:+ r2 → a = l ∧ r1 = r2.
Proof.
  revert l. induction a as [|x a IH]; intros [|y l] Ha Hl E;
    rewrite ?str_app_cons, ?str_app_nil_l in E.
  - by injection E as ->.
  - injection E as <- _. cbn in Hl. discriminate.
  - injection E as -> _. cbn in Ha. discriminate.
  - injection E as -> E.
    cbn in Ha, Hl.
    apply andb_true_iff in Ha as [_ Ha], Hl as [_ Hl].
    destruct (IH l Ha Hl) as [-> ->]; [|done].
    by rewrite ?str_app_cons, ?str_app_nil_l.
Qed.
End RegexFacts.

(** ** Splitting a path at its slashes *)

Section SplitFacts.
Import Py.

Lemma split_on_nonempty sep (s : string) : split_on sep s ≠ [].
Proof.
  destruct s as [|c s]; cbn; [done|].
  case_bool_decide; [done|]. by destruct (split_on sep s).
Qed.

Lemma split_on_app sep (a r : string) :
  split_on sep (a +:+ String sep r) = split_on sep a ++ split_on sep r.
Proof.
  induction a as [|c a IH]; rewrite ?str_app_cons, ?str_app_nil_l; cbn.
  - by rewrite bool_decide_eq_true_2.
  - case_bool_decide; [by rewrite IH|].
    rewrite IH. pose proof (split_on_nonempty sep a).
    by destruct (split_on sep a).
Qed.

Lemma split_on_free (s : string) :
  str_all not_slash s = true → split_on "/"%char s = [s].
Proof.
  induction s as [|c s IH]; cbn; [done|].
  intros [Hc Hs]%andb_true_iff. unfold not_slash in Hc.
  apply negb_true_iff, bool_decide_eq_false in Hc.
  rewrite bool_decide_eq_false_2 by done. by rewrite IH.
Qed.

Lemma startswith_free (c : ascii) (s : string) :
  str_all (λ x, negb (bool_decide (x = c))) s = true →
  startswith (String c "") s = false.
Proof.
  destruct s as [|d s]; cbn; [done|].
  intros [Hd _]%andb_true_iff.
  apply negb_true_iff, bool_decide_eq_false in Hd.
  rewrite bool_decide_eq_false_2; [done|congruence].
Qed.

Lemma path_class_not_slash (s : string) :
  str_all Regex.path_class s = true → str_all not_slash s = true.
Proof.
  apply str_all_impl. by intros [[] [] [] [] [] [] [] []].
Qed.

(** [Path(s)] for a word without slash that is not a lone dot *)
Lemma parse_simple (s : string) :
  str_all not_slash s = true → s ≠ "." →
  Pathlib.parse s = Pathlib.MkPath false (if str_empty s then [] else [s]).
Proof.
  intros Hs Hd. unfold Pathlib.parse.
  rewrite (startswith_free "/"%char) by done.
  rewrite split_on_free by done. f_equal.
  destruct s as [|c s].
  - rewrite filter_cons_False; [done|]. by intros [? _].
  - by rewrite filter_cons_True.
Qed.
End SplitFacts.

(** ** database/src/utils/path_generator.py *)

Section PathGeneratorFacts.
Import Py PathGenerator.

Lemma str_map_map f g (s : string) :
  str_map f (str_map g s) = str_map (λ c, f (g c)) s.
Proof. induction s as [|c s IH]; [done|]. cbn. by rewrite IH. Qed.

(** A sanitized component holds characters of [[a-z0-9_-]] only ... *)
Lemma sanitize_class (x : string) :
  str_all Regex.path_class (sanitize_path_component x) = true.
Proof.
  unfold sanitize_path_component, strip_by, lower, re_sub.
  apply str_all_rstrip, str_all_lstrip.
  rewrite str_map_map. apply str_all_map.
  by intros [[] [] [] [] [] [] [] []].
Qed.

(** ... and neither starts nor ends with a hyphen. *)
Lemma sanitize_first (x : string) c t :
  sanitize_path_component x = String c t → c ≠ "-"%char.
Proof.
  intros H%strip_first. unfold is_char in H.
  by apply bool_decide_eq_false in H.
Qed.

Lemma sanitize_last (x : string) t c :
  sanitize_path_component x = t +:+ String c "" → c ≠ "-"%char.
Proof.
  intros H%strip_last. unfold is_char in H.
  by apply bool_decide_eq_false in H.
Qed.

(** The four templates of [FILE_STRUCTURE] are one replacement field. *)
Lemma format1_field (key value : string) :
  key ∈ ["bucket_name"; "language"; "intent"; "phrase_variation"] →
  StorageConfig.format1 ("{" +:+ key +:+ "}") key value = value.
Proof.
  intros H. repeat (apply elem_of_cons in H as [->|H]);
    [..|by apply elem_of_nil in H];
    unfold StorageConfig.format1; vm_compute; apply str_app_nil_r.
Qed.

Lemma get_s3_path_eq cfg (l i v : string) :
  StorageConfig.get_s3_path cfg l i v =
  Ok (StorageConfig.s3_bucket cfg +:+ "/" +:+ l +:+ "/" +:+ i +:+ "/" +:+ v).
Proof.
  unfold StorageConfig.get_s3_path.
  change (getitem StorageConfig.FILE_STRUCTURE "bucket")
    with (Ok (A:=string) "{bucket_name}").
  change (getitem StorageConfig.FILE_STRUCTURE "language")
    with (Ok (A:=string) "{language}").
  change (getitem StorageConfig.FILE_STRUCTURE "intent")
    with (Ok (A:=string) "{intent}").
  change (getitem StorageConfig.FILE_STRUCTURE "variation")
    with (Ok (A:=string) "{phrase_variation}").
  cbn.
  rewrite (format1_field "bucket_name"), (format1_field "language"),
    (format1_field "intent"), (format1_field "phrase_variation");
    [done|set_solver..].
Qed.

Lemma generate_s3_path_eq cfg vc (var voice : string) :
  generate_s3_path cfg vc var voice =
  Ok (StorageConfig.s3_bucket cfg +:+ "/" +:+
      (sanitize_path_component (language vc) +:+ "/" +:+
       sanitize_path_component (intent vc) +:+ "/" +:+
       sanitize_path_component var +:+ "/" +:+
       sanitize_path_component voice +:+ ".wav")).
Proof.
  unfold generate_s3_path. rewrite get_s3_path_eq. cbn.
  by rewrite !str_app_assoc.
Qed.
End PathGeneratorFacts.

Section CanonicalPath.
Import Py PathGenerator Regex.

Lemma component_not_dot (x : string) :
  str_all path_class x = true → x ≠ ".".
Proof. by intros H ->. Qed.

Lemma div_simple p (x : string) :
  str_all path_class x = true →
  Pathlib.div p x =
  Pathlib.MkPath (Pathlib.is_abs p)
                 (Pathlib.parts p ++ filter (λ y, y ≠ "") [x]).
Proof.
  intros Hx. unfold Pathlib.div.
  rewrite parse_simple
    by eauto using path_class_not_slash, component_not_dot.
  unfold Pathlib.joinpath. cbn [Pathlib.is_abs Pathlib.parts].
  do 2 f_equal.
  destruct x; [by rewrite filter_cons_False by naive_solver|].
  by rewrite filter_cons_True.
Qed.

Lemma div_wav p (x : string) :
  str_all path_class x = true →
  Pathlib.div p (x +:+ ".wav") =
  Pathlib.MkPath (Pathlib.is_abs p) (Pathlib.parts p ++ [x +:+ ".wav"]).
Proof.
  intros Hx. unfold Pathlib.div. rewrite parse_simple.
  - unfold Pathlib.joinpath. cbn [Pathlib.is_abs Pathlib.parts].
    do 2 f_equal. destruct x; [done|]. by rewrite str_app_cons.
  - rewrite str_all_app. by rewrite path_class_not_slash.
  - intros E. apply (f_equal String.length) in E.
    rewrite str_app_length in E. cbn in E. lia.
Qed.

(** C4, as amended. The S3 path of an audio file depends on nothing but
    the configuration and the four-tuple (language, intent, variation
    id, voice id). It is the bucket name, a slash, and a remainder
    [l/i/v/o.wav] whose four components are the sanitized inputs; each
    of them holds only characters of [[a-z0-9_-]], and the remainder
    matches [^[a-z0-9_-]+/[a-z0-9_-]+/[a-z0-9_-]+/[a-z0-9_-]+\.wav$]
    exactly when none of the four is empty. *)
Theorem generate_s3_path_shape cfg vc (variation_id voice_id : string) :
  let l := sanitize_path_component (language vc) in
  let i := sanitize_path_component (intent vc) in
  let v := sanitize_path_component variation_id in
  let o := sanitize_path_component voice_id in
  let rest := l +:+ "/" +:+ i +:+ "/" +:+ v +:+ "/" +:+ o +:+ ".wav" in
  (∀ id' phrase' distractor',
      generate_s3_path cfg
        {| vc_id := id'; phrase := phrase'; intent := intent vc;
           language := language vc; is_distractor := distractor' |}
        variation_id voice_id
      = generate_s3_path cfg vc variation_id voice_id)
  ∧ generate_s3_path cfg vc variation_id voice_id
    = Ok (StorageConfig.s3_bucket cfg +:+ "/" +:+ rest)
  ∧ Forall (λ x, str_all path_class x = true) [l; i; v; o]
  ∧ (Matches canonical_re rest ↔ l ≠ "" ∧ i ≠ "" ∧ v ≠ "" ∧ o ≠ "").
Proof.
  intros l i v o rest.
  pose proof (sanitize_class (language vc)) as Hl.
  pose proof (sanitize_class (intent vc)) as Hi.
  pose proof (sanitize_class variation_id) as Hv.
  pose proof (sanitize_class voice_id) as Ho.
  split; [|split; [|split]].
  - intros. by rewrite !generate_s3_path_eq.
  - apply generate_s3_path_eq.
  - repeat constructor; done.
  - rewrite matches_canonical. unfold component. split.
    + intros (a & b & c & d & [Ha Ha'] & [Hb Hb'] & [Hc Hc'] & [Hd Hd'] & E).
      unfold rest in E. symmetry in E.
      apply component_split_unique in E as [-> E]; [|done..].
      apply component_split_unique in E as [-> E]; [|done..].
      apply component_split_unique in E as [-> E]; [|done..].
      apply str_app_inv_tail in E as ->. done.
    + intros (? & ? & ? & ?). exists l, i, v, o. done.
Qed.

(** C9, as amended. Path generation has no failing case, whatever the
    sanitized components are, empty ones included: the S3 path is
    returned with, after the segments of the bucket name, the four
    sanitized components as its segments (an empty component is an
    empty segment), and the local path is returned with the empty ones
    among language, intent and variation left out. *)
Theorem path_generation_total cfg vc (variation_id voice_id : string) :
  let l := sanitize_path_component (language vc) in
  let i := sanitize_path_component (intent vc) in
  let v := sanitize_path_component variation_id in
  let o := sanitize_path_component voice_id in
  ∃ key,
    generate_s3_path cfg vc variation_id voice_id = Ok key
    ∧ split_on "/"%char key
      = split_on "/"%char (StorageConfig.s3_bucket cfg)
        ++ [l; i; v; o +:+ ".wav"]
    ∧ generate_local_path cfg vc variation_id voice_id
      = Ok (Pathlib.MkPath
              (Pathlib.is_abs (StorageConfig.local_root cfg))
              (Pathlib.parts (StorageConfig.local_root cfg)
               ++ filter (λ x, x ≠ "") [l; i; v] ++ [o +:+ ".wav"])).
Proof.
  intros l i v o.
  pose proof (sanitize_class (language vc)) as Hl.
  pose proof (sanitize_class (intent vc)) as Hi.
  pose proof (sanitize_class variation_id) as Hv.
  pose proof (sanitize_class voice_id) as Ho.
  eexists. split; [apply generate_s3_path_eq|]. split.
  - fold l i v o.
    rewrite !str_app_cons, !str_app_nil_l, !split_on_app.
    rewrite (split_on_free l), (split_on_free i), (split_on_free v)
      by by apply path_class_not_slash.
    rewrite (split_on_free (o +:+ ".wav")); [done|].
    rewrite str_all_app. by rewrite path_class_not_slash.
  - unfold generate_local_path, StorageConfig.get_local_path.
    fold l i v o.
    rewrite (div_simple _ l), (div_simple _ i), (div_simple _ v),
      div_wav by done.
    cbn [Pathlib.is_abs Pathlib.parts]. do 2 f_equal.
    rewrite <- !(assoc_L (++)). f_equal.
    change [l; i; v] with ([l] ++ [i] ++ [v]).
    by rewrite !filter_app, <- !(assoc_L (++)).
Qed.

Lemma path_generation_total_witness :
  ∃ key,
    generate_s3_path Sample.storage_config Sample.lights_on "!!!" "Matt"
    = Ok key
    ∧ split_on "/"%char key
      = ["femtosense-voice-commands"; "english"; "lights_on"; "";
         "matt.wav"]
    ∧ generate_local_path Sample.storage_config Sample.lights_on "!!!"
        "Matt"
      = Ok (Pathlib.MkPath true
              ["home"; "femto"; "femtosense"; "voice_commands";
               "english"; "lights_on"; "matt.wav"]).
Proof.
  exact (path_generation_total Sample.storage_config Sample.lights_on
           "!!!" "Matt").
Defined.

(** C4 fails as stated: for the command of the test suite the S3 path
    has the bucket name in front, five components in all, and the
    expression asks for four. *)
Lemma generate_s3_path_not_canonical :
  generate_s3_path Sample.storage_config Sample.lights_on "v1" "Matt"
  = Ok "femtosense-voice-commands/english/lights_on/v1/matt.wav"
  ∧ ¬ Matches canonical_re
        "femtosense-voice-commands/english/lights_on/v1/matt.wav".
Proof.
  split; [by vm_compute|].
  rewrite <- matchb_spec. by vm_compute.
Qed.

(** C9 fails as stated: the variation id ["!!!"] sanitizes to the empty
    string, and both generators return a path instead of raising. *)
Lemma empty_component_no_error :
  sanitize_path_component "!!!" = ""
  ∧ generate_s3_path Sample.storage_config Sample.lights_on "!!!" "Matt"
    = Ok "femtosense-voice-commands/english/lights_on//matt.wav"
  ∧ generate_local_path Sample.storage_config Sample.lights_on "!!!" "Matt"
    = Ok (Pathlib.parse
            "/home/femto/femtosense/voice_commands/english/lights_on/matt.wav")
  ∧ ¬ raises
        (generate_s3_path Sample.storage_config Sample.lights_on "!!!" "Matt")
        (Other "InvalidPathComponent")
  ∧ ¬ raises
        (generate_local_path Sample.storage_config Sample.lights_on "!!!"
           "Matt")
        (Other "InvalidPathComponent").
Proof.
  repeat split; try by vm_compute.
  - intros [msg H]. vm_compute in H. discriminate.
  - intros [msg H]. vm_compute in H. discriminate.
Qed.
End CanonicalPath.

(** ** backend/src/core/input_processor.py *)

Section InputProcessorFacts.
Import Py InputProcessor.

(** C6 fails on the code. The row with the phrase ["lights ! on"] is
    valid; its command has the phrase ["lights  on"], with two spaces,
    because white space is collapsed before the punctuation is dropped;
    validating that command again gives the phrase ["lights on"], a
    different command. *)
Lemma validate_row_twice_differs :
  validate_row Sample.row_mark
  = Ok {[ "intent" := "LIGHTS_ON"; "phrase" := "lights  on";
          "language" := "english" ]}
  ∧ validate_row {[ "intent" := "LIGHTS_ON"; "phrase" := "lights  on";
                    "language" := "english" ]}
    = Ok {[ "intent" := "LIGHTS_ON"; "phrase" := "lights on";
            "language" := "english" ]}
  ∧ ({[ "intent" := "LIGHTS_ON"; "phrase" := "lights  on";
        "language" := "english" ]} : row)
    ≠ {[ "intent" := "LIGHTS_ON"; "phrase" := "lights on";
         "language" := "english" ]}.
Proof.
  split; [reflexivity|]. split; [reflexivity|].
  intros E. apply (f_equal (λ m : row, m !! "phrase")) in E.
  discriminate E.
Qed.

(** The command of a valid row need not even be valid: the phrase
    ["! !"] is sanitized to one space, which is not empty, and the
    second validation rejects it. *)
Lemma validate_row_twice_fails :
  validate_row Sample.row_marks_only
  = Ok {[ "intent" := "LIGHTS_ON"; "phrase" := " ";
          "language" := "english" ]}
  ∧ validate_row {[ "intent" := "LIGHTS_ON"; "phrase" := " ";
                    "language" := "english" ]}
    = Raise (Exn ValidationError "Intent and phrase cannot be empty").
Proof. split; reflexivity. Qed.
End InputProcessorFacts.

(** ** database/src/utils/file_validator.py *)

Section FileValidatorFacts.
Import Py FileValidator.

Lemma BytesIO_unbound :
  load_name "BytesIO" = Raise (Exn NameError "name 'BytesIO' is not defined").
Proof. by vm_compute. Qed.

Lemma validate_wav_format_NameError wave_open (wav_data : bytes) :
  validate_wav_format wave_open wav_data
  = Raise (Exn NameError "name 'BytesIO' is not defined").
Proof.
  unfold validate_wav_format.
  change (load_name "wave") with (Ok ()).
  rewrite BytesIO_unbound. reflexivity.
Qed.

(** C10. [validate_wav_format] raises [NameError] on every payload,
    whatever the WAV reader would say, since [BytesIO] is not bound in
    the module and the handler only takes [wave.Error]; and
    [validate_audio_file] raises it for every audio file of at most
    [MAX_FILE_SIZE] bytes. *)
Theorem validators_raise_NameError wave_open :
  (∀ wav_data : bytes, raises (validate_wav_format wave_open wav_data) NameError)
  ∧ (∀ audio_file,
       (len (data audio_file) ≤ MAX_FILE_SIZE)%Z →
       raises (validate_audio_file wave_open audio_file) NameError).
Proof.
  split.
  - intros wav_data. eexists. apply validate_wav_format_NameError.
  - intros audio_file Hsize. eexists. unfold validate_audio_file.
    rewrite bool_decide_eq_false_2 by lia.
    rewrite validate_wav_format_NameError. reflexivity.
Qed.

Lemma validators_raise_NameError_witness :
  (len (data Sample.not_a_wav) ≤ MAX_FILE_SIZE)%Z
  ∧ raises (validate_wav_format Sample.wave_reject (data Sample.not_a_wav))
           NameError
  ∧ raises (validate_audio_file Sample.wave_reject Sample.not_a_wav) NameError.
Proof.
  assert (len (data Sample.not_a_wav) ≤ MAX_FILE_SIZE)%Z as H
    by (vm_compute; discriminate).
  split; [exact H|]. split.
  - exact (proj1 (validators_raise_NameError Sample.wave_reject) _).
  - exact (proj2 (validators_raise_NameError Sample.wave_reject) _ H).
Defined.
End FileValidatorFacts.

(** ** The local file system and backend/src/core/file_manager.py *)

Section DiskFacts.
Import Py Pathlib.

Lemma getitem_Some (d : gmap string string) (k v : string) :
  d !! k = Some v → getitem d k = Ok v.
Proof. unfold getitem. by intros ->. Qed.

Lemma lookup_nonroot (d : Disk.t) p :
  parts p ≠ [] → Disk.lookup d p = d !! p.
Proof. unfold Disk.lookup. by destruct (parts p). Qed.





Lemma long_name_from_shorter (rest : list string) : ∀ pre q,
  Disk.long_name_from pre rest = Some q →
  length q < length pre + length rest.
Proof.
  induction rest as [|x rest IH]; intros pre q; cbn; [done|].
  case_bool_decide as Hx.
  - intros [= <-]. lia.
  - intros H%IH. rewrite length_app in H. cbn in H. lia.
Qed.

Lemma rfind_tail_wav (y : string) :
  rfind_tail "."%char (y +:+ ".wav") = Some ".wav".
Proof.
  induction y as [|a y IH]; [done|].
  rewrite str_app_cons. cbn. by rewrite IH.
Qed.

Lemma suffix_of_name_wav (x : string) :
  x ≠ "" → suffix_of_name (x +:+ ".wav") = ".wav".
Proof.
  destruct x as [|a y]; [done|]. intros _.
  rewrite str_app_cons. cbn. by rewrite rfind_tail_wav.
Qed.

Lemma name_snoc abs ps (n : string) : name (MkPath abs (ps ++ [n])) = n.
Proof. apply last_last. Qed.

Lemma parent_snoc abs ps (n : string) :
  parent (MkPath abs (ps ++ [n])) = MkPath abs ps.
Proof. unfold parent. cbn. by rewrite removelast_last. Qed.

Lemma simple_spec (s : string) :
  simple s = true → str_all not_slash s = true ∧ s ≠ "" ∧ s ≠ ".".
Proof.
  unfold simple. intros [[H1 H2]%andb_true_iff H3]%andb_true_iff.
  apply negb_true_iff, bool_decide_eq_false in H2, H3. done.
Qed.

Lemma div_one p (s : string) :
  simple s = true → div p s = MkPath (is_abs p) (parts p ++ [s]).
Proof.
  intros (Hs & Hne & Hd)%simple_spec. unfold div.
  rewrite parse_simple by done. by destruct s.
Qed.

Lemma of_segments_simple (l i n : string) :
  simple l = true → simple i = true → simple n = true →
  of_segments [l; i; n] = MkPath false [l; i; n].
Proof.
  intros Hl Hi Hn. unfold of_segments. cbn [foldl].
  by rewrite !div_one.
Qed.
End DiskFacts.

Section FileManagerFacts.
Import Py Pathlib FileManager.
Context {S3 : Type}.
Variable upload_file : string → string → bytes → gmap string string → io S3 unit.
Variable delete_object : string → string → io S3 unit.
Variable convert_to_wav : Path → Path → io Disk.t unit.

Lemma res_bind_Ok {A B} (a : A) (k : A → res B) : (Ok a ≫= k) = k a.
Proof. reflexivity. Qed.

Lemma io_bind_Ok {St A B} (m : io St A) (k : A → io St B) st a st' :
  m st = (Ok a, st') → (m ≫= k) st = k a st'.
Proof. unfold mbind, io_bind. by intros ->. Qed.

Lemma io_bind_Raise {St A B} (m : io St A) (k : A → io St B) st e st' :
  m st = (Raise e, st') → (m ≫= k) st = (Raise e, st').
Proof. unfold mbind, io_bind. by intros ->. Qed.

Lemma io_bind_lift {St A B} (a : A) (k : A → io St B) st :
  (lift (Ok a) ≫= k) st = k a st.
Proof. reflexivity. Qed.


Lemma is_dir_insert_ne (d : Disk.t) p q x :
  p ≠ q → Disk.is_dir (<[p := x]> d) q = Disk.is_dir d q.
Proof.
  intros Hne. unfold Disk.is_dir, Disk.lookup.
  destruct (parts q); [done|]. by rewrite lookup_insert_ne.
Qed.

Lemma is_dir_delete_ne (d : Disk.t) p q :
  p ≠ q → Disk.is_dir (delete p d) q = Disk.is_dir d q.
Proof.
  intros Hne. unfold Disk.is_dir, Disk.lookup.
  destruct (parts q); [done|]. by rewrite lookup_delete_ne.
Qed.

Lemma long_name_not_self p (q : list string) :
  Disk.long_name_from [] (parts p) = Some q → p ≠ MkPath (is_abs p) q.
Proof.
  intros H%long_name_from_shorter Heq. destruct p as [a ps].
  cbn in *. simplify_eq. lia.
Qed.

Lemma name_too_long_insert (d : Disk.t) p x :
  Disk.name_too_long (<[p := x]> d) p = Disk.name_too_long d p.
Proof.
  unfold Disk.name_too_long. f_equal.
  destruct (Disk.long_name_from [] (parts p)) as [q|] eqn:E; [|done].
  apply is_dir_insert_ne. by apply long_name_not_self.
Qed.

Lemma name_too_long_delete (d : Disk.t) p :
  Disk.name_too_long (delete p d) p = Disk.name_too_long d p.
Proof.
  unfold Disk.name_too_long. f_equal.
  destruct (Disk.long_name_from [] (parts p)) as [q|] eqn:E; [|done].
  apply is_dir_delete_ne. by apply long_name_not_self.
Qed.


Lemma file_name_simple (variation voice_id : string) :
  str_all not_slash variation = true → str_all not_slash voice_id = true →
  simple (variation +:+ "_" +:+ voice_id +:+ ".wav") = true.
Proof.
  intros Hv Ho. unfold simple.
  rewrite !str_all_app, Hv, Ho. cbn [andb].
  rewrite !bool_decide_eq_false_2; [done|..];
    intros E; apply (f_equal String.length) in E;
    rewrite !str_app_length in E; cbn in E; lia.
Qed.

Lemma file_name_suffix (variation voice_id : string) :
  suffix_of_name (variation +:+ "_" +:+ voice_id +:+ ".wav") = ".wav".
Proof.
  rewrite <- !str_app_assoc. apply suffix_of_name_wav.
  intros E. apply (f_equal String.length) in E.
  rewrite !str_app_length in E. cbn in E. lia.
Qed.



Lemma delete_file_result (s3_uri : string) (st : S3) :
  S3Storage.delete_file S3 delete_object s3_uri st
  = match S3Storage._parse_s3_uri s3_uri with
    | Raise e => (Raise e, st)
    | Ok (b, k) =>
        (match (delete_object b k st).1 with
         | Ok _ => Ok true
         | Raise e =>
             if bool_decide (exn_cls e = ClientError) then Ok false
             else Raise e
         end, (delete_object b k st).2)
    end.
Proof.
  unfold S3Storage.delete_file, io_try_except, mbind, io_bind, lift.
  destruct (S3Storage._parse_s3_uri s3_uri) as [[b k]|[c msg]] eqn:E.
  - cbn [fst snd]. destruct (delete_object b k st) as [[[]|[c msg]] st'];
      [done|]. cbn [exn_cls fst snd]. unfold only.
    destruct c; try done.
  - unfold S3Storage._parse_s3_uri in E.
    destruct (negb _) in E; [by simplify_eq|].
    by destruct (split_first _ _) as [|? [|? [|? ?]]]; simplify_eq.
Qed.

End FileManagerFacts.

Section FileManagerSamples.
Import Py Pathlib FileManager.


(** The layout of C5 is that of metadata without slashes only: a
    variation [turn on/off] is split by the path, the artifact lies
    four components deep and the key keeps the last of them. *)
Example save_audio_file_slash_variation :
  let run :=
    save_audio_file Sample.mem_s3 Sample.mem_upload_file Sample.no_convert
      Sample.file_manager Sample.sample_audio_data
      (<["variation" := "turn on/off"]> Sample.sample_metadata)
      Sample.fresh_world in
  _generate_file_path (<["variation" := "turn on/off"]> Sample.sample_metadata)
  = Ok (MkPath false ["korean"; "LIGHTS_ON"; "turn on"; "off_voice1.wav"])
  ∧ run.1 = Ok ("/tmp/femtosense_poc/korean/LIGHTS_ON/turn on/off_voice1.wav",
                "korean/LIGHTS_ON/off_voice1.wav")
  ∧ Disk.lookup (disk _ run.2)
      (parse "/tmp/femtosense_poc/korean/LIGHTS_ON/turn on/off_voice1.wav")
    = Some (Disk.File Sample.sample_audio_data)
  ∧ Disk.is_dir (disk _ run.2)
      (parse "/tmp/femtosense_poc/korean/LIGHTS_ON/turn on") = true
  ∧ bucket _ run.2
    = {[ ("test-bucket", "korean/LIGHTS_ON/off_voice1.wav")
         := Sample.sample_audio_data ]}.
Proof. repeat split; vm_compute; reflexivity. Qed.



End FileManagerSamples.

(** ** backend/src/core/batch_processor.py *)

Section TallyFacts.
Import Py BatchProcessor.

Lemma record_total results os :
  total_commands (foldl record results os) = total_commands results.
Proof.
  revert results. induction os as [|[c [v a|msg]] os IH]; intros results;
    [done|..]; cbn [foldl]; by rewrite IH.
Qed.

Lemma record_errors results os :
  (errors (foldl record results os)).*1
  = (errors results).*1 ++ failed_commands os.
Proof.
  revert results. induction os as [|[c [v a|msg]] os IH]; intros results.
  - cbn. by rewrite (right_id_L [] (++)).
  - cbn [foldl]. rewrite IH. done.
  - cbn [foldl]. rewrite IH. cbn. rewrite fmap_app. cbn.
    by rewrite <- (assoc_L (++)).
Qed.

Lemma failed_stored_partition os :
  failed_commands os ++ stored_commands os ≡ₚ os.*1.
Proof.
  induction os as [|[c [v a|msg]] os IH]; [done|..]; cbn.
  - change (failed_commands os ++ c :: stored_commands os ≡ₚ c :: os.*1).
    by rewrite <- Permutation_middle, IH.
  - change (c :: failed_commands os ++ stored_commands os ≡ₚ c :: os.*1).
    by rewrite IH.
Qed.

Lemma record_errors_elem results os (c : command) (reason : string) :
  (c, reason) ∈ errors (foldl record results os) ↔
  (c, reason) ∈ errors results ∨ (c, Failed reason) ∈ os.
Proof.
  revert results. induction os as [|[c' [v a|msg]] os IH]; intros results;
    cbn [foldl].
  - rewrite elem_of_nil. tauto.
  - rewrite IH. cbn. rewrite elem_of_cons.
    split; [tauto|]. intros [?|[[=]|?]]; tauto.
  - rewrite IH. cbn.
    rewrite elem_of_app, list_elem_of_singleton, elem_of_cons.
    split.
    + intros [[?|[= -> ->]]|?]; tauto.
    + intros [?|[[= -> ->]|?]]; tauto.
Qed.

Lemma validate_variations_none (raw : list string) (intent : string) :
  (∀ v, v ∈ raw → contains (lower intent) (lower v) = false) →
  _validate_variations raw intent = [].
Proof.
  unfold _validate_variations.
  induction raw as [|v raw IH]; intros H; [done|]. cbn.
  rewrite (H v) by apply list_elem_of_here.
  apply IH. intros v' Hv'. apply H. by apply list_elem_of_further.
Qed.
End TallyFacts.

Section BatchProcessorFacts.
Import Py FileManager BatchProcessor.
Context {S3 : Type}.
Variable upload_file : string → string → bytes → gmap string string → io S3 unit.
Variable convert_to_wav : Pathlib.Path → Pathlib.Path → io Disk.t unit.
Variable subprocess_run : list value → io Disk.t Z.
Variable _call_gpt_api : string → res (list string).
Variable _generate_audio : string → string → res bytes.
Variable validate_file : string → res bool.
Variable read_table : string → Z → res InputProcessor.DataFrame.
Variable as_completed : list command → list command.
Variable file_manager : FileManager.t.

Lemma convert_audio_two_arguments (x y : value) (d : Disk.t) :
  AudioConverter.convert_audio subprocess_run [x; y] d
  = (Raise (Exn TypeError
       "convert_audio() missing 1 required positional argument: 'target_format'"),
     d).
Proof. reflexivity. Qed.

Lemma save_audio_file_four_arguments (x1 x2 x3 x4 : value) (w : world S3) :
  save_audio_file_method S3 upload_file convert_to_wav file_manager
    [x1; x2; x3; x4] w
  = (Raise (Exn TypeError
       "save_audio_file() takes 3 positional arguments but 5 were given"), w).
Proof. reflexivity. Qed.

Lemma create_audio_file_raises (variation : string) (metadata : command)
    (w : world S3) :
  create_audio_file S3 upload_file convert_to_wav subprocess_run
    _generate_audio file_manager variation metadata w
  = (Raise
       match getitem metadata "language" with
       | Raise e => e
       | Ok language =>
           match _generate_audio variation language with
           | Raise e => e
           | Ok _ => Exn TypeError
               "convert_audio() missing 1 required positional argument: 'target_format'"
           end
       end, w).
Proof.
  unfold create_audio_file, mbind, io_bind, lift.
  destruct (getitem metadata "language") as [language|e]; [|done].
  destruct (_generate_audio variation language) as [audio|e]; [|done].
  unfold on_disk. rewrite convert_audio_two_arguments. by destruct w.
Qed.

Lemma create_audio_files_from_nothing (variations : list string)
    (metadata : command) :
  ∀ audio_files (w : world S3),
    create_audio_files_from S3 upload_file convert_to_wav subprocess_run
      _generate_audio file_manager audio_files variations metadata w
    = (Ok audio_files, w).
Proof.
  induction variations as [|variation rest IH]; intros audio_files w;
    [done|].
  cbn [create_audio_files_from].
  unfold mbind at 1, io_bind at 1, io_try_except.
  unfold mbind at 1, io_bind at 1.
  rewrite create_audio_file_raises. cbn. apply IH.
Qed.

Lemma process_command_result (c : command) (w : world S3) :
  _process_command S3 upload_file convert_to_wav subprocess_run
    _call_gpt_api _generate_audio file_manager c w
  = (generate_variations _call_gpt_api c ≫= (λ variations, Ok (variations, [])),
     w).
Proof.
  unfold _process_command, create_audio_files, mbind at 1, io_bind at 1, lift.
  destruct (generate_variations _call_gpt_api c) as [variations|e]; [|done].
  unfold mbind at 1, io_bind at 1.
  by rewrite create_audio_files_from_nothing.
Qed.

Lemma terminal_outcome_result (c : command) (w : world S3) :
  terminal_outcome S3 upload_file convert_to_wav subprocess_run
    _call_gpt_api _generate_audio file_manager c w
  = (Ok match generate_variations _call_gpt_api c with
        | Ok variations => Stored (len variations) 0
        | Raise e => Failed (exn_msg e)
        end, w).
Proof.
  unfold terminal_outcome, io_try_except, mbind, io_bind.
  rewrite process_command_result.
  by destruct (generate_variations _call_gpt_api c).
Qed.

(** One pass of the loop of [process_batch] records the outcome of the
    future, whatever the command does. *)
Lemma collect_step (c : command) results (w : world S3) :
  ∃ o w1,
    terminal_outcome S3 upload_file convert_to_wav subprocess_run
      _call_gpt_api _generate_audio file_manager c w = (Ok o, w1)
    ∧ io_try_except
        (r ← _process_command S3 upload_file convert_to_wav subprocess_run
               _call_gpt_api _generate_audio file_manager c;
         mret (Results (total_commands results)
                       (successful_variations results + len r.1)
                       (successful_audio_files results + len r.2)
                       (errors results)))
        Exception
        (λ e, mret (Results (total_commands results)
                            (successful_variations results)
                            (successful_audio_files results)
                            (errors results ++ [(c, exn_msg e)]))) w
      = (Ok (record results (c, o)), w1).
Proof.
  unfold terminal_outcome, io_try_except, mbind, io_bind.
  destruct (_process_command _ _ _ _ _ _ _ c w) as [[r|e] w1];
    eexists _, _; split; reflexivity.
Qed.

Lemma collect_outcomes (completed : list command) :
  ∀ results (w : world S3),
    ∃ os w',
      outcomes S3 upload_file convert_to_wav subprocess_run
        _call_gpt_api _generate_audio file_manager completed w = (Ok os, w')
      ∧ os.*1 = completed
      ∧ collect S3 upload_file convert_to_wav subprocess_run
          _call_gpt_api _generate_audio file_manager completed results w
        = (Ok (foldl record results os), w').
Proof.
  induction completed as [|c rest IH]; intros results w.
  - by exists [], w.
  - cbn [outcomes collect].
    destruct (collect_step c results w) as (o & w1 & Ho & Hstep).
    destruct (IH (record results (c, o)) w1) as (os & w' & Hos & Hfst & Hcol).
    exists ((c, o) :: os), w'.
    rewrite (io_bind_Ok _ _ _ _ _ Ho), (io_bind_Ok _ _ _ _ _ Hos).
    rewrite (io_bind_Ok _ _ _ _ _ Hstep).
    split; [done|]. split; [by rewrite <- Hfst|]. exact Hcol.
Qed.

(** No command touches a store, and the outcome of a command is that of
    its variation generation. *)
Lemma outcomes_result (completed : list command) (w : world S3) :
  outcomes S3 upload_file convert_to_wav subprocess_run
    _call_gpt_api _generate_audio file_manager completed w
  = (Ok ((λ c, (c, match generate_variations _call_gpt_api c with
                   | Ok variations => Stored (len variations) 0
                   | Raise e => Failed (exn_msg e)
                   end)) <$> completed), w).
Proof.
  induction completed as [|c rest IH]; [done|].
  cbn [outcomes].
  rewrite (io_bind_Ok _ _ _ _ _ (terminal_outcome_result c w)).
  by rewrite (io_bind_Ok _ _ _ _ _ IH).
Qed.

Lemma process_batch_run (input_file : string) (skip_header : Z)
    (commands : list command) (w : world S3) :
  validate_file input_file = Ok true →
  InputProcessor.process_file read_table input_file skip_header = Ok commands →
  process_batch S3 upload_file convert_to_wav subprocess_run
    _call_gpt_api _generate_audio validate_file read_table as_completed
    file_manager input_file skip_header w
  = collect S3 upload_file convert_to_wav subprocess_run
      _call_gpt_api _generate_audio file_manager
      (as_completed commands) (Results (len commands) 0 0 []) w.
Proof.
  intros Hvalid Hread. unfold process_batch.
  unfold mbind at 1, io_bind at 1, lift. rewrite Hvalid. cbn [negb].
  unfold mbind at 1, io_bind at 1. by rewrite Hread.
Qed.

Lemma process_batch_result (input_file : string) (skip_header : Z)
    (commands : list command) (w : world S3) :
  validate_file input_file = Ok true →
  InputProcessor.process_file read_table input_file skip_header = Ok commands →
  process_batch S3 upload_file convert_to_wav subprocess_run
    _call_gpt_api _generate_audio validate_file read_table as_completed
    file_manager input_file skip_header w
  = (Ok (foldl record (Results (len commands) 0 0 [])
           ((λ c, (c, match generate_variations _call_gpt_api c with
                      | Ok variations => Stored (len variations) 0
                      | Raise e => Failed (exn_msg e)
                      end)) <$> as_completed commands)), w).
Proof.
  intros Hvalid Hread. rewrite (process_batch_run _ _ _ _ Hvalid Hread).
  destruct (collect_outcomes (as_completed commands)
              (Results (len commands) 0 0 []) w)
    as (os & w' & Hos & _ & Hcol).
  rewrite outcomes_result in Hos. by simplify_eq.
Qed.

(** C8. Every submitted command has one terminal outcome: the futures
    end, each in one way, and [process_batch] returns the tally of their
    outcomes. [total_commands] is the number of submitted commands; the
    commands of the error list are those whose future failed; these and
    the commands whose future succeeded are, taken together, the
    submitted commands, each as often as it was submitted. *)
Theorem one_outcome_per_command (input_file : string) (skip_header : Z)
    (commands : list command) (w : world S3) :
  validate_file input_file = Ok true →
  InputProcessor.process_file read_table input_file skip_header = Ok commands →
  as_completed commands ≡ₚ commands →
  ∃ os results w',
    outcomes S3 upload_file convert_to_wav subprocess_run
      _call_gpt_api _generate_audio file_manager (as_completed commands) w
    = (Ok os, w')
    ∧ process_batch S3 upload_file convert_to_wav subprocess_run
        _call_gpt_api _generate_audio validate_file read_table as_completed
        file_manager input_file skip_header w
      = (Ok results, w')
    ∧ results = foldl record (Results (len commands) 0 0 []) os
    ∧ os.*1 ≡ₚ commands
    ∧ total_commands results = len commands
    ∧ (errors results).*1 = failed_commands os
    ∧ failed_commands os ++ stored_commands os ≡ₚ commands
    ∧ (errors results).*1 ⊆+ commands
    ∧ (NoDup commands →
       NoDup (errors results).*1
       ∧ ∀ c, c ∈ failed_commands os → c ∉ stored_commands os).
Proof.
  intros Hvalid Hread Hperm.
  destruct (collect_outcomes (as_completed commands)
              (Results (len commands) 0 0 []) w)
    as (os & w' & Hos & Hfst & Hcol).
  exists os, (foldl record (Results (len commands) 0 0 []) os), w'.
  assert (failed_commands os ++ stored_commands os ≡ₚ commands) as Hpart
    by (by rewrite failed_stored_partition, Hfst).
  split; [done|]. split; [by rewrite (process_batch_run _ _ _ _ Hvalid Hread)|].
  split; [done|]. split; [by rewrite Hfst|]. split; [by rewrite record_total|].
  split; [by rewrite record_errors|]. split; [done|].
  rewrite record_errors. cbn [errors fmap list_fmap app]. split.
  - transitivity (failed_commands os ++ stored_commands os).
    + by apply submseteq_inserts_r.
    + by apply Permutation_submseteq.
  - intros Hnodup. rewrite <- Hpart in Hnodup.
    apply NoDup_app in Hnodup as (Hfailed & Hdisjoint & _). done.
Qed.

(** C3. [create_audio_files] returns the empty list and leaves the disk
    and the bucket as they are. When the speech synthesis returns, the
    pass for a variation raises the [TypeError] of the call of
    [convert_audio] with two arguments, its third parameter
    [target_format] being required; the call of [save_audio_file] with
    four arguments, not reached, would raise a [TypeError] as well. The
    handler of the loop takes the exception, so that nothing is ever
    handed to the file manager. *)
Theorem create_audio_files_stores_nothing (variations : list string)
    (metadata : command) (language intent : string) (w : world S3) :
  variations ≠ [] →
  metadata !! "language" = Some language →
  metadata !! "intent" = Some intent →
  create_audio_files S3 upload_file convert_to_wav subprocess_run
    _generate_audio file_manager variations metadata w = (Ok [], w)
  ∧ (∀ variation audio_data,
       _generate_audio variation language = Ok audio_data →
       AudioConverter.convert_audio subprocess_run
         [VBytes audio_data; VStr "wav"] (disk S3 w)
       = (Raise (Exn TypeError
            "convert_audio() missing 1 required positional argument: 'target_format'"),
          disk S3 w)
       ∧ create_audio_file S3 upload_file convert_to_wav subprocess_run
           _generate_audio file_manager variation metadata w
         = (Raise (Exn TypeError
              "convert_audio() missing 1 required positional argument: 'target_format'"),
            w))
  ∧ (∀ converted_audio variation,
       save_audio_file_method S3 upload_file convert_to_wav file_manager
         [converted_audio; VStr intent; VStr variation; VStr language] w
       = (Raise (Exn TypeError
            "save_audio_file() takes 3 positional arguments but 5 were given"),
          w)).
Proof.
  intros _ Hlanguage Hintent. split; [|split].
  - apply create_audio_files_from_nothing.
  - intros variation audio_data Haudio. split; [done|].
    rewrite create_audio_file_raises.
    unfold getitem. by rewrite Hlanguage, Haudio.
  - intros. apply save_audio_file_four_arguments.
Qed.

(** C2, as amended. A command whose generated variations all fail the
    intent filter has no variation and no audio file: [_process_command]
    returns two empty lists, nothing is written to the disk or to the
    bucket, and its future succeeds. In the result of a batch the command
    has no error entry; no error of the kind [NoValidVariations]
    exists. *)
Theorem no_valid_variation_is_no_error (c : command)
    (phrase intent : string) (raw : list string) (w : world S3) :
  c !! "phrase" = Some phrase →
  c !! "intent" = Some intent →
  _call_gpt_api phrase = Ok raw →
  (∀ v, v ∈ raw → contains (lower intent) (lower v) = false) →
  generate_variations _call_gpt_api c = Ok []
  ∧ _process_command S3 upload_file convert_to_wav subprocess_run
      _call_gpt_api _generate_audio file_manager c w = (Ok ([], []), w)
  ∧ terminal_outcome S3 upload_file convert_to_wav subprocess_run
      _call_gpt_api _generate_audio file_manager c w = (Ok (Stored 0 0), w)
  ∧ (∀ input_file skip_header commands,
       validate_file input_file = Ok true →
       InputProcessor.process_file read_table input_file skip_header
       = Ok commands →
       ∃ results,
         process_batch S3 upload_file convert_to_wav subprocess_run
           _call_gpt_api _generate_audio validate_file read_table
           as_completed file_manager input_file skip_header w
         = (Ok results, w)
         ∧ ∀ reason, (c, reason) ∉ errors results).
Proof.
  intros Hphrase Hintent Hraw Hnone.
  assert (generate_variations _call_gpt_api c = Ok []) as Hgen.
  { unfold generate_variations, getitem. rewrite Hphrase, Hintent. cbn.
    rewrite Hraw. cbn. by rewrite validate_variations_none. }
  split; [done|]. split; [|split].
  - by rewrite process_command_result, Hgen.
  - by rewrite terminal_outcome_result, Hgen.
  - intros input_file skip_header commands Hvalid Hread.
    eexists. split; [by apply process_batch_result|].
    intros reason [Hin|Hin]%record_errors_elem.
    + by apply elem_of_nil in Hin.
    + apply list_elem_of_fmap in Hin as (c' & [= <- Hc] & _).
      by rewrite Hgen in Hc.
Qed.
End BatchProcessorFacts.

Section Isolation.
Import Py FileManager BatchProcessor.

(** In a batch where the speech synthesis raises for every variation
    of a command [k], [process_batch] returns: no exception leaves it.
    The result has no error entry for [k]: each failure is taken by the
    handler inside [create_audio_files], the future of [k] succeeds
    with its variations and no audio file. *)
Theorem synthesis_failure_swallowed {S3 : Type}
    (upload_file : string → string → bytes → gmap string string → io S3 unit)
    (convert_to_wav : Pathlib.Path → Pathlib.Path → io Disk.t unit)
    (subprocess_run : list value → io Disk.t Z)
    (_call_gpt_api : string → res (list string))
    (_generate_audio : string → string → res bytes)
    (validate_file : string → res bool)
    (read_table : string → Z → res InputProcessor.DataFrame)
    (as_completed : list command → list command)
    (file_manager : FileManager.t)
    (input_file : string) (skip_header : Z)
    (commands : list command) (k : command) (variations : list string)
    (w : world S3) :
  validate_file input_file = Ok true →
  InputProcessor.process_file read_table input_file skip_header = Ok commands →
  as_completed commands ≡ₚ commands →
  k ∈ commands →
  generate_variations _call_gpt_api k = Ok variations →
  (∀ v language,
     v ∈ variations → is_raise (_generate_audio v language) = true) →
  ∃ results,
    process_batch S3 upload_file convert_to_wav subprocess_run
      _call_gpt_api _generate_audio validate_file read_table as_completed
      file_manager input_file skip_header w
    = (Ok results, w)
    ∧ (∀ reason, (k, reason) ∉ errors results)
    ∧ (∀ v language,
         v ∈ variations → k !! "language" = Some language →
         ∃ e, _generate_audio v language = Raise e
              ∧ create_audio_file S3 upload_file convert_to_wav
                  subprocess_run _generate_audio file_manager v k w
                = (Raise e, w))
    ∧ (∃ os,
         outcomes S3 upload_file convert_to_wav subprocess_run
           _call_gpt_api _generate_audio file_manager
           (as_completed commands) w = (Ok os, w)
         ∧ (k, Stored (len variations) 0) ∈ os).
Proof.
  intros Hvalid Hread Hperm Hk Hgen Hsynthesis.
  eexists. split; [by apply process_batch_result|].
  split; [|split].
  - intros reason [Hin|Hin]%record_errors_elem.
    + by apply elem_of_nil in Hin.
    + apply list_elem_of_fmap in Hin as (c' & [= <- Hc] & _).
      by rewrite Hgen in Hc.
  - intros v language Hv Hlanguage.
    specialize (Hsynthesis v language Hv).
    destruct (_generate_audio v language) as [audio|e] eqn:E; [done|].
    exists e. split; [done|]. rewrite create_audio_file_raises.
    unfold getitem. by rewrite Hlanguage, E.
  - eexists. split; [apply outcomes_result|].
    apply list_elem_of_fmap. exists k. rewrite Hgen. split; [done|].
    by rewrite Hperm.
Qed.
End Isolation.

Section BatchSamples.
Import Py FileManager BatchProcessor.

(** C1. The code does not report the failure: the synthesis raises for
    each of the five variations of the first command of a batch of two,
    [create_audio_files] takes the five errors and returns the empty
    list, the command comes out of [_process_command] with its
    variations and no audio file, and the result of the batch has no
    error entry at all, where the documentation of both methods has
    them raise. *)
Theorem failed_synthesis_not_reported :
  InputProcessor.process_file Sample.read_two_commands "commands.csv" 0
  = Ok [Sample.lights_command; Sample.volume_command]
  ∧ generate_variations _call_gpt_api_placeholder Sample.lights_command
    = Ok Sample.lights_variations
  ∧ Forall (λ v, is_raise (Sample.synthesis_fails_on_lights v "english") = true)
           Sample.lights_variations
  ∧ create_audio_files Sample.mem_s3 Sample.mem_upload_file Sample.no_convert
      Sample.no_ffmpeg Sample.synthesis_fails_on_lights Sample.file_manager
      Sample.lights_variations Sample.lights_command Sample.fresh_world
    = (Ok [], Sample.fresh_world)
  ∧ _process_command Sample.mem_s3 Sample.mem_upload_file Sample.no_convert
      Sample.no_ffmpeg _call_gpt_api_placeholder
      Sample.synthesis_fails_on_lights Sample.file_manager
      Sample.lights_command Sample.fresh_world
    = (Ok (Sample.lights_variations, []), Sample.fresh_world)
  ∧ Sample.run_batch Sample.synthesis_fails_on_lights Sample.read_two_commands
      "commands.csv"
    = (Ok (Results 2 10 0 []), Sample.fresh_world).
Proof.
  split; [reflexivity|]. split; [reflexivity|].
  split; [repeat constructor|]. repeat split; reflexivity.
Qed.

Lemma synthesis_failure_swallowed_witness :
  ∃ results,
    Sample.run_batch Sample.synthesis_fails_on_lights Sample.read_two_commands
      "commands.csv" = (Ok results, Sample.fresh_world)
    ∧ (∀ reason, (Sample.lights_command, reason) ∉ errors results)
    ∧ (∀ v language,
         v ∈ Sample.lights_variations →
         Sample.lights_command !! "language" = Some language →
         ∃ e, Sample.synthesis_fails_on_lights v language = Raise e
              ∧ create_audio_file Sample.mem_s3 Sample.mem_upload_file
                  Sample.no_convert Sample.no_ffmpeg
                  Sample.synthesis_fails_on_lights Sample.file_manager v
                  Sample.lights_command Sample.fresh_world
                = (Raise e, Sample.fresh_world))
    ∧ (∃ os,
         outcomes Sample.mem_s3 Sample.mem_upload_file Sample.no_convert
           Sample.no_ffmpeg _call_gpt_api_placeholder
           Sample.synthesis_fails_on_lights Sample.file_manager
           (reverse [Sample.lights_command; Sample.volume_command])
           Sample.fresh_world = (Ok os, Sample.fresh_world)
         ∧ (Sample.lights_command, Stored 5 0) ∈ os).
Proof.
  apply (synthesis_failure_swallowed Sample.mem_upload_file Sample.no_convert
           Sample.no_ffmpeg _call_gpt_api_placeholder
           Sample.synthesis_fails_on_lights Sample.always_valid
           Sample.read_two_commands reverse Sample.file_manager
           "commands.csv" 0
           [Sample.lights_command; Sample.volume_command]
           Sample.lights_command Sample.lights_variations Sample.fresh_world).
  - reflexivity.
  - reflexivity.
  - apply reverse_Permutation.
  - apply list_elem_of_here.
  - reflexivity.
  - intros v language Hv.
    repeat (apply elem_of_cons in Hv as [->|Hv]; [reflexivity|]).
    by apply elem_of_nil in Hv.
Defined.

(** C2 fails as stated: none of the paraphrases of ["Turn on the lights"]
    holds ["lights_on"], the command comes out with no variation, and
    the result of the batch has no error entry. *)
Lemma no_valid_variation_not_reported :
  InputProcessor.process_file Sample.read_lights_on "test_input.csv" 0
  = Ok [Sample.lights_on_row]
  ∧ generate_variations _call_gpt_api_placeholder Sample.lights_on_row = Ok []
  ∧ Sample.run_batch _generate_audio_placeholder Sample.read_lights_on
      "test_input.csv"
    = (Ok (Results 1 0 0 []), Sample.fresh_world).
Proof. repeat split; reflexivity. Qed.

Lemma no_valid_variation_is_no_error_witness :
  _process_command Sample.mem_s3 Sample.mem_upload_file Sample.no_convert
    Sample.no_ffmpeg _call_gpt_api_placeholder _generate_audio_placeholder
    Sample.file_manager Sample.lights_on_row Sample.fresh_world
  = (Ok ([], []), Sample.fresh_world)
  ∧ ∃ results,
      Sample.run_batch _generate_audio_placeholder Sample.read_lights_on
        "test_input.csv" = (Ok results, Sample.fresh_world)
      ∧ ∀ reason, (Sample.lights_on_row, reason) ∉ errors results.
Proof.
  destruct (no_valid_variation_is_no_error Sample.mem_upload_file
              Sample.no_convert Sample.no_ffmpeg _call_gpt_api_placeholder
              _generate_audio_placeholder Sample.always_valid
              Sample.read_lights_on reverse Sample.file_manager
              Sample.lights_on_row "Turn on the lights" "LIGHTS_ON"
              [ "Turn on the lights (variation 1)";
                "Turn on the lights (variation 2)";
                "Turn on the lights (variation 3)";
                "Turn on the lights (variation 4)";
                "Turn on the lights (variation 5)" ]
              Sample.fresh_world)
    as (_ & Hcommand & _ & Hbatch).
  - reflexivity.
  - reflexivity.
  - reflexivity.
  - intros v Hv.
    repeat (apply elem_of_cons in Hv as [->|Hv]; [reflexivity|]).
    by apply elem_of_nil in Hv.
  - split; [exact Hcommand|].
    apply (Hbatch "test_input.csv" 0%Z [Sample.lights_on_row]); reflexivity.
Defined.

(** backend/tests/test_batch_processor.py, [test_create_audio_files]:
    the two variations and the metadata of the test, with the
    placeholder synthesis. *)
Lemma create_audio_files_stores_nothing_witness :
  create_audio_files Sample.mem_s3 Sample.mem_upload_file Sample.no_convert
    Sample.no_ffmpeg _generate_audio_placeholder Sample.file_manager
    ["Turn on the lights"; "Switch the lights on"]
    {[ "intent" := "LIGHTS_ON"; "language" := "en" ]} Sample.fresh_world
  = (Ok [], Sample.fresh_world)
  ∧ create_audio_file Sample.mem_s3 Sample.mem_upload_file Sample.no_convert
      Sample.no_ffmpeg _generate_audio_placeholder Sample.file_manager
      "Turn on the lights"
      {[ "intent" := "LIGHTS_ON"; "language" := "en" ]} Sample.fresh_world
    = (Raise (Exn TypeError
         "convert_audio() missing 1 required positional argument: 'target_format'"),
       Sample.fresh_world).
Proof.
  destruct (create_audio_files_stores_nothing Sample.mem_upload_file
              Sample.no_convert Sample.no_ffmpeg _generate_audio_placeholder
              Sample.file_manager
              ["Turn on the lights"; "Switch the lights on"]
              {[ "intent" := "LIGHTS_ON"; "language" := "en" ]}
              "en" "LIGHTS_ON" Sample.fresh_world)
    as (Hall & Hone & _).
  - discriminate.
  - reflexivity.
  - reflexivity.
  - split; [exact Hall|].
    exact (proj2 (Hone "Turn on the lights" (b "audio_data_placeholder")
                       eq_refl)).
Defined.

Lemma one_outcome_per_command_witness :
  ∃ os results w',
    outcomes Sample.mem_s3 Sample.mem_upload_file Sample.no_convert
      Sample.no_ffmpeg _call_gpt_api_placeholder
      Sample.synthesis_fails_on_lights Sample.file_manager
      (reverse [Sample.lights_command; Sample.volume_command])
      Sample.fresh_world
    = (Ok os, w')
    ∧ Sample.run_batch Sample.synthesis_fails_on_lights Sample.read_two_commands
        "commands.csv" = (Ok results, w')
    ∧ results = foldl record (Results 2 0 0 []) os
    ∧ os.*1 ≡ₚ [Sample.lights_command; Sample.volume_command]
    ∧ total_commands results = 2%Z
    ∧ (errors results).*1 = failed_commands os
    ∧ failed_commands os ++ stored_commands os
      ≡ₚ [Sample.lights_command; Sample.volume_command]
    ∧ (errors results).*1 ⊆+ [Sample.lights_command; Sample.volume_command]
    ∧ (NoDup [Sample.lights_command; Sample.volume_command] →
       NoDup (errors results).*1
       ∧ ∀ c, c ∈ failed_commands os → c ∉ stored_commands os).
Proof.
  apply (one_outcome_per_command Sample.mem_upload_file Sample.no_convert
           Sample.no_ffmpeg _call_gpt_api_placeholder
           Sample.synthesis_fails_on_lights Sample.always_valid
           Sample.read_two_commands reverse Sample.file_manager
           "commands.csv" 0
           [Sample.lights_command; Sample.volume_command] Sample.fresh_world).
  - reflexivity.
  - reflexivity.
  - apply reverse_Permutation.
Defined.
End BatchSamples.

(* ===================================================================== *)
(** * Further properties of the sources                                   *)
(* ===================================================================== *)

(** ** Sanitizing path components and phrases, validating rows *)

Section StripFacts.
Import Py.

Lemma str_map_fixed (p : ascii → bool) f (s : string) :
  (∀ c, p c = true → f c = c) → str_all p s = true → str_map f s = s.
Proof.
  intros H. induction s as [|c s IH]; [done|]. cbn.
  intros [Hc Hs]%andb_true_iff. by rewrite (H c Hc), IH.
Qed.

Lemma rstrip_by_idem q (s : string) :
  rstrip_by q (rstrip_by q s) = rstrip_by q s.
Proof.
  induction s as [|c s IH]; [done|]. cbn.
  destruct (str_empty (rstrip_by q s) && q c) eqn:E; [done|].
  cbn. by rewrite IH, E.
Qed.

Lemma lstrip_by_fixed q (s : string) :
  match s with String c _ => q c = false | EmptyString => True end →
  lstrip_by q s = s.
Proof. destruct s as [|c s]; [done|]. cbn. by intros ->. Qed.

Lemma rstrip_keeps_head q (s : string) :
  match s with String c _ => q c = false | EmptyString => True end →
  match rstrip_by q s with String c _ => q c = false | EmptyString => True end.
Proof.
  destruct s as [|c s]; [done|]. intros Hc. cbn.
  by rewrite Hc, andb_false_r.
Qed.

Lemma strip_by_idem q (s : string) :
  strip_by q (strip_by q s) = strip_by q s.
Proof.
  unfold strip_by.
  rewrite (lstrip_by_fixed q (rstrip_by q (lstrip_by q s))).
  - apply rstrip_by_idem.
  - apply rstrip_keeps_head, lstrip_head.
Qed.
End StripFacts.

Section SanitizeComponent.
Import Py PathGenerator.

(** X1. Sanitizing a path component a second time changes nothing. *)
Theorem sanitize_path_component_idempotent (component : string) :
  sanitize_path_component (sanitize_path_component component)
  = sanitize_path_component component.
Proof.
  pose proof (sanitize_class component) as Hclass.
  unfold sanitize_path_component at 1.
  unfold re_sub, lower.
  rewrite (str_map_fixed Regex.path_class
             (λ c, if VALID_PATH_CHARS c then "-"%char else c)
             (sanitize_path_component component));
    [|by intros [[] [] [] [] [] [] [] []]|done].
  rewrite (str_map_fixed Regex.path_class lower_char
             (sanitize_path_component component));
    [|by intros [[] [] [] [] [] [] [] []]|done].
  unfold sanitize_path_component. apply strip_by_idem.
Qed.

(** X2. A sanitized component neither starts nor ends with a hyphen,
    and holds no upper-case letter, no slash and no dot. *)
Theorem sanitize_path_component_edges (component : string) :
  startswith "-" (sanitize_path_component component) = false
  ∧ endswith "-" (sanitize_path_component component) = false
  ∧ str_all (λ c, negb (is_upper c) && negb (bool_decide (c = "/"%char))
                  && negb (bool_decide (c = "."%char)))
            (sanitize_path_component component) = true.
Proof.
  pose proof (sanitize_class component) as Hclass.
  split; [|split].
  - destruct (sanitize_path_component component) as [|c t] eqn:E; [done|].
    apply sanitize_first in E. cbn.
    rewrite bool_decide_eq_false_2; [done|congruence].
  - assert (∀ s : string,
              (∀ t c, s = t +:+ String c "" → c ≠ "-"%char) →
              endswith "-" s = false) as Hend.
    { induction s as [|a s IH]; intros H; [done|]. cbn.
      rewrite IH.
      - rewrite orb_false_r. apply bool_decide_eq_false. intros [= -> ->].
        by apply (H "" "-"%char).
      - intros t c ->. apply (H (String a t) c). by rewrite str_app_cons. }
    apply Hend. intros t c E. by apply sanitize_last in E.
  - revert Hclass. apply str_all_impl. by intros [[] [] [] [] [] [] [] []].
Qed.
End SanitizeComponent.

Section SplitJoinFacts.
Import Py.

Lemma split_run_all (P : ascii → bool) (s : string) :
  str_all P s = true →
  str_all P (split_run s).1 = true
  ∧ Forall (λ w, str_all P w = true) (split_run s).2.
Proof.
  induction s as [|c s IH]; [done|]. cbn.
  intros [Hc Hs]%andb_true_iff. destruct (IH Hs) as [Hw Hws].
  destruct (split_run s) as [w ws]. cbn in *.
  destruct (isspace c); cbn.
  - split; [done|]. unfold cons_word. destruct (str_empty w); [done|].
    by constructor.
  - split; [|done]. by rewrite Hc, Hw.
Qed.

Lemma split_run_words (s : string) :
  str_all nonspace (split_run s).1 = true
  ∧ Forall (λ w, w ≠ "" ∧ str_all nonspace w = true) (split_run s).2.
Proof.
  induction s as [|c s [Hw Hws]]; [done|]. cbn.
  destruct (split_run s) as [w ws]. cbn in *.
  destruct (isspace c) eqn:E; cbn.
  - split; [done|]. unfold cons_word. destruct w; [done|].
    by constructor.
  - split; [|done]. unfold nonspace at 1. by rewrite E, Hw.
Qed.

Lemma split_all (P : ascii → bool) (s : string) :
  str_all P s = true → Forall (λ w, str_all P w = true) (split s).
Proof.
  intros [Hw Hws]%split_run_all. unfold split, cons_word.
  destruct (split_run s) as [w ws]. cbn in *.
  destruct (str_empty w); [done|]. by constructor.
Qed.

Lemma split_words (s : string) :
  Forall (λ w, w ≠ "" ∧ str_all nonspace w = true) (split s).
Proof.
  destruct (split_run_words s) as [Hw Hws]. unfold split, cons_word.
  destruct (split_run s) as [w ws]. cbn in *.
  destruct w; [done|]. by constructor.
Qed.

Lemma split_run_word_space (x r : string) :
  str_all nonspace x = true →
  split_run (x +:+ String " " r)
  = (x, cons_word (split_run r).1 (split_run r).2).
Proof.
  induction x as [|c x IH]; intros H.
  - rewrite str_app_nil_l. cbn. by destruct (split_run r).
  - cbn in H. apply andb_true_iff in H as [Hc Hx].
    rewrite str_app_cons. cbn. rewrite (IH Hx).
    unfold nonspace in Hc. apply negb_true_iff in Hc. by rewrite Hc.
Qed.

Lemma split_run_word (x : string) :
  str_all nonspace x = true → split_run x = (x, []).
Proof.
  induction x as [|c x IH]; [done|]. cbn.
  intros [Hc Hx]%andb_true_iff. rewrite (IH Hx).
  unfold nonspace in Hc. apply negb_true_iff in Hc. by rewrite Hc.
Qed.

Lemma split_join (ws : list string) :
  Forall (λ w, w ≠ "" ∧ str_all nonspace w = true) ws →
  split (join " " ws) = ws.
Proof.
  induction ws as [|x [|y ws] IH]; intros H; [done|..].
  - apply Forall_cons in H as [[Hne Hx] _]. cbn. unfold split.
    rewrite split_run_word by done. by destruct x.
  - apply Forall_cons in H as [[Hne Hx] H].
    change (join " " (x :: y :: ws)) with (x +:+ " " +:+ join " " (y :: ws)).
    change (" " +:+ join " " (y :: ws))
      with (String " " (join " " (y :: ws))).
    unfold split. rewrite split_run_word_space by done.
    specialize (IH H). unfold split in IH.
    destruct (split_run (join " " (y :: ws))) as [w ws']. cbn.
    rewrite IH. by destruct x.
Qed.

Lemma join_all (P : ascii → bool) (ws : list string) :
  P " "%char = true → Forall (λ w, str_all P w = true) ws →
  str_all P (join " " ws) = true.
Proof.
  intros Hsp. induction ws as [|x [|y ws] IH]; intros H; [done|..].
  - by apply Forall_cons in H as [Hx _].
  - apply Forall_cons in H as [Hx H].
    change (join " " (x :: y :: ws)) with (x +:+ " " +:+ join " " (y :: ws)).
    rewrite !str_all_app, Hx, (IH H). cbn. by rewrite Hsp.
Qed.

Lemma str_filter_fixed (P : ascii → bool) (s : string) :
  str_all P s = true → str_filter P s = s.
Proof.
  induction s as [|c s IH]; [done|]. cbn.
  intros [Hc Hs]%andb_true_iff. by rewrite Hc, IH.
Qed.

Lemma str_filter_all (P : ascii → bool) (s : string) :
  str_all P (str_filter P s) = true.
Proof.
  induction s as [|c s IH]; [done|]. cbn.
  destruct (P c) eqn:E; [|done]. cbn. by rewrite E, IH.
Qed.
End SplitJoinFacts.

Section SanitizePhrase.
Import Py InputProcessor.

Lemma sanitize_phrase_clean (phrase : string) :
  str_all kept_char phrase = true →
  _sanitize_phrase phrase = join " " (split phrase).
Proof.
  intros H. unfold _sanitize_phrase. apply str_filter_fixed.
  apply join_all; [done|]. by apply split_all.
Qed.

Lemma sanitize_phrase_clean_fixed (phrase : string) :
  str_all kept_char phrase = true →
  _sanitize_phrase (_sanitize_phrase phrase) = _sanitize_phrase phrase
  ∧ split (_sanitize_phrase phrase) = split phrase.
Proof.
  intros H. rewrite (sanitize_phrase_clean phrase H).
  assert (split (join " " (split phrase)) = split phrase) as Hsplit
    by apply split_join, split_words.
  split; [|done].
  rewrite sanitize_phrase_clean.
  - by rewrite Hsplit.
  - apply join_all; [done|]. by apply split_all.
Qed.

Lemma kept_char_isascii (c : ascii) :
  kept_char c = true → isascii_char c = true.
Proof. by destruct c as [[] [] [] [] [] [] [] []]. Qed.

Lemma sanitize_phrase_isascii (phrase : string) :
  isascii (_sanitize_phrase phrase) = true.
Proof.
  apply (str_all_impl kept_char); [apply kept_char_isascii|].
  apply str_filter_all.
Qed.

(** X3. For a phrase of ASCII characters, what [_sanitize_phrase]
    returns is ASCII and holds letters, digits and white space only,
    and is made of the words of the phrase it returns, one space apart,
    once it has been sanitized again: a third pass changes nothing that
    the second has left. *)
Theorem sanitize_phrase_settles (phrase : string) :
  isascii phrase = true →
  isascii (_sanitize_phrase phrase) = true
  ∧ str_all (λ c, isalnum c || isspace c) (_sanitize_phrase phrase) = true
  ∧ _sanitize_phrase (_sanitize_phrase (_sanitize_phrase phrase))
    = _sanitize_phrase (_sanitize_phrase phrase)
  ∧ _sanitize_phrase (_sanitize_phrase phrase)
    = join " " (split (_sanitize_phrase phrase)).
Proof.
  intros _.
  assert (str_all kept_char (_sanitize_phrase phrase) = true) as H
    by apply str_filter_all.
  split; [apply sanitize_phrase_isascii|]. split; [done|]. split.
  - exact (proj1 (sanitize_phrase_clean_fixed _ H)).
  - by apply sanitize_phrase_clean.
Qed.
End SanitizePhrase.

Section CaseFacts.
Import Py.

Lemma str_map_idem f (s : string) :
  (∀ c, f (f c) = f c) → str_map f (str_map f s) = str_map f s.
Proof. intros H. induction s as [|c s IH]; [done|]. cbn. by rewrite H, IH. Qed.

Lemma upper_idem (s : string) : upper (upper s) = upper s.
Proof. apply str_map_idem. by intros [[] [] [] [] [] [] [] []]. Qed.

Lemma lower_idem (s : string) : lower (lower s) = lower s.
Proof. apply str_map_idem. by intros [[] [] [] [] [] [] [] []]. Qed.

Lemma lstrip_by_map q f (s : string) :
  (∀ c, q (f c) = q c) →
  lstrip_by q (str_map f s) = str_map f (lstrip_by q s).
Proof.
  intros H. induction s as [|c s IH]; [done|]. cbn.
  rewrite H. by destruct (q c).
Qed.

Lemma rstrip_by_map q f (s : string) :
  (∀ c, q (f c) = q c) →
  rstrip_by q (str_map f s) = str_map f (rstrip_by q s).
Proof.
  intros H. induction s as [|c s IH]; [done|]. cbn.
  rewrite IH, H.
  assert (str_empty (str_map f (rstrip_by q s)) = str_empty (rstrip_by q s))
    as -> by (by destruct (rstrip_by q s)).
  by destruct (str_empty (rstrip_by q s) && q c).
Qed.

Lemma strip_upper (s : string) : strip (upper s) = upper (strip s).
Proof.
  unfold strip, strip_by, upper.
  rewrite lstrip_by_map, rstrip_by_map; [done|..];
    by intros [[] [] [] [] [] [] [] []].
Qed.

Lemma map_intent_fixed (phrase phrase' x : string) :
  InputProcessor.map_intent phrase' (InputProcessor.map_intent phrase x)
  = InputProcessor.map_intent phrase x.
Proof.
  unfold InputProcessor.map_intent.
  rewrite strip_upper. unfold strip. by rewrite strip_by_idem, upper_idem.
Qed.

Lemma upper_no_lower (s : string) :
  str_all (λ c, negb (is_lower c)) (upper s) = true.
Proof. apply str_all_map. by intros [[] [] [] [] [] [] [] []]. Qed.

Lemma str_all_map_keeps (p : ascii → bool) f (s : string) :
  (∀ c, p c = true → p (f c) = true) →
  str_all p s = true → str_all p (str_map f s) = true.
Proof.
  intros H. induction s as [|c s IH]; [done|]. cbn.
  intros [Hc Hs]%andb_true_iff. by rewrite (H _ Hc), IH.
Qed.

Lemma isascii_upper (s : string) : isascii s = true → isascii (upper s) = true.
Proof.
  apply str_all_map_keeps. by intros [[] [] [] [] [] [] [] []].
Qed.

Lemma isascii_lower (s : string) : isascii s = true → isascii (lower s) = true.
Proof.
  apply str_all_map_keeps. by intros [[] [] [] [] [] [] [] []].
Qed.
End CaseFacts.

Section ValidateRow.
Import Py InputProcessor.

Lemma validate_row_inv (r c : gmap string string) :
  validate_row r = Ok c →
  ∃ x p l,
    r !! "intent" = Some x ∧ r !! "phrase" = Some p
    ∧ r !! "language" = Some l
    ∧ lower l ∈ SUPPORTED_LANGUAGES
    ∧ map_intent p x ≠ "" ∧ _sanitize_phrase p ≠ ""
    ∧ c = {[ "intent" := map_intent p x; "phrase" := _sanitize_phrase p;
             "language" := lower l ]}.
Proof.
  unfold validate_row, getitem.
  destruct (r !! "phrase") as [p|]; [|done].
  destruct (r !! "intent") as [x|]; [|done].
  destruct (r !! "language") as [l|]; [|done]. cbn.
  case_bool_decide as Hl; [done|].
  destruct (str_empty (map_intent p x)) eqn:Ei; [done|].
  destruct (str_empty (_sanitize_phrase p)) eqn:Ep; [done|]. cbn.
  intros [= <-]. exists x, p, l.
  apply str_empty_false in Ei, Ep.
  repeat split; done.
Qed.

Lemma validate_row_of_fields (r : gmap string string) (x p l : string) :
  r !! "intent" = Some x → r !! "phrase" = Some p →
  r !! "language" = Some l →
  lower l ∈ SUPPORTED_LANGUAGES →
  map_intent p x ≠ "" → _sanitize_phrase p ≠ "" →
  validate_row r
  = Ok {[ "intent" := map_intent p x; "phrase" := _sanitize_phrase p;
          "language" := lower l ]}.
Proof.
  intros Hx Hp Hl Hs Hi Hph. unfold validate_row, getitem.
  rewrite Hx, Hp, Hl. cbn.
  rewrite bool_decide_eq_false_2 by (by intros H; apply H).
  apply str_empty_false in Hi, Hph. by rewrite Hi, Hph.
Qed.

(** X4. For a row whose cells [intent], [phrase] and [language] are
    ASCII text, a command that [validate_row] returns has the three
    keys [intent], [phrase] and [language] and no other, and its values
    are ASCII; its language is a supported one; its intent is not
    empty, has no lower-case letter and no white space at either end;
    its phrase is not empty and holds letters, digits and white space
    only. *)
Theorem validate_row_postcondition (r c : gmap string string)
    (x p l : string) :
  r !! "intent" = Some x → r !! "phrase" = Some p →
  r !! "language" = Some l →
  isascii x = true → isascii p = true → isascii l = true →
  validate_row r = Ok c →
  ∃ intent phrase language,
    c = {[ "intent" := intent; "phrase" := phrase; "language" := language ]}
    ∧ isascii intent = true ∧ isascii phrase = true
    ∧ isascii language = true
    ∧ language ∈ SUPPORTED_LANGUAGES
    ∧ intent ≠ "" ∧ upper intent = intent ∧ strip intent = intent
    ∧ str_all (λ ch, negb (is_lower ch)) intent = true
    ∧ phrase ≠ ""
    ∧ str_all (λ ch, isalnum ch || isspace ch) phrase = true.
Proof.
  intros Hx Hp Hl Ax Ap Al
    (x' & p' & l' & Hx' & Hp' & Hl' & Hs & Hi & Hne & ->)%validate_row_inv.
  assert (x' = x) as -> by congruence.
  assert (p' = p) as -> by congruence.
  assert (l' = l) as -> by congruence.
  eexists _, _, _. split; [done|].
  split; [apply isascii_upper; unfold strip, strip_by;
          by apply str_all_rstrip, str_all_lstrip|].
  split; [apply sanitize_phrase_isascii|].
  split; [by apply isascii_lower|].
  split; [done|]. split; [done|].
  unfold map_intent. split; [apply upper_idem|].
  split; [|split; [apply upper_no_lower|split; [done|apply str_filter_all]]].
  rewrite strip_upper. unfold strip. by rewrite strip_by_idem.
Qed.

(** X5. For a row whose cells are ASCII text and whose phrase holds
    letters, digits and white space only, the command [validate_row]
    returns is returned unchanged when it is validated again. *)
Theorem validate_row_idempotent_on_clean (r c : gmap string string)
    (x phrase l : string) :
  r !! "intent" = Some x → r !! "phrase" = Some phrase →
  r !! "language" = Some l →
  isascii x = true → isascii l = true →
  str_all (λ ch, isalnum ch || isspace ch) phrase = true →
  validate_row r = Ok c →
  validate_row c = Ok c.
Proof.
  intros Hx' Hphrase Hl' _ _ Hclean
    (x0 & p & l0 & Hx & Hp & Hl & Hs & Hi & Hne & ->)%validate_row_inv.
  assert (p = phrase) as -> by congruence.
  destruct (sanitize_phrase_clean_fixed phrase Hclean) as [Hfix _].
  rewrite (validate_row_of_fields _ (map_intent phrase x0)
             (_sanitize_phrase phrase) (lower l0)).
  - by rewrite map_intent_fixed, Hfix, lower_idem.
  - reflexivity.
  - by simplify_map_eq.
  - by simplify_map_eq.
  - by rewrite lower_idem.
  - by rewrite map_intent_fixed.
  - by rewrite Hfix.
Qed.
End ValidateRow.

Section ProcessFile.
Import Py InputProcessor.
Variable read_table : string → Z → res DataFrame.

Lemma validate_row_raises (r : gmap string string) e :
  validate_row r = Raise e →
  exn_cls e = ValidationError ∨ exn_cls e = KeyError.
Proof.
  unfold validate_row, getitem.
  destruct (r !! "phrase") as [p|]; [|intros [= <-]; by right].
  destruct (r !! "intent") as [x|]; [|intros [= <-]; by right].
  destruct (r !! "language") as [l|]; [|intros [= <-]; by right]. cbn.
  case_bool_decide; [intros [= <-]; by left|].
  destruct (str_empty _ || str_empty _); [intros [= <-]; by left|done].
Qed.

Lemma validate_rows_result (rows : list (gmap string string)) :
  match validate_rows rows with
  | Ok cs =>
      cs = omap (λ r, match validate_row r with
                      | Ok c => Some c
                      | Raise _ => None
                      end) rows
  | Raise e => exn_cls e = KeyError
  end.
Proof.
  induction rows as [|r rows IH]; [done|]. cbn.
  destruct (validate_row r) as [c|e] eqn:E.
  - destruct (validate_rows rows) as [cs|e']; cbn; [by rewrite IH|done].
  - case_bool_decide as Hcls; [done|].
    by destruct (validate_row_raises r e E).
Qed.

Lemma omap_length {A B} (f : A → option B) (l : list A) :
  length (omap f l) ≤ length l.
Proof.
  induction l as [|x l IH]; [done|]. cbn. destruct (f x); cbn; lia.
Qed.

(** X6. The commands [process_file] returns are the commands of the
    rows that validate, in the order of the table, the other rows left
    out: no more commands than rows, each with a supported language. *)
Theorem process_file_commands (file_path : string) (skip_header : Z)
    (commands : list (gmap string string)) :
  process_file read_table file_path skip_header = Ok commands →
  ∃ df,
    _is_valid_file file_path = true
    ∧ read_table file_path skip_header = Ok df
    ∧ commands = omap (λ r, match validate_row r with
                            | Ok c => Some c
                            | Raise _ => None
                            end) (rows df)
    ∧ length commands ≤ length (rows df)
    ∧ Forall (λ c, ∃ l, c !! "language" = Some l ∧ l ∈ SUPPORTED_LANGUAGES)
             commands.
Proof.
  unfold process_file.
  destruct (_is_valid_file file_path); [|done]. cbn.
  destruct (read_table file_path skip_header) as [df|e]; [|done]. cbn.
  case_bool_decide; [|done].
  pose proof (validate_rows_result (rows df)) as Hrows.
  destruct (validate_rows (rows df)) as [cs|e]; [|done].
  intros [= <-]. exists df. split; [done|]. split; [done|]. split; [done|].
  rewrite Hrows. split; [apply omap_length|].
  apply Forall_forall. intros c (r & _ & Hr)%list_elem_of_omap.
  destruct (validate_row r) as [c'|] eqn:E; [|done]. simplify_eq.
  apply validate_row_inv in E as (x & p & l & _ & _ & _ & Hl & _ & _ & ->).
  exists (lower l). by simplify_map_eq.
Qed.

Lemma validate_row_text (r : gmap string string) e :
  Forall (λ col, is_Some (r !! col)) required_columns →
  validate_row r = Raise e → exn_cls e = ValidationError.
Proof.
  intros Hcells. unfold required_columns in Hcells.
  apply Forall_cons in Hcells as [[x Hx] Hcells].
  apply Forall_cons in Hcells as [[p Hp] Hcells].
  apply Forall_cons in Hcells as [[l Hl] _].
  unfold validate_row, getitem. rewrite Hx, Hp, Hl. cbn.
  case_bool_decide; [by intros [= <-]|].
  by destruct (str_empty _ || str_empty _); [intros [= <-]|].
Qed.

Lemma validate_rows_text (rows : list (gmap string string)) :
  Forall (λ r, Forall (λ col, is_Some (r !! col)) required_columns) rows →
  validate_rows rows
  = Ok (omap (λ r, match validate_row r with
                   | Ok c => Some c
                   | Raise _ => None
                   end) rows).
Proof.
  induction rows as [|r rows IH]; [done|].
  intros [Hr Hrows]%Forall_cons. cbn.
  destruct (validate_row r) as [c|e] eqn:E.
  - by rewrite (IH Hrows).
  - rewrite (validate_row_text r e Hr E).
    rewrite bool_decide_eq_true_2 by done. by apply IH.
Qed.

(** X7. The ways of [process_file]. A file name without one of the
    three extensions raises the [ValidationError] of the file format;
    an error of the reader comes out as the [ValidationError]
    [Error reading file: <message>]; a table that lacks a required
    column raises the [ValidationError] [Missing required columns:].
    When the table has the three columns and every cell of them is
    text, [process_file] returns: the commands of the rows that
    [validate_row] accepts, in their order, no row making it raise. *)
Theorem process_file_errors (file_path : string) (skip_header : Z) :
  (_is_valid_file file_path = false →
   process_file read_table file_path skip_header
   = Raise (Exn ValidationError
              "Invalid file format. Supported formats are CSV and Excel."))
  ∧ (∀ e, _is_valid_file file_path = true →
          read_table file_path skip_header = Raise e →
          process_file read_table file_path skip_header
          = Raise (Exn ValidationError
                     ("Error reading file: " +:+ exn_msg e)))
  ∧ (∀ df, _is_valid_file file_path = true →
           read_table file_path skip_header = Ok df →
           ¬ Forall (λ col, col ∈ columns df) required_columns →
           ∃ missing,
             process_file read_table file_path skip_header
             = Raise (Exn ValidationError
                        ("Missing required columns: " +:+ missing))
             ∧ missing ≠ "")
  ∧ (∀ df, _is_valid_file file_path = true →
           read_table file_path skip_header = Ok df →
           Forall (λ col, col ∈ columns df) required_columns →
           Forall (λ r, Forall (λ col, is_Some (r !! col)) required_columns)
                  (rows df) →
           process_file read_table file_path skip_header
           = Ok (omap (λ r, match validate_row r with
                            | Ok c => Some c
                            | Raise _ => None
                            end) (rows df))).
Proof.
  unfold process_file. split; [by intros ->|].
  split; [by intros e -> ->|]. split.
  - intros df -> -> Hmissing. cbn.
    rewrite bool_decide_eq_false_2 by done. eexists. split; [done|].
    unfold required_columns in *.
    destruct (decide ("intent" ∉ columns df)) as [Hi|Hi];
      destruct (decide ("phrase" ∉ columns df)) as [Hp|Hp];
      destruct (decide ("language" ∉ columns df)) as [Hl|Hl]; try done.
    destruct Hmissing. repeat constructor; by apply dec_stable.
  - intros df -> -> Hcolumns Hcells. cbn.
    rewrite bool_decide_eq_true_2 by done. by apply validate_rows_text.
Qed.
End ProcessFile.

Section InputSamples.
Import Py InputProcessor.

Lemma sanitize_phrase_settles_witness :
  isascii (_sanitize_phrase "lights ! on") = true
  ∧ str_all (λ c, isalnum c || isspace c) (_sanitize_phrase "lights ! on")
    = true
  ∧ _sanitize_phrase (_sanitize_phrase (_sanitize_phrase "lights ! on"))
    = _sanitize_phrase (_sanitize_phrase "lights ! on")
  ∧ _sanitize_phrase (_sanitize_phrase "lights ! on")
    = join " " (split (_sanitize_phrase "lights ! on")).
Proof. apply (sanitize_phrase_settles "lights ! on"). reflexivity. Defined.

Lemma validate_row_postcondition_witness :
  ∃ intent phrase language,
    ({[ "intent" := "VOLUME_UP"; "phrase" := "Increase the volume";
        "language" := "english" ]} : gmap string string)
    = {[ "intent" := intent; "phrase" := phrase; "language" := language ]}
    ∧ isascii intent = true ∧ isascii phrase = true
    ∧ isascii language = true
    ∧ language ∈ SUPPORTED_LANGUAGES
    ∧ intent ≠ "" ∧ upper intent = intent ∧ strip intent = intent
    ∧ str_all (λ ch, negb (is_lower ch)) intent = true
    ∧ phrase ≠ ""
    ∧ str_all (λ ch, isalnum ch || isspace ch) phrase = true.
Proof.
  apply (validate_row_postcondition Sample.volume_up_row _
           "VOLUME_UP" "  Increase   the volume " "english");
    reflexivity.
Defined.

Lemma validate_row_idempotent_on_clean_witness :
  validate_row {[ "intent" := "VOLUME_UP"; "phrase" := "Increase the volume";
                  "language" := "english" ]}
  = Ok {[ "intent" := "VOLUME_UP"; "phrase" := "Increase the volume";
          "language" := "english" ]}.
Proof.
  apply (validate_row_idempotent_on_clean Sample.volume_up_row _
           "VOLUME_UP" "  Increase   the volume " "english");
    reflexivity.
Defined.

Lemma process_file_commands_witness :
  ∃ df,
    _is_valid_file "commands.csv" = true
    ∧ Sample.read_two_commands "commands.csv" 0%Z = Ok df
    ∧ [Sample.lights_command; Sample.volume_command]
      = omap (λ r, match validate_row r with
                   | Ok c => Some c
                   | Raise _ => None
                   end) (rows df)
    ∧ length [Sample.lights_command; Sample.volume_command]
      ≤ length (rows df)
    ∧ Forall (λ c, ∃ l, c !! "language" = Some l ∧ l ∈ SUPPORTED_LANGUAGES)
             [Sample.lights_command; Sample.volume_command].
Proof.
  apply (process_file_commands Sample.read_two_commands "commands.csv" 0%Z).
  reflexivity.
Defined.

Lemma process_file_errors_witness :
  process_file Sample.read_two_commands "commands.txt" 0
  = Raise (Exn ValidationError
             "Invalid file format. Supported formats are CSV and Excel.")
  ∧ process_file Sample.read_nothing "commands.csv" 0
    = Raise (Exn ValidationError
               "Error reading file: [Errno 2] No such file or directory: 'commands.csv'")
  ∧ (∃ missing,
       process_file Sample.read_two_columns "commands.csv" 0
       = Raise (Exn ValidationError
                  ("Missing required columns: " +:+ missing))
       ∧ missing ≠ "")
  ∧ process_file Sample.read_two_commands "commands.csv" 0
    = Ok [Sample.lights_command; Sample.volume_command].
Proof.
  split; [|split; [|split]].
  - apply (process_file_errors Sample.read_two_commands "commands.txt" 0).
    reflexivity.
  - apply (proj1 (proj2 (process_file_errors Sample.read_nothing
                           "commands.csv" 0)) _ eq_refl eq_refl).
  - apply (proj1 (proj2 (proj2 (process_file_errors Sample.read_two_columns
                                  "commands.csv" 0))) _ eq_refl eq_refl).
    apply (proj1 (bool_decide_eq_false _)). reflexivity.
  - rewrite (proj2 (proj2 (proj2 (process_file_errors
                                    Sample.read_two_commands
                                    "commands.csv" 0))) _ eq_refl eq_refl);
      [reflexivity|apply (bool_decide_unpack _); reflexivity..].
Defined.
End InputSamples.

(** ** The bucket store: URIs, upload and deletion *)

Section S3StorageFacts.
Import Py S3Storage AudioFileModel.

Lemma split_first_length (sep : ascii) (s : string) :
  ∃ w ws, split_first sep s = w :: ws.
Proof.
  destruct s as [|c s]; cbn; [by eexists _, _|].
  case_bool_decide; [by eexists _, _|].
  destruct (split_first sep s); by eexists _, _.
Qed.

Lemma split_first_cut (sep : ascii) (s bucket key : string) :
  split_first sep s = [bucket; key] ↔
  s = bucket +:+ String sep key
  ∧ str_all (λ c, negb (bool_decide (c = sep))) bucket = true.
Proof.
  revert bucket. induction s as [|c s IH]; intros bucket; cbn.
  - split; [done|]. intros [H _]. destruct bucket; by rewrite ?str_app_cons in H.
  - case_bool_decide as Hc.
    + subst c. split.
      * intros [= <- <-]. by rewrite str_app_nil_l.
      * intros [H Hb]. destruct bucket as [|b bucket].
        -- rewrite str_app_nil_l in H. by simplify_eq.
        -- rewrite str_app_cons in H. cbn in Hb. simplify_eq.
           by rewrite bool_decide_true in Hb.
    + destruct (split_first_length sep s) as (w & ws & E). rewrite E.
      split.
      * intros [= <- ->]. apply IH in E as [-> Hw].
        rewrite str_app_cons. split; [done|]. cbn.
        by rewrite bool_decide_false.
      * intros [H Hb]. destruct bucket as [|b bucket].
        -- rewrite str_app_nil_l in H. by simplify_eq.
        -- rewrite str_app_cons in H. cbn in Hb.
           apply andb_true_iff in Hb as [_ Hb]. simplify_eq.
           assert (split_first sep (bucket +:+ String sep key)
                   = [bucket; key]) as E' by by apply IH.
           rewrite E in E'. by simplify_eq.
Qed.

Lemma startswith_app (p s : string) :
  startswith p s = true ↔ ∃ r, s = p +:+ r.
Proof.
  revert s. induction p as [|a p IH]; intros s; cbn.
  - split; [|done]. intros _. exists s. by rewrite str_app_nil_l.
  - destruct s as [|b s].
    + split; [done|]. intros [r H]. by rewrite str_app_cons in H.
    + rewrite andb_true_iff, bool_decide_eq_true, IH. split.
      * intros [-> [r ->]]. exists r. by rewrite str_app_cons.
      * intros [r H]. rewrite str_app_cons in H. simplify_eq. eauto.
Qed.

Lemma drop_start_app (p r : string) :
  drop_start (String.length p) (p +:+ r) = r.
Proof.
  induction p as [|a p IH]; cbn.
  - rewrite str_app_nil_l. by destruct r.
  - by rewrite str_app_cons.
Qed.

Lemma parse_s3_uri_ok (bucket key : string) :
  str_all not_slash bucket = true →
  _parse_s3_uri ("s3://" +:+ bucket +:+ "/" +:+ key) = Ok (bucket, key).
Proof.
  intros Hb. unfold _parse_s3_uri.
  rewrite (proj2 (startswith_app "s3://" _)) by eauto. cbn [negb].
  change 5 with (String.length "s3://"). rewrite drop_start_app.
  rewrite str_app_cons, str_app_nil_l.
  by rewrite (proj2 (split_first_cut "/" _ bucket key)).
Qed.

(** X8. [_parse_s3_uri] returns a bucket and a key exactly for the
    strings [s3://<bucket>/<key>] whose bucket holds no slash: the bucket
    ends at the first slash after the scheme, and the key, which may be
    empty or hold slashes, is the rest. *)
Theorem parse_s3_uri_iff (s3_uri bucket key : string) :
  _parse_s3_uri s3_uri = Ok (bucket, key) ↔
  s3_uri = "s3://" +:+ bucket +:+ "/" +:+ key
  ∧ str_all not_slash bucket = true.
Proof.
  split; [|intros [-> Hb]; by apply parse_s3_uri_ok].
  unfold _parse_s3_uri.
  destruct (startswith "s3://" s3_uri) eqn:Hs; cbn [negb]; [|done].
  apply startswith_app in Hs as [r ->].
  change 5 with (String.length "s3://"). rewrite drop_start_app.
  destruct (split_first "/" r) as [|w [|k [|??]]] eqn:E; try done.
  intros [= -> ->]. apply split_first_cut in E as [-> H].
  split; [|done]. by rewrite !str_app_cons, !str_app_nil_l.
Qed.
End S3StorageFacts.

Section UploadFacts.
Import Py S3Storage AudioFileModel.
Context {S3 : Type}.
Variable put_object :
  ∀ (Bucket Key : string) (Body : bytes)
    (ContentType ServerSideEncryption : string), io S3 unit.
Variable config : StorageConfig.t.

(** X9. [upload_file] is one call of [put_object], for the bucket of
    the configuration, with the bytes of the audio file, and for the key
    [<bucket>/<language>/<intent>/<variation>/<voice_profile>.<format>]:
    the key repeats the name of the bucket in front of the path
    [AudioFile.get_file_path] gives. The value returned is
    [s3://<bucket>/<key>], and an error of the client is raised
    unchanged. *)
Theorem upload_file_put (audio_file : FileValidator.AudioFile) (st : S3) :
  let bucket := StorageConfig.s3_bucket config in
  let key := bucket +:+ "/" +:+ get_file_path audio_file in
  upload_file S3 put_object config audio_file st
  = match put_object bucket key (FileValidator.data audio_file)
            ("audio/" +:+
             FileValidator.file_format (FileValidator.metadata audio_file))
            "AES256" st with
    | (Ok _, st') => (Ok ("s3://" +:+ bucket +:+ "/" +:+ key), st')
    | (Raise e, st') => (Raise e, st')
    end.
Proof.
  cbn zeta. unfold upload_file, get_file_path, io_try_except.
  rewrite get_s3_path_eq, io_bind_lift.
  unfold mbind, io_bind, mret, io_ret, lift.
  rewrite !str_app_assoc.
  destruct (put_object _ _ _ _ _ st) as [[[]|e] st']; [done|].
  by destruct (only _ _).
Qed.
End UploadFacts.

Section UploadDelete.
Import Py S3Storage AudioFileModel.

(** X10. On a store where a put replaces and a delete forgets, deleting
    the URI that [upload_file] has returned removes the object that the
    upload has stored, and nothing else, when the bucket name holds no
    slash: the store is the one before the upload, without the key. *)
Theorem upload_then_delete (config : StorageConfig.t)
    (audio_file : FileValidator.AudioFile)
    (st st1 : gmap (string * string) bytes) (s3_uri : string) :
  str_all not_slash (StorageConfig.s3_bucket config) = true →
  upload_file _ Sample.mem_put_object config audio_file st
  = (Ok s3_uri, st1) →
  let key := StorageConfig.s3_bucket config +:+ "/" +:+
             get_file_path audio_file in
  st1 !! (StorageConfig.s3_bucket config, key)
  = Some (FileValidator.data audio_file)
  ∧ delete_file _ Sample.mem_delete_object s3_uri st1
    = (Ok true, delete (StorageConfig.s3_bucket config, key) st).
Proof.
  intros Hb. cbn zeta. unfold upload_file, get_file_path, io_try_except.
  rewrite get_s3_path_eq, io_bind_lift.
  unfold mbind, io_bind, mret, io_ret, lift, Sample.mem_put_object.
  rewrite !str_app_assoc. intros [= <- <-].
  split; [by rewrite lookup_insert_eq|].
  rewrite delete_file_result, parse_s3_uri_ok by done.
  unfold Sample.mem_delete_object. cbn [fst snd].
  by rewrite delete_insert_eq.
Qed.
End UploadDelete.

Section UploadSamples.
Import Py S3Storage AudioFileModel.

Lemma upload_then_delete_witness :
  (<[("femtosense-voice-commands",
      "femtosense-voice-commands/english/LIGHTS_ON/turn_on_the_lights/Matt.wav")
     := b "RIFF"]> ∅ : gmap (string * string) bytes)
    !! ("femtosense-voice-commands",
        "femtosense-voice-commands" +:+ "/" +:+ get_file_path Sample.matt_wav)
  = Some (b "RIFF")
  ∧ delete_file _ Sample.mem_delete_object
      "s3://femtosense-voice-commands/femtosense-voice-commands/english/LIGHTS_ON/turn_on_the_lights/Matt.wav"
      (<[("femtosense-voice-commands",
          "femtosense-voice-commands/english/LIGHTS_ON/turn_on_the_lights/Matt.wav")
         := b "RIFF"]> ∅)
    = (Ok true,
       delete ("femtosense-voice-commands",
               "femtosense-voice-commands" +:+ "/" +:+
               get_file_path Sample.matt_wav) ∅).
Proof.
  apply (upload_then_delete Sample.storage_config Sample.matt_wav ∅);
    reflexivity.
Defined.
End UploadSamples.

(** ** The file manager: saving, reading back, listing and deleting *)

Section RelativePaths.
Import Py Pathlib.

Lemma replace_go_absent (old new s : string) :
  contains old s = false → replace_go old new 0 s = s.
Proof.
  induction s as [|c s IH]; [done|]. cbn [contains replace_go].
  intros [Hs Hc]%orb_false_iff. rewrite Hs. f_equal. by apply IH.
Qed.

Lemma replace_absent (old new s : string) :
  contains old s = false → replace old new s = s.
Proof.
  intros H. destruct old as [|a old].
  - by destruct s.
  - by apply replace_go_absent.
Qed.

Lemma simple_head (s : string) :
  simple s = true → ∃ c r, s = String c r ∧ c ≠ "/"%char.
Proof.
  intros (Hs & Hne & _)%simple_spec. destruct s as [|c r]; [done|].
  exists c, r. split; [done|]. cbn in Hs.
  apply andb_true_iff in Hs as [Hc _]. unfold not_slash in Hc.
  by apply negb_true_iff, bool_decide_eq_false in Hc.
Qed.

Lemma parse_three (l i n : string) :
  simple l = true → simple i = true → simple n = true →
  parse (l +:+ "/" +:+ i +:+ "/" +:+ n) = MkPath false [l; i; n].
Proof.
  intros Hl Hi Hn.
  destruct (simple_head l Hl) as (c & r & El & Hc).
  apply simple_spec in Hl as (Sl & Nl & Dl), Hi as (Si & Ni & Di),
    Hn as (Sn & Nn & Dn).
  unfold parse. f_equal.
  - rewrite El, str_app_cons. cbn. by rewrite bool_decide_false.
  - rewrite !str_app_cons, !str_app_nil_l, !split_on_app.
    rewrite !split_on_free by done. cbn.
    rewrite !decide_True by done. done.
Qed.

Lemma lstrip_simple (l r : string) :
  simple l = true → lstrip_by (is_char "/"%char) (l +:+ r) = l +:+ r.
Proof.
  intros (c & t & -> & Hc)%simple_head. rewrite str_app_cons. cbn.
  unfold is_char. by rewrite bool_decide_false.
Qed.
End RelativePaths.

Section SaveFacts.
Import Py Pathlib FileManager.
Context {S3 : Type}.
Variable upload_file : string → string → bytes → gmap string string → io S3 unit.
Variable convert_to_wav : Path → Path → io Disk.t unit.

Lemma write_bytes_inv p (content : bytes) (d d' : Disk.t) :
  Disk.write_bytes p content d = (Ok (), d') →
  d' = <[p := Disk.File content]> d.
Proof.
  unfold Disk.write_bytes. destruct (Disk.name_too_long d p); [done|].
  destruct (Disk.lookup d p) as [[?|]|];
    destruct (Disk.lookup d (parent p)) as [[?|]|]; congruence.
Qed.

Lemma write_bytes_short p (content : bytes) (d d' : Disk.t) :
  Disk.write_bytes p content d = (Ok (), d') →
  Disk.name_too_long d' p = false.
Proof.
  unfold Disk.write_bytes.
  destruct (Disk.name_too_long d p) eqn:Hshort; [done|]. intros H.
  assert (d' = <[p := Disk.File content]> d) as ->.
  { revert H. destruct (Disk.lookup d p) as [[?|]|];
      destruct (Disk.lookup d (parent p)) as [[?|]|]; congruence. }
  by rewrite name_too_long_insert.
Qed.

Lemma write_bytes_raise p (content : bytes) (d d' : Disk.t) e :
  Disk.write_bytes p content d = (Raise e, d') → d' = d.
Proof.
  unfold Disk.write_bytes. destruct (Disk.name_too_long d p); [congruence|].
  destruct (Disk.lookup d p) as [[?|]|];
    destruct (Disk.lookup d (parent p)) as [[?|]|]; congruence.
Qed.

Lemma save_audio_file_run self (audio_data : bytes)
    (metadata : gmap string string) (language intent variation : string)
    (w : world S3) :
  let voice_id := default "default" (metadata !! "voice_id") in
  let file_name := variation +:+ "_" +:+ voice_id +:+ ".wav" in
  let local_path :=
    MkPath (is_abs (local_base_path self))
           (parts (local_base_path self) ++ [language; intent; file_name]) in
  let s3_path := language +:+ "/" +:+ intent +:+ "/" +:+ file_name in
  metadata !! "language" = Some language →
  metadata !! "intent" = Some intent →
  metadata !! "variation" = Some variation →
  simple language = true → simple intent = true →
  str_all not_slash variation = true → str_all not_slash voice_id = true →
  save_audio_file S3 upload_file convert_to_wav self audio_data metadata w
  = match Disk.mkdir_parents (parent local_path) (disk S3 w) with
    | (Raise e, d) => (Raise e, World S3 d (bucket S3 w))
    | (Ok _, d1) =>
        match Disk.write_bytes local_path audio_data d1 with
        | (Raise e, d2) => (Raise e, World S3 d2 (bucket S3 w))
        | (Ok _, d2) =>
            let sent := upload_file (bucket_name self) s3_path audio_data
                          metadata (bucket S3 w) in
            (sent.1 ≫= (λ _, Ok (to_str local_path, s3_path)),
             World S3 d2 sent.2)
        end
    end.
Proof.
  intros voice_id file_name local_path s3_path Hl Hi Hv Sl Si Sv So.
  pose proof (file_name_simple _ _ Sv So) as Sn. fold file_name in Sn.
  assert (_generate_file_path metadata
          = Ok (MkPath false [language; intent; file_name])) as Hgen.
  { unfold _generate_file_path.
    rewrite (getitem_Some _ _ _ Hl), (getitem_Some _ _ _ Hi),
      (getitem_Some _ _ _ Hv). rewrite !res_bind_Ok.
    fold voice_id. fold file_name. by rewrite of_segments_simple. }
  assert (parts local_path ≠ []) as Hne.
  { cbn. by destruct (parts (local_base_path self)). }
  unfold save_audio_file. rewrite Hgen, !io_bind_lift.
  rewrite (getitem_Some _ _ _ Hl), (getitem_Some _ _ _ Hi), !io_bind_lift.
  change (joinpath (local_base_path self) _) with local_path.
  assert (name local_path = file_name) as Hname.
  { unfold name, local_path. cbn [parts].
    change [language; intent; file_name]
      with ([language; intent] ++ [file_name]).
    by rewrite (assoc_L (++)), last_last. }
  assert (suffix local_path = ".wav") as Hsuf.
  { unfold suffix. rewrite Hname. apply file_name_suffix. }
  destruct (Disk.mkdir_parents (parent local_path) (disk S3 w))
    as [[[]|e] d1] eqn:Hmk.
  2:{ rewrite (io_bind_Raise _ _ w e (World S3 d1 (bucket S3 w))); [done|].
      unfold on_disk. by rewrite Hmk. }
  rewrite (io_bind_Ok _ _ w () (World S3 d1 (bucket S3 w)))
    by (unfold on_disk; by rewrite Hmk).
  destruct (Disk.write_bytes local_path audio_data d1) as [[[]|e] d2] eqn:Hwr.
  2:{ rewrite (io_bind_Raise _ _ _ e (World S3 d2 (bucket S3 w))); [done|].
      unfold on_disk. cbn [disk bucket]. by rewrite Hwr. }
  rewrite (io_bind_Ok _ _ _ () (World S3 d2 (bucket S3 w)))
    by (unfold on_disk; cbn [disk bucket]; by rewrite Hwr).
  apply write_bytes_inv in Hwr as ->.
  rewrite Hsuf. rewrite bool_decide_eq_false_2 by (by intros H; apply H).
  unfold mbind at 1, io_bind at 1, mret at 1, io_ret at 1.
  unfold upload, mbind, io_bind. cbn [fst snd disk bucket].
  rewrite lookup_nonroot by done. rewrite lookup_insert_eq.
  unfold on_bucket. cbn [disk bucket].
  change (name (MkPath false [language; intent; file_name])) with file_name.
  fold s3_path.
  by destruct (upload_file _ _ _ _ _) as [[[]|e] b'].
Qed.

(** X11. When the metadata lacks one of the keys [language], [intent]
    and [variation], [save_audio_file] raises the [KeyError] of the
    first of them that is missing, before anything is written: the disk
    and the bucket are as they were. *)
Theorem save_audio_file_KeyError self (audio_data : bytes)
    (metadata : gmap string string) (w : world S3) :
  metadata !! "language" = None ∨ metadata !! "intent" = None
  ∨ metadata !! "variation" = None →
  ∃ before key after,
    ["language"; "intent"; "variation"] = before ++ key :: after
    ∧ Forall (λ k, is_Some (metadata !! k)) before
    ∧ metadata !! key = None
    ∧ save_audio_file S3 upload_file convert_to_wav self audio_data metadata w
      = (Raise (Exn KeyError ("'" +:+ key +:+ "'")), w).
Proof.
  intros H. unfold save_audio_file, _generate_file_path, getitem.
  destruct (metadata !! "language") as [l|] eqn:Hl.
  - destruct (metadata !! "intent") as [i|] eqn:Hi.
    + destruct H as [H|[H|H]]; [done..|].
      exists ["language"; "intent"], "variation", [].
      split; [done|]. split; [|by rewrite H].
      repeat constructor; by rewrite ?Hl, ?Hi.
    + exists ["language"], "intent", ["variation"].
      split; [done|]. split; [|done].
      repeat constructor; by rewrite ?Hl.
  - exists [], "language", ["intent"; "variation"].
    split; [done|]. split; [|done]. constructor.
Qed.
End SaveFacts.

Section SaveThenRead.
Import Py Pathlib FileManager.
Variable convert_to_wav : Path → Path → io Disk.t unit.

Lemma save_mem_world (self : FileManager.t) (audio_data : bytes)
    (metadata : gmap string string) (language intent variation : string)
    (w w' : world Sample.mem_s3) (local s3_path : string) :
  let voice_id := default "default" (metadata !! "voice_id") in
  let file_name := variation +:+ "_" +:+ voice_id +:+ ".wav" in
  let local_path :=
    MkPath (is_abs (local_base_path self))
           (parts (local_base_path self) ++ [language; intent; file_name]) in
  metadata !! "language" = Some language →
  metadata !! "intent" = Some intent →
  metadata !! "variation" = Some variation →
  simple language = true → simple intent = true →
  str_all not_slash variation = true → str_all not_slash voice_id = true →
  save_audio_file _ Sample.mem_upload_file convert_to_wav self audio_data
    metadata w = (Ok (local, s3_path), w') →
  s3_path = language +:+ "/" +:+ intent +:+ "/" +:+ file_name
  ∧ div (local_base_path self) s3_path = local_path
  ∧ Disk.lookup (disk _ w') local_path = Some (Disk.File audio_data)
  ∧ bucket _ w' = <[(bucket_name self, s3_path) := audio_data]> (bucket _ w)
  ∧ Disk.name_too_long (disk _ w') local_path = false
  ∧ ∃ d1, disk _ w' = <[local_path := Disk.File audio_data]> d1.
Proof.
  intros voice_id file_name local_path Hl Hi Hv Sl Si Sv So.
  rewrite (save_audio_file_run _ _ _ _ _ language intent variation)
    by done.
  fold voice_id. fold file_name. fold local_path.
  destruct (Disk.mkdir_parents _ _) as [[[]|e] d1]; [|done].
  destruct (Disk.write_bytes _ _ _) as [[[]|e] d2] eqn:Hwr; [|done].
  pose proof (write_bytes_short _ _ _ _ Hwr) as Hshort.
  apply write_bytes_inv in Hwr as ->.
  unfold Sample.mem_upload_file. cbn. intros [= <- <- <-].
  pose proof (file_name_simple _ _ Sv So) as Sn. fold file_name in Sn.
  split; [done|]. split.
  { unfold div. by rewrite parse_three. }
  split; [|by eauto].
  rewrite lookup_nonroot; [apply lookup_insert_eq|].
  cbn. by destruct (parts (local_base_path self)).
Qed.

(** X12. The bytes given to [save_audio_file] are read back by
    [get_audio_file] at the second path the save has returned: from the
    local copy when local files are preferred, the bucket left alone,
    and from the bucket otherwise, provided the text of the base path
    does not occur in that path. *)
Theorem save_then_get (self : FileManager.t) (audio_data : bytes)
    (metadata : gmap string string) (language intent variation : string)
    (w w' : world Sample.mem_s3) (local s3_path : string) :
  metadata !! "language" = Some language →
  metadata !! "intent" = Some intent →
  metadata !! "variation" = Some variation →
  simple language = true → simple intent = true →
  str_all not_slash variation = true →
  str_all not_slash (default "default" (metadata !! "voice_id")) = true →
  save_audio_file _ Sample.mem_upload_file convert_to_wav self audio_data
    metadata w = (Ok (local, s3_path), w') →
  get_audio_file _ Sample.mem_get_object self s3_path true w'
  = (Ok audio_data, w')
  ∧ (contains (to_str (local_base_path self)) s3_path = false →
     get_audio_file _ Sample.mem_get_object self s3_path false w'
     = (Ok audio_data, w')).
Proof.
  intros Hl Hi Hv Sl Si Sv So Hsave.
  destruct (save_mem_world _ _ _ _ _ _ _ _ _ _ Hl Hi Hv Sl Si Sv So Hsave)
    as (Hs3 & Hdiv & Hlook & Hb & Hshort & _).
  unfold get_audio_file. rewrite Hdiv. split.
  - unfold mbind, io_bind, on_disk, Disk.Path_exists, Disk.read_bytes,
      Disk.exists_.
    rewrite Hshort, Hlook. cbn [fst snd disk]. rewrite Hshort, Hlook.
    by destruct w'.
  - intros Hc. unfold mbind, io_bind, mret, io_ret.
    rewrite replace_absent by done.
    rewrite Hs3 at 1. rewrite lstrip_simple by done. rewrite <- Hs3.
    unfold on_bucket, Sample.mem_get_object. rewrite Hb, lookup_insert_eq.
    rewrite <- Hb. by destruct w'.
Qed.

(** X13. Deleting at the second path a save has returned answers
    [True] and removes both copies, provided the text of the base path
    does not occur in that path: afterwards the local file is absent,
    the bucket has no object under the key, and [get_audio_file] finds
    the path in neither store. *)
Theorem save_then_delete (self : FileManager.t) (audio_data : bytes)
    (metadata : gmap string string) (language intent variation : string)
    (w w' : world Sample.mem_s3) (local s3_path : string) :
  metadata !! "language" = Some language →
  metadata !! "intent" = Some intent →
  metadata !! "variation" = Some variation →
  simple language = true → simple intent = true →
  str_all not_slash variation = true →
  str_all not_slash (default "default" (metadata !! "voice_id")) = true →
  contains (to_str (local_base_path self)) s3_path = false →
  save_audio_file _ Sample.mem_upload_file convert_to_wav self audio_data
    metadata w = (Ok (local, s3_path), w') →
  let gone :=
    World _ (delete (div (local_base_path self) s3_path) (disk _ w'))
            (delete (bucket_name self, s3_path) (bucket _ w')) in
  delete_audio_file _ Sample.mem_delete_object self s3_path w'
  = (Ok true, gone)
  ∧ Disk.exists_ (disk _ gone) (div (local_base_path self) s3_path) = false
  ∧ ∀ prefer_local,
      get_audio_file _ Sample.mem_get_object self s3_path prefer_local gone
      = (Raise (Exn ClientError "NoSuchKey"), gone).
Proof.
  intros Hl Hi Hv Sl Si Sv So Hc Hsave gone.
  destruct (save_mem_world _ _ _ _ _ _ _ _ _ _ Hl Hi Hv Sl Si Sv So Hsave)
    as (Hs3 & Hdiv & Hlook & Hb & Hshort & _).
  assert (lstrip_by (is_char "/"%char)
            (replace (to_str (local_base_path self)) "" s3_path) = s3_path)
    as Hkey.
  { rewrite replace_absent by done. rewrite Hs3.
    by rewrite lstrip_simple. }
  assert (Disk.exists_ (disk _ gone) (div (local_base_path self) s3_path)
          = false) as Hgone.
  { unfold gone, Disk.exists_. cbn [disk]. rewrite Hdiv.
    rewrite lookup_nonroot; [by rewrite lookup_delete_eq|].
    cbn. by destruct (parts (local_base_path self)). }
  assert (Disk.name_too_long (disk _ gone)
            (div (local_base_path self) s3_path) = false) as Hshort'.
  { unfold gone. cbn [disk]. by rewrite name_too_long_delete, Hdiv. }
  split; [|split; [done|]].
  - unfold delete_audio_file. rewrite Hkey.
    unfold mbind at 1, io_bind at 1, on_disk at 1, Disk.Path_exists.
    rewrite Hdiv, Hshort. cbn [fst snd]. unfold Disk.exists_.
    rewrite Hlook. unfold mbind at 1, io_bind at 1, on_disk, Disk.unlink.
    cbn [disk bucket]. rewrite Hshort, Hlook.
    unfold io_try_except, mbind, io_bind, on_bucket,
      Sample.mem_delete_object. cbn. unfold gone. by rewrite Hdiv.
  - intros prefer_local. unfold get_audio_file. rewrite Hkey.
    assert ((if prefer_local
             then on_disk _ (Disk.Path_exists
                               (div (local_base_path self) s3_path))
             else mret false) gone = (Ok false, gone)) as Hfound.
    { destruct prefer_local; [|done].
      unfold on_disk, Disk.Path_exists. rewrite Hshort', Hgone.
      by destruct gone. }
    unfold mbind, io_bind. rewrite Hfound.
    unfold on_bucket, Sample.mem_get_object, gone. cbn [bucket disk].
    by rewrite lookup_delete_eq.
Qed.
End SaveThenRead.

Section SaveThenList.
Import Py Pathlib FileManager.
Variable convert_to_wav : Path → Path → io Disk.t unit.

Lemma mem_keys_spec (Bucket Prefix key : string) (st : Sample.mem_s3) :
  key ∈ Sample.mem_keys Bucket Prefix st
  ↔ startswith Prefix key = true ∧ is_Some (st !! (Bucket, key)).
Proof.
  unfold Sample.mem_keys.
  rewrite list_elem_of_filter, list_elem_of_omap. split.
  - intros [Hp ([[b k] body] & Hin & Hb)]. split; [done|].
    cbn in Hb. case_bool_decide; [|done]. simplify_eq.
    apply elem_of_map_to_list in Hin. by eexists.
  - intros [Hp [body Hb]]. split; [done|].
    exists (Bucket, key, body). split; [by apply elem_of_map_to_list|].
    cbn. by rewrite bool_decide_true.
Qed.

(** X14. After a save, [list_audio_files] for the intent and the
    language of the metadata lists the key the save has returned; what
    it lists are the keys of the bucket that start with
    [<language>/<intent>/]. *)
Theorem save_then_list (self : FileManager.t) (audio_data : bytes)
    (metadata : gmap string string) (language intent variation : string)
    (w w' : world Sample.mem_s3) (local s3_path : string) :
  metadata !! "language" = Some language →
  metadata !! "intent" = Some intent →
  metadata !! "variation" = Some variation →
  simple language = true → simple intent = true →
  str_all not_slash variation = true →
  str_all not_slash (default "default" (metadata !! "voice_id")) = true →
  save_audio_file _ Sample.mem_upload_file convert_to_wav self audio_data
    metadata w = (Ok (local, s3_path), w') →
  ∃ files,
    list_audio_files _ Sample.mem_list_objects_v2 self intent language w'
    = (Ok files, w')
    ∧ s3_path ∈ files
    ∧ (∀ key, key ∈ files ↔
              startswith (language +:+ "/" +:+ intent +:+ "/") key = true
              ∧ is_Some (bucket _ w' !! (bucket_name self, key))).
Proof.
  intros Hl Hi Hv Sl Si Sv So Hsave.
  destruct (save_mem_world _ _ _ _ _ _ _ _ _ _ _ Hl Hi Hv Sl Si Sv So Hsave)
    as (Hs3 & _ & _ & Hb & _).
  set (prefix := language +:+ "/" +:+ intent +:+ "/").
  assert (s3_path ∈ Sample.mem_keys (bucket_name self) prefix (bucket _ w'))
    as Hin.
  { apply mem_keys_spec. split.
    - apply startswith_app. eexists. rewrite Hs3. unfold prefix.
      by rewrite !str_app_assoc.
    - rewrite Hb, lookup_insert_eq. by eexists. }
  exists (Sample.mem_keys (bucket_name self) prefix (bucket _ w')).
  split; [|split; [done|intros key; apply mem_keys_spec]].
  unfold list_audio_files, mbind, io_bind, on_bucket,
    Sample.mem_list_objects_v2. fold prefix.
  destruct (Sample.mem_keys _ _ _) eqn:E; [by apply elem_of_nil in Hin|].
  by destruct w'.
Qed.
End SaveThenList.

Section RetrievalSamples.
Import Py Pathlib FileManager.

Lemma save_audio_file_KeyError_witness :
  ∃ before key after,
    ["language"; "intent"; "variation"] = before ++ key :: after
    ∧ Forall (λ k, is_Some (({[ "language" := "korean" ]}
                             : gmap string string) !! k)) before
    ∧ ({[ "language" := "korean" ]} : gmap string string) !! key = None
    ∧ save_audio_file _ Sample.mem_upload_file Sample.no_convert
        Sample.file_manager Sample.sample_audio_data
        {[ "language" := "korean" ]} Sample.fresh_world
      = (Raise (Exn KeyError ("'" +:+ key +:+ "'")), Sample.fresh_world).
Proof.
  apply (save_audio_file_KeyError Sample.mem_upload_file Sample.no_convert
           Sample.file_manager Sample.sample_audio_data
           {[ "language" := "korean" ]} Sample.fresh_world).
  right. left. reflexivity.
Defined.

Lemma save_then_get_witness :
  let w' :=
    (save_audio_file _ Sample.mem_upload_file Sample.no_convert
       Sample.small_manager (b "RIFF") Sample.small_metadata
       Sample.small_world).2 in
  get_audio_file _ Sample.mem_get_object Sample.small_manager
    "ko/ON/a_default.wav" true w'
  = (Ok (b "RIFF"), w')
  ∧ (contains (to_str (local_base_path Sample.small_manager))
       "ko/ON/a_default.wav" = false →
     get_audio_file _ Sample.mem_get_object Sample.small_manager
       "ko/ON/a_default.wav" false w'
     = (Ok (b "RIFF"), w')).
Proof.
  intros w'.
  apply (save_then_get Sample.no_convert Sample.small_manager
           (b "RIFF") Sample.small_metadata
           "ko" "ON" "a" Sample.small_world w'
           "/srv/ko/ON/a_default.wav");
    reflexivity.
Defined.

Lemma save_then_delete_witness :
  let w' :=
    (save_audio_file _ Sample.mem_upload_file Sample.no_convert
       Sample.small_manager (b "RIFF") Sample.small_metadata
       Sample.small_world).2 in
  let s3_path := "ko/ON/a_default.wav" in
  let gone :=
    World _ (delete (div (local_base_path Sample.small_manager) s3_path)
                    (disk _ w'))
            (delete (bucket_name Sample.small_manager, s3_path)
                    (bucket _ w')) in
  delete_audio_file _ Sample.mem_delete_object Sample.small_manager s3_path w'
  = (Ok true, gone)
  ∧ Disk.exists_ (disk _ gone)
      (div (local_base_path Sample.small_manager) s3_path) = false
  ∧ ∀ prefer_local,
      get_audio_file _ Sample.mem_get_object Sample.small_manager s3_path
        prefer_local gone
      = (Raise (Exn ClientError "NoSuchKey"), gone).
Proof.
  intros w' s3_path.
  apply (save_then_delete Sample.no_convert Sample.small_manager
           (b "RIFF") Sample.small_metadata
           "ko" "ON" "a" Sample.small_world w'
           "/srv/ko/ON/a_default.wav");
    reflexivity.
Defined.

Lemma save_then_list_witness :
  let w' :=
    (save_audio_file _ Sample.mem_upload_file Sample.no_convert
       Sample.small_manager (b "RIFF") Sample.small_metadata
       Sample.small_world).2 in
  ∃ files,
    list_audio_files _ Sample.mem_list_objects_v2 Sample.small_manager
      "ON" "ko" w' = (Ok files, w')
    ∧ "ko/ON/a_default.wav" ∈ files
    ∧ (∀ key, key ∈ files ↔
              startswith ("ko" +:+ "/" +:+ "ON" +:+ "/") key = true
              ∧ is_Some (bucket _ w'
                         !! (bucket_name Sample.small_manager, key))).
Proof.
  intros w'.
  apply (save_then_list Sample.no_convert Sample.small_manager
           (b "RIFF") Sample.small_metadata
           "ko" "ON" "a" Sample.small_world w'
           "/srv/ko/ON/a_default.wav");
    reflexivity.
Defined.
End RetrievalSamples.

(** ** The audio converter *)

Section AudioConverterFacts.
Import Py AudioConverter.
Variable subprocess_run : list value → io Disk.t Z.
Variable int_text : value → res Z.
Variable extract_metadata : io Disk.t (gmap string value).

Lemma get_audio_metadata_result (file_path : string) (d : Disk.t) :
  (get_audio_metadata subprocess_run extract_metadata file_path d).1 = Ok ∅
  ∨ raises (get_audio_metadata subprocess_run extract_metadata file_path d).1
           FileSystemError.
Proof.
  unfold get_audio_metadata, io_try_except, mbind, io_bind, path_exists,
    lift, mret, io_ret.
  destruct (Disk.exists_ d (Pathlib.parse file_path)); cbn [negb].
  - destruct (subprocess_run _ d) as [[rc|[c msg]] d'].
    + case_bool_decide; [by left|].
      change (subprocess_attr "loads")
        with (Raise (A:=unit)
                (Exn (Other "AttributeError")
                   "module 'subprocess' has no attribute 'loads'")).
      cbn. by left.
    + cbn [Exception exn_cls]. case_bool_decide as Hc; cbn in Hc.
      * subst c. right. by eexists.
      * by left.
  - cbn. right. by eexists.
Qed.

(** X15. [get_audio_metadata] returns the empty dictionary or raises a
    [FileSystemError], whatever [ffprobe] prints: the output is handed
    to [subprocess.loads], which does not exist, and the
    [AttributeError] is answered with [{}]. For a path that does not
    exist the error is [File does not exist: <path>], and no tool is
    run. *)
Theorem get_audio_metadata_empty (file_path : string) (d : Disk.t) :
  let run := get_audio_metadata subprocess_run extract_metadata file_path d in
  (run.1 = Ok ∅ ∨ raises run.1 FileSystemError)
  ∧ (Disk.exists_ d (Pathlib.parse file_path) = false →
     run = (Raise (Exn FileSystemError
                     ("File does not exist: " +:+ file_path)), d))
  ∧ (∀ d', Disk.exists_ d (Pathlib.parse file_path) = true →
       subprocess_run
         [ VStr "ffprobe"; VStr "-v"; VStr "quiet";
           VStr "-print_format"; VStr "json";
           VStr "-show_format"; VStr "-show_streams"; VStr file_path ] d
       = (Ok 0%Z, d') →
       run = (Ok ∅, d')).
Proof.
  cbn zeta. split; [apply get_audio_metadata_result|].
  unfold get_audio_metadata, io_try_except, mbind, io_bind, path_exists,
    lift, mret, io_ret.
  split.
  - by intros ->.
  - intros d' -> Hrun. cbn [negb]. rewrite Hrun.
    by rewrite bool_decide_false by (by intros H; apply H).
Qed.

(** X16. [validate_audio_file] of the converter never answers [True]:
    it returns [False] or raises a [FileSystemError]. The metadata it
    reads is always empty, the sample rate it checks is the default [0],
    and [0] is below the minimum. *)
Theorem validate_audio_file_never_true (file_path : string) (d : Disk.t) :
  let run :=
    validate_audio_file subprocess_run int_text extract_metadata file_path d in
  run.1 ≠ Ok true
  ∧ (run.1 = Ok false ∨ raises run.1 FileSystemError)
  ∧ (Disk.exists_ d (Pathlib.parse file_path) = false →
     run = (Raise (Exn FileSystemError
                     ("File does not exist: " +:+ file_path)), d)).
Proof.
  cbn zeta.
  assert ((validate_audio_file subprocess_run int_text extract_metadata
             file_path d).1 = Ok false
          ∨ raises (validate_audio_file subprocess_run int_text
                      extract_metadata file_path d).1 FileSystemError) as H.
  { unfold validate_audio_file, io_try_except, mbind, io_bind, path_exists,
      lift, mret, io_ret.
    destruct (Disk.exists_ d (Pathlib.parse file_path)); cbn [negb].
    - case_bool_decide; [by left|].
      pose proof (get_audio_metadata_result file_path d) as Hm.
      destruct (get_audio_metadata _ _ _ d) as [[m|[c msg]] d'];
        cbn [fst] in Hm.
      + destruct Hm as [[= ->]|[? [=]]].
        rewrite !lookup_empty. cbn. by left.
      + destruct Hm as [[=]|[msg' [= -> ->]]]. cbn. right. by eexists.
    - cbn. right. by eexists. }
  split; [|split; [done|]].
  - destruct H as [->|[msg ->]]; done.
  - unfold validate_audio_file, io_try_except, mbind, io_bind, path_exists.
    by intros ->.
Qed.
End AudioConverterFacts.

Section ConvertAudioFacts.
Import Py AudioConverter.
Variable subprocess_run : list value → io Disk.t Z.

Lemma path_exists_disk (x : value) (d d' : Disk.t) r :
  path_exists x d = (r, d') → d' = d.
Proof. unfold path_exists. destruct x; congruence. Qed.

Lemma convert_audio_body_outcomes (i o f sr bd : value) (d d' : Disk.t)
    (r : res bool) :
  convert_audio_body subprocess_run i o f sr bd d = (r, d') →
  match r with
  | Raise e => exn_cls e = FileSystemError ∨ exn_cls e = ValidationError
  | Ok true =>
      ∃ command, subprocess_run (VStr "ffmpeg" :: command) d = (Ok 0%Z, d')
  | Ok false => True
  end.
Proof.
  unfold convert_audio_body, io_try_except.
  match goal with
  | |- match ?x with _ => _ end = _ → _ =>
      destruct x as [[[]|e] d1] eqn:E
  end.
  - intros [= <- <-]. revert E. unfold mbind, io_bind.
    destruct (path_exists i d) as [[[]|?] d2] eqn:Ei; [|done..].
    apply path_exists_disk in Ei as ->.
    cbn [negb]. unfold lift, mret, io_ret. case_bool_decide; [done|].
    cbn beta.
    destruct (subprocess_run _ d) as [[rc|?] d3] eqn:Er; [|done].
    destruct (bool_decide (rc ≠ 0%Z)) eqn:Hrc; [done|]. intros [= <-].
    apply bool_decide_eq_false, dec_stable in Hrc. subst rc. eauto.
  - by intros [= <- <-].
  - cbn [Exception]. unfold lift, mret, io_ret. clear E.
    destruct (bool_decide (exn_cls e ∈ [FileSystemError; ValidationError]))
      eqn:Hc; intros [= <- <-]; [|done].
    apply bool_decide_eq_true in Hc.
    apply elem_of_cons in Hc as [Hc|Hc]; [by left|].
    apply list_elem_of_singleton in Hc. by right.
Qed.

(** X17. A call of [convert_audio] raises a [TypeError], for fewer
    than three or more than five arguments and before anything is done,
    a [FileSystemError] or a [ValidationError], and nothing else: every
    other error is answered with [False]. It answers [True] only when
    the command it has run, which starts with [ffmpeg], has returned
    [0]. *)
Theorem convert_audio_outcomes (args : list value) (d d' : Disk.t)
    (r : res bool) :
  convert_audio subprocess_run args d = (r, d') →
  match r with
  | Raise e =>
      (exn_cls e = TypeError ∧ (length args < 3 ∨ 5 < length args) ∧ d' = d)
      ∨ (3 ≤ length args ≤ 5
         ∧ (exn_cls e = FileSystemError ∨ exn_cls e = ValidationError))
  | Ok true =>
      3 ≤ length args ≤ 5
      ∧ ∃ command, subprocess_run (VStr "ffmpeg" :: command) d = (Ok 0%Z, d')
  | Ok false => 3 ≤ length args ≤ 5
  end.
Proof.
  unfold convert_audio. unfold mbind at 1, io_bind at 1, lift.
  destruct args as [|x1 [|x2 [|x3 [|x4 [|x5 [|x6 rest]]]]]].
  1-3: intros [= <- <-]; left; split; [done|]; split; [|done]; cbn; lia.
  4: { unfold bind_positional. rewrite bool_decide_true by (cbn; lia).
       intros [= <- <-]. left. split; [done|]. split; [|done]. cbn. lia. }
  all: cbn -[convert_audio_body]; intros H;
    apply convert_audio_body_outcomes in H; destruct r as [[]|e];
    [split; [lia|done] | lia | right; split; [lia|done]].
Qed.
End ConvertAudioFacts.

Section AudioConverterSamples.
Import Py AudioConverter.

Lemma convert_audio_outcomes_witness :
  3 ≤ length [VStr "take.wav"; VStr "take.m4a"; VStr "m4a"] ≤ 5
  ∧ ∃ command,
      Sample.tools_succeed (VStr "ffmpeg" :: command) Sample.take_disk
      = (Ok 0%Z, Sample.take_disk).
Proof.
  apply (convert_audio_outcomes Sample.tools_succeed
           [VStr "take.wav"; VStr "take.m4a"; VStr "m4a"]
           Sample.take_disk Sample.take_disk (Ok true)).
  reflexivity.
Defined.
End AudioConverterSamples.

(** ** The file validator: paths and command structures *)

Section ValidateFilePath.
Import Py Pathlib FileValidator.

Lemma structure_language :
  getitem StorageConfig.FILE_STRUCTURE "language" = Ok "{language}".
Proof. reflexivity. Qed.

Lemma supported_not_in_structure (language : string) :
  language ∈ InputProcessor.SUPPORTED_LANGUAGES →
  contains language "{language}" = false.
Proof.
  unfold InputProcessor.SUPPORTED_LANGUAGES. intros H.
  repeat (apply elem_of_cons in H as [->|H]); [reflexivity..|].
  by apply elem_of_nil in H.
Qed.

(** X18. A path that [validate_file_path] accepts has five parts, and
    its second part, the language, is a piece of the text
    [{language}] of the storage structure: none of the supported
    languages is. The file name ends in [.wav] and has no underscore. *)
Theorem validate_file_path_language (file_path : string)
    (config : StorageConfig.t) :
  validate_file_path file_path config = Ok true →
  ∃ root language intent variation file_name,
    parts_tuple (parse file_path)
    = [root; language; intent; variation; file_name]
    ∧ contains language "{language}" = true
    ∧ (language ∉ InputProcessor.SUPPORTED_LANGUAGES)
    ∧ endswith ".wav" file_name = true
    ∧ contains "_" file_name = false.
Proof.
  unfold validate_file_path. change (load_name "Path") with (Ok ()).
  rewrite res_bind_Ok. cbn zeta.
  case_bool_decide as Hlen; [done|].
  destruct (parts_tuple (parse file_path))
    as [|root [|language [|intent [|variation [|file_name [|? ?]]]]]];
    try done.
  rewrite structure_language, res_bind_Ok.
  destruct (contains language "{language}") eqn:Hl; [|done]. cbn [negb].
  destruct (str_isalnum (replace "_" "" intent)); [|done]. cbn [negb].
  destruct (str_isalnum (replace "_" "" (replace "-" "" variation)));
    [|done]. cbn [negb].
  destruct (endswith ".wav" file_name) eqn:He; [|done].
  destruct (contains "_" file_name) eqn:Hu; [done|]. intros _.
  exists root, language, intent, variation, file_name.
  repeat split; try done.
  intros Hs. apply supported_not_in_structure in Hs. congruence.
Qed.

Lemma validate_file_path_rejects (file_path language : string)
    (config : StorageConfig.t) :
  parts_tuple (parse file_path) !! 1 = Some language →
  language ∈ InputProcessor.SUPPORTED_LANGUAGES →
  validate_file_path file_path config = Ok false.
Proof.
  intros Hp Hs. unfold validate_file_path.
  change (load_name "Path") with (Ok ()). rewrite res_bind_Ok. cbn zeta.
  case_bool_decide as Hlen; [done|].
  destruct (parts_tuple (parse file_path))
    as [|root [|l [|intent [|variation [|file_name [|? ?]]]]]];
    try done.
  cbn in Hp. simplify_eq.
  rewrite structure_language, res_bind_Ok.
  by rewrite supported_not_in_structure.
Qed.

Lemma parse_two_ahead (a l r : string) :
  simple a = true → simple l = true →
  ∃ rest, parse (a +:+ "/" +:+ l +:+ "/" +:+ r) = MkPath false (a :: l :: rest).
Proof.
  intros Ha Hl.
  destruct (simple_head a Ha) as (c & t & Ea & Hc).
  apply simple_spec in Ha as (Sa & Na & Da), Hl as (Sl & Nl & Dl).
  unfold parse. eexists. f_equal.
  - rewrite Ea, str_app_cons. cbn. by rewrite bool_decide_false.
  - rewrite !str_app_cons, !str_app_nil_l, !split_on_app.
    rewrite !split_on_free by done. cbn.
    rewrite !decide_True by done. done.
Qed.

(** X19. The key under which [S3Storage.upload_file] stores an audio
    file is refused by [validate_file_path] whenever the language of the
    file is one of the supported languages: the two do not agree on
    what a path is. *)
Theorem upload_key_not_valid (config : StorageConfig.t)
    (audio_file : AudioFile) :
  simple (StorageConfig.s3_bucket config) = true →
  language (metadata audio_file) ∈ InputProcessor.SUPPORTED_LANGUAGES →
  validate_file_path
    (StorageConfig.s3_bucket config +:+ "/" +:+
     AudioFileModel.get_file_path audio_file) config
  = Ok false.
Proof.
  intros Hb Hs.
  apply validate_file_path_rejects with (language (metadata audio_file));
    [|done].
  assert (simple (language (metadata audio_file)) = true) as Hl.
  { unfold InputProcessor.SUPPORTED_LANGUAGES in Hs.
    repeat (apply elem_of_cons in Hs as [->|Hs]); [reflexivity..|].
    by apply elem_of_nil in Hs. }
  unfold AudioFileModel.get_file_path.
  destruct (parse_two_ahead (StorageConfig.s3_bucket config)
              (language (metadata audio_file))
              (intent (metadata audio_file) +:+ "/" +:+
               variation (metadata audio_file) +:+ "/" +:+
               voice_profile (metadata audio_file) +:+ "." +:+
               file_format (metadata audio_file)) Hb Hl) as [rest ->].
  reflexivity.
Qed.
End ValidateFilePath.

Section CommandStructure.
Import Py FileValidator.
Variable wave_open : bytes → res Wave_read.

Lemma validate_audio_file_result (audio_file : AudioFile) :
  validate_audio_file wave_open audio_file = Ok false
  ∨ raises (validate_audio_file wave_open audio_file) NameError.
Proof.
  unfold validate_audio_file. case_bool_decide; [by left|].
  rewrite validate_wav_format_NameError. right. by eexists.
Qed.

Lemma check_audio_files_result (files : list AudioFile) :
  match check_audio_files wave_open files with
  | Ok None => files = []
  | Ok (Some b) => b = false ∧ files ≠ []
  | Raise e => exn_cls e = NameError ∧ files ≠ []
  end.
Proof.
  destruct files as [|audio_file rest]; [done|]. cbn [check_audio_files].
  destruct (validate_audio_file_result audio_file) as [->|[msg ->]]; done.
Qed.

Lemma check_variations_result (vs : list VoiceCommandVariation) :
  let good v := variation_phrase v ≠ "" ∧ audio_files v = [] in
  match check_variations wave_open vs with
  | Ok None => Forall good vs
  | Ok (Some b) => b = false ∧ ¬ Forall good vs
  | Raise e => exn_cls e = NameError ∧ ¬ Forall good vs
  end.
Proof.
  intros good. induction vs as [|v vs IH]; [by constructor|].
  cbn [check_variations].
  destruct (str_empty (variation_phrase v)) eqn:Hp.
  { apply str_empty_true in Hp. split; [done|].
    intros [[H _] _]%Forall_cons. done. }
  apply str_empty_false in Hp.
  pose proof (check_audio_files_result (audio_files v)) as Hf.
  destruct (check_audio_files wave_open (audio_files v)) as [[b|]|e];
    cbn.
  - destruct Hf as [-> Hne]. split; [done|].
    intros [[_ H] _]%Forall_cons. done.
  - destruct (check_variations wave_open vs) as [[b|]|e].
    + destruct IH as [-> IH]. split; [done|].
      intros [_ H]%Forall_cons. done.
    + by constructor.
    + destruct IH as [He IH]. split; [done|].
      intros [_ H]%Forall_cons. done.
  - destruct Hf as [He Hne]. split; [done|].
    intros [[_ H] _]%Forall_cons. done.
Qed.

(** X20. [validate_voice_command_structure] answers [True] exactly for
    the commands whose identifier, phrase, intent and language are not
    empty and whose variations have a phrase and no audio file at all:
    an audio file is never found valid. What it raises is a
    [NameError]. *)
Theorem validate_voice_command_structure_true (c : VoiceCommand) :
  (validate_voice_command_structure wave_open c = Ok true
   ↔ PathGenerator.vc_id (command c) ≠ ""
     ∧ PathGenerator.phrase (command c) ≠ ""
     ∧ PathGenerator.intent (command c) ≠ ""
     ∧ PathGenerator.language (command c) ≠ ""
     ∧ Forall (λ v, variation_phrase v ≠ "" ∧ audio_files v = [])
              (variations c))
  ∧ (∀ e, validate_voice_command_structure wave_open c = Raise e →
          exn_cls e = NameError).
Proof.
  unfold validate_voice_command_structure. cbn [forallb].
  pose proof (check_variations_result (variations c)) as Hv. cbn zeta in Hv.
  destruct (str_empty (PathGenerator.vc_id (command c))) eqn:E1;
    [apply str_empty_true in E1|apply str_empty_false in E1]; cbn.
  { split; [|done]. split; [done|]. by intros (H & _). }
  destruct (str_empty (PathGenerator.phrase (command c))) eqn:E2;
    [apply str_empty_true in E2|apply str_empty_false in E2]; cbn.
  { split; [|done]. split; [done|]. by intros (_ & H & _). }
  destruct (str_empty (PathGenerator.intent (command c))) eqn:E3;
    [apply str_empty_true in E3|apply str_empty_false in E3]; cbn.
  { split; [|done]. split; [done|]. by intros (_ & _ & H & _). }
  destruct (str_empty (PathGenerator.language (command c))) eqn:E4;
    [apply str_empty_true in E4|apply str_empty_false in E4]; cbn.
  { split; [|done]. split; [done|]. by intros (_ & _ & _ & H & _). }
  destruct (check_variations wave_open (variations c)) as [[b|]|e]; cbn.
  - destruct Hv as [-> Hv]. split; [|done]. split; [done|].
    by intros (_ & _ & _ & _ & H).
  - split; [|by destruct (forallb _ _)].
    assert (forallb (λ variation, forallb (consistent (command c))
                                          (audio_files variation))
                    (variations c) = true) as ->; [|done].
    apply forallb_forall. intros v Hin%list_elem_of_In.
    rewrite Forall_forall in Hv. destruct (Hv v Hin) as [_ ->]. done.
  - destruct Hv as [He Hv]. split; [|by intros ? [= <-]].
    split; [done|]. by intros (_ & _ & _ & _ & H).
Qed.
End CommandStructure.

Section FileValidatorSamples.
Import Py Pathlib FileValidator.

Lemma validate_file_path_language_witness :
  ∃ root language intent variation file_name,
    parts_tuple
      (parse "femtosense-voice-commands/language/LIGHTS_ON/turn_on_the_lights/Matt.wav")
    = [root; language; intent; variation; file_name]
    ∧ contains language "{language}" = true
    ∧ (language ∉ InputProcessor.SUPPORTED_LANGUAGES)
    ∧ endswith ".wav" file_name = true
    ∧ contains "_" file_name = false.
Proof.
  apply (validate_file_path_language
           "femtosense-voice-commands/language/LIGHTS_ON/turn_on_the_lights/Matt.wav"
           Sample.storage_config).
  vm_compute. reflexivity.
Defined.

Lemma upload_key_not_valid_witness :
  validate_file_path
    (StorageConfig.s3_bucket Sample.storage_config +:+ "/" +:+
     AudioFileModel.get_file_path Sample.matt_wav) Sample.storage_config
  = Ok false.
Proof.
  apply (upload_key_not_valid Sample.storage_config Sample.matt_wav).
  - reflexivity.
  - vm_compute. apply list_elem_of_further, list_elem_of_here.
Defined.
End FileValidatorSamples.

(** ** The batch: tallies, errors, and the placeholder generator *)

Section BatchTally.
Import Py FileManager BatchProcessor.
Context {S3 : Type}.
Variable upload_file : string → string → bytes → gmap string string → io S3 unit.
Variable convert_to_wav : Pathlib.Path → Pathlib.Path → io Disk.t unit.
Variable subprocess_run : list value → io Disk.t Z.
Variable _call_gpt_api : string → res (list string).
Variable _generate_audio : string → string → res bytes.
Variable validate_file : string → res bool.
Variable read_table : string → Z → res InputProcessor.DataFrame.
Variable as_completed : list command → list command.
Variable file_manager : FileManager.t.

Lemma foldl_record_variations os : ∀ results,
  successful_variations (foldl record results os)
  = (successful_variations results
     + foldr (λ entry acc, match entry.2 with
                           | Stored variations _ => variations
                           | Failed _ => 0
                           end + acc) 0 os)%Z.
Proof.
  induction os as [|[c o] os IH]; intros results; cbn; [lia|].
  rewrite IH. destruct o; cbn; lia.
Qed.

Lemma foldl_record_audio_files os : ∀ results,
  successful_audio_files (foldl record results os)
  = (successful_audio_files results
     + foldr (λ entry acc, match entry.2 with
                           | Stored _ audio_files => audio_files
                           | Failed _ => 0
                           end + acc) 0 os)%Z.
Proof.
  induction os as [|[c o] os IH]; intros results; cbn; [lia|].
  rewrite IH. destruct o; cbn; lia.
Qed.

Lemma foldl_record_errors os : ∀ results,
  errors (foldl record results os)
  = errors results
    ++ omap (λ entry, match entry.2 with
                      | Failed reason => Some (entry.1, reason)
                      | Stored _ _ => None
                      end) os.
Proof.
  induction os as [|[c o] os IH]; intros results; cbn.
  - by rewrite app_nil_r.
  - rewrite IH. destruct o; cbn; [done|]. by rewrite <- (assoc_L (++)).
Qed.

Lemma omap_fmap_comp {A B C} (g : A → B) (f : B → option C) (l : list A) :
  omap f (g <$> l) = omap (λ x, f (g x)) l.
Proof.
  induction l as [|x l IH]; [done|]. cbn. rewrite IH. done.
Qed.

Lemma omap_ext_eq {A B} (f g : A → option B) (l : list A) :
  (∀ x, f x = g x) → omap f l = omap g l.
Proof.
  intros H. induction l as [|x l IH]; [done|]. cbn. by rewrite H, IH.
Qed.

Lemma sum_permutation {A} (f : A → Z) (l1 l2 : list A) :
  l1 ≡ₚ l2 →
  foldr (λ x acc, f x + acc)%Z 0%Z l1 = foldr (λ x acc, f x + acc)%Z 0%Z l2.
Proof.
  induction 1 as [|x l1 l2 _ IH|x y l|l1 l2 l3 _ IH1 _ IH2]; cbn;
    [done|by rewrite IH|lia|by rewrite IH1].
Qed.

(** X21. What [process_batch] returns does not depend on the order in
    which the futures complete: the total is the number of commands,
    the count of variations is the sum over the commands whose
    generation returns, no audio file is ever counted, and the errors
    are those of the commands whose generation raises, in some order.
    The disk and the bucket are left as they were. *)
Theorem process_batch_tally (input_file : string) (skip_header : Z)
    (commands : list command) (w : world S3) :
  validate_file input_file = Ok true →
  InputProcessor.process_file read_table input_file skip_header = Ok commands →
  as_completed commands ≡ₚ commands →
  ∃ results,
    process_batch S3 upload_file convert_to_wav subprocess_run
      _call_gpt_api _generate_audio validate_file read_table as_completed
      file_manager input_file skip_header w
    = (Ok results, w)
    ∧ total_commands results = len commands
    ∧ successful_variations results
      = foldr (λ c acc,
                 (match generate_variations _call_gpt_api c with
                  | Ok variations => len variations
                  | Raise _ => 0
                  end + acc)%Z) 0%Z commands
    ∧ successful_audio_files results = 0%Z
    ∧ errors results
      ≡ₚ omap (λ c, match generate_variations _call_gpt_api c with
                    | Raise e => Some (c, exn_msg e)
                    | Ok _ => None
                    end) commands.
Proof.
  intros Hvalid Hfile Hperm. eexists. split.
  { by apply process_batch_result. }
  split; [by rewrite record_total|].
  rewrite foldl_record_variations, foldl_record_audio_files,
    foldl_record_errors.
  cbn [successful_variations successful_audio_files errors app].
  rewrite !foldr_fmap, omap_fmap_comp.
  split; [|split].
  - rewrite Z.add_0_l.
    rewrite <- (sum_permutation
                  (λ c, match generate_variations _call_gpt_api c with
                        | Ok variations => len variations
                        | Raise _ => 0%Z
                        end) _ _ Hperm).
    apply foldr_ext; [|done..]. intros c acc. cbn.
    by destruct (generate_variations _call_gpt_api c).
  - clear Hperm. induction (as_completed commands) as [|c l IH]; [done|].
    cbn [foldr]. destruct (generate_variations _call_gpt_api c);
      cbn [snd]; cbn [snd] in IH; lia.
  - etrans; [|exact (omap_Permutation _ _ _ Hperm)].
    apply Permutation_refl'. apply omap_ext_eq.
    intros c. cbn. by destruct (generate_variations _call_gpt_api c).
Qed.

End BatchTally.

Section PlaceholderGenerator.
Import Py BatchProcessor.

Lemma startswith_chars (q : ascii → bool) (sub s : string) :
  startswith sub s = true → str_all q s = true → str_all q sub = true.
Proof.
  revert s. induction sub as [|a sub IH]; intros [|c s]; cbn; try done.
  intros [Ha Hs]%andb_true_iff [Hc Hq]%andb_true_iff.
  apply bool_decide_eq_true in Ha. subst c.
  rewrite Hc. by apply (IH s).
Qed.

Lemma contains_chars (q : ascii → bool) (sub s : string) :
  contains sub s = true → str_all q s = true → str_all q sub = true.
Proof.
  induction s as [|c s IH]; cbn [contains].
  - rewrite orb_false_r. apply startswith_chars.
  - intros [H|H]%orb_true_iff Hq; [by eapply startswith_chars|].
    cbn in Hq. apply andb_true_iff in Hq as [_ Hq]. by apply IH.
Qed.

Lemma contains_underscore (s : string) :
  contains "_" s = true →
  str_all (λ c, negb (bool_decide (c = "_"%char))) s = false.
Proof.
  induction s as [|c s IH]; [done|]. cbn.
  rewrite andb_true_r. intros [H|H]%orb_true_iff.
  - apply bool_decide_eq_true in H. subst c. done.
  - rewrite IH by done. apply andb_false_r.
Qed.

Lemma lower_underscore (s : string) :
  str_all (λ c, negb (bool_decide (c = "_"%char))) (lower s)
  = str_all (λ c, negb (bool_decide (c = "_"%char))) s.
Proof.
  unfold lower. induction s as [|c s IH]; [done|].
  cbn [str_map str_all]. rewrite IH. f_equal.
  by destruct c as [[] [] [] [] [] [] [] []].
Qed.

Lemma placeholder_variation (phrase : string) (v : string) :
  v ∈ (λ i : Z, phrase +:+ " (variation " +:+ pretty i +:+ ")")
        <$> [1; 2; 3; 4; 5]%Z →
  ∃ tail, v = phrase +:+ tail
          ∧ str_all (λ c, negb (bool_decide (c = "_"%char))) tail = true.
Proof.
  intros (i & -> & Hi)%list_elem_of_fmap.
  exists (" (variation " +:+ pretty i +:+ ")"). split; [done|].
  repeat (apply elem_of_cons in Hi as [->|Hi]); [by vm_compute..|].
  by apply elem_of_nil in Hi.
Qed.

Lemma generate_variations_placeholder (c : command) (phrase intent : string) :
  c !! "phrase" = Some phrase → c !! "intent" = Some intent →
  generate_variations _call_gpt_api_placeholder c
  = Ok (_validate_variations
          ((λ i : Z, phrase +:+ " (variation " +:+ pretty i +:+ ")")
             <$> [1; 2; 3; 4; 5]%Z) intent).
Proof.
  intros Hp Hi. unfold generate_variations, try_except.
  rewrite (getitem_Some _ _ _ Hp), (getitem_Some _ _ _ Hi).
  reflexivity.
Qed.

(** X23. A command that [validate_row] has returned and whose intent
    holds an underscore gets no variation at all from the placeholder
    generator: the validated phrase holds letters, digits and white
    space only, the text added to it has no underscore either, and the
    filter of [_validate_variations] looks for the intent in each
    variation. *)
Theorem underscore_intent_no_variation (r c : command) (intent : string) :
  InputProcessor.validate_row r = Ok c →
  c !! "intent" = Some intent →
  contains "_" intent = true →
  generate_variations _call_gpt_api_placeholder c = Ok [].
Proof.
  intros Hrow Hi Hu.
  apply validate_row_inv in Hrow as (x & p & l & _ & _ & _ & _ & _ & _ & ->).
  rewrite (generate_variations_placeholder _ (InputProcessor._sanitize_phrase p)
             intent) by (done || by simplify_map_eq).
  f_equal. apply validate_variations_none. intros v Hv.
  apply placeholder_variation in Hv as (tail & -> & Htail).
  destruct (contains (lower intent)
              (lower (InputProcessor._sanitize_phrase p +:+ tail))) eqn:Hc;
    [|done].
  apply (contains_chars (λ c, negb (bool_decide (c = "_"%char)))) in Hc.
  - rewrite lower_underscore, contains_underscore in Hc; done.
  - rewrite lower_underscore, str_all_app, Htail, andb_true_r.
    apply (str_all_impl InputProcessor.kept_char); [|apply str_filter_all].
    by intros [[] [] [] [] [] [] [] []].
Qed.

Lemma str_map_app f (s t : string) :
  str_map f (s +:+ t) = str_map f s +:+ str_map f t.
Proof.
  induction s as [|c s IH]; [by rewrite !str_app_nil_l|].
  rewrite str_app_cons. cbn [str_map]. by rewrite str_app_cons, IH.
Qed.

Lemma startswith_app_r (sub s t : string) :
  startswith sub s = true → startswith sub (s +:+ t) = true.
Proof.
  revert s. induction sub as [|a sub IH]; intros [|c s]; cbn; try done.
  rewrite str_app_cons. cbn.
  intros [-> H]%andb_true_iff. by rewrite (IH s).
Qed.

Lemma contains_app_r (sub s t : string) :
  contains sub s = true → contains sub (s +:+ t) = true.
Proof.
  induction s as [|c s IH]; cbn [contains].
  - rewrite orb_false_r. intros H.
    destruct sub; [|done]. rewrite str_app_nil_l. by destruct t.
  - rewrite str_app_cons. cbn [contains].
    intros [H|H]%orb_true_iff; apply orb_true_iff.
    + left. rewrite <- str_app_cons. by apply startswith_app_r.
    + right. by apply IH.
Qed.

(** X24. When the phrase of a command mentions its intent, letter case
    apart, the placeholder generator gives the command five variations:
    the phrase followed by [(variation 1)] to [(variation 5)], all of
    which pass the filter. *)
Theorem phrase_mentions_intent (c : command) (phrase intent : string) :
  c !! "phrase" = Some phrase → c !! "intent" = Some intent →
  contains (lower intent) (lower phrase) = true →
  generate_variations _call_gpt_api_placeholder c
  = Ok ((λ i : Z, phrase +:+ " (variation " +:+ pretty i +:+ ")")
          <$> [1; 2; 3; 4; 5]%Z)
  ∧ ∃ variations,
      generate_variations _call_gpt_api_placeholder c = Ok variations
      ∧ length variations = 5.
Proof.
  intros Hp Hi Hc.
  rewrite (generate_variations_placeholder _ phrase intent) by done.
  assert (∀ tail, contains (lower intent) (lower (phrase +:+ tail)) = true)
    as Hkeep.
  { intros tail. unfold lower. rewrite str_map_app. by apply contains_app_r. }
  unfold _validate_variations. cbn [fmap list_fmap List.filter].
  rewrite !Hkeep. split; [done|]. by eexists.
Qed.
End PlaceholderGenerator.

Section BatchTallySamples.
Import Py FileManager BatchProcessor.

Lemma process_batch_tally_witness :
  ∃ results,
    Sample.run_batch Sample.synthesis_fails_on_lights Sample.read_two_commands
      "commands.csv" = (Ok results, Sample.fresh_world)
    ∧ total_commands results
      = len [Sample.lights_command; Sample.volume_command]
    ∧ successful_variations results
      = foldr (λ c acc,
                 (match generate_variations _call_gpt_api_placeholder c with
                  | Ok variations => len variations
                  | Raise _ => 0
                  end + acc)%Z) 0%Z
              [Sample.lights_command; Sample.volume_command]
    ∧ successful_audio_files results = 0%Z
    ∧ errors results
      ≡ₚ omap (λ c, match generate_variations _call_gpt_api_placeholder c with
                    | Raise e => Some (c, exn_msg e)
                    | Ok _ => None
                    end) [Sample.lights_command; Sample.volume_command].
Proof.
  apply (process_batch_tally Sample.mem_upload_file Sample.no_convert
           Sample.no_ffmpeg _call_gpt_api_placeholder
           Sample.synthesis_fails_on_lights Sample.always_valid
           Sample.read_two_commands reverse Sample.file_manager
           "commands.csv" 0
           [Sample.lights_command; Sample.volume_command] Sample.fresh_world).
  - reflexivity.
  - reflexivity.
  - apply reverse_Permutation.
Defined.


Lemma underscore_intent_no_variation_witness :
  generate_variations _call_gpt_api_placeholder
    {[ "intent" := "VOLUME_UP"; "phrase" := "Increase the volume";
       "language" := "english" ]}
  = Ok [].
Proof.
  apply (underscore_intent_no_variation Sample.volume_up_row _ "VOLUME_UP");
    reflexivity.
Defined.

Lemma phrase_mentions_intent_witness :
  generate_variations _call_gpt_api_placeholder Sample.lights_command
  = Ok ((λ i : Z, "turn on the lights" +:+ " (variation " +:+ pretty i +:+ ")")
          <$> [1; 2; 3; 4; 5]%Z)
  ∧ ∃ variations,
      generate_variations _call_gpt_api_placeholder Sample.lights_command
      = Ok variations
      ∧ length variations = 5.
Proof.
  apply (phrase_mentions_intent Sample.lights_command "turn on the lights"
           "LIGHTS"); reflexivity.
Defined.
End BatchTallySamples.

(** ** The embedding against the test suites *)

Section TestSuites.
Import Py.

(** database/tests/test_utils.py, [test_sanitize_path_component] *)
Example test_sanitize_path_component :
  PathGenerator.sanitize_path_component "Hello World" = "hello-world"
  ∧ PathGenerator.sanitize_path_component "Hello@World!" = "hello-world"
  ∧ PathGenerator.sanitize_path_component "-Hello-World-" = "hello-world".
Proof. repeat split; reflexivity. Qed.

(** backend/tests/test_input_processor.py, [test_sanitize_phrase] *)
Example test_sanitize_phrase :
  InputProcessor._sanitize_phrase "  Turn   on  the lights!  "
  = "Turn on the lights"
  ∧ InputProcessor._sanitize_phrase "Volume up by 20%" = "Volume up by 20"
  ∧ InputProcessor._sanitize_phrase "Set alarm for 7:00 AM"
    = "Set alarm for 700 AM".
Proof. repeat split; reflexivity. Qed.

(** backend/tests/test_input_processor.py, [test_validate_row_valid] and
    [test_validate_row_invalid_language] *)
Example test_validate_row :
  InputProcessor.validate_row
    {[ "intent" := "VOLUME_UP"; "phrase" := "Increase the volume";
       "language" := "english" ]}
  = Ok {[ "intent" := "VOLUME_UP"; "phrase" := "Increase the volume";
          "language" := "english" ]}
  ∧ InputProcessor.validate_row
      {[ "intent" := "LIGHTS_ON"; "phrase" := "Turn on the lights";
         "language" := "french" ]}
    = Raise (Exn ValidationError "Unsupported language: french").
Proof. split; reflexivity. Qed.

(** backend/tests/test_input_processor.py, [test_is_valid_file] *)
Example test_is_valid_file :
  InputProcessor._is_valid_file "/tmp/test.csv" = true
  ∧ InputProcessor._is_valid_file "/tmp/test.xlsx" = true
  ∧ InputProcessor._is_valid_file "/tmp/test.xls" = true
  ∧ InputProcessor._is_valid_file "/tmp/test.txt" = false
  ∧ InputProcessor._is_valid_file "/tmp/test.pdf" = false.
Proof. repeat split; reflexivity. Qed.

(** backend/tests/test_file_manager.py, [test_generate_file_path] *)
Example test_generate_file_path :
  FileManager._generate_file_path Sample.sample_metadata
  = Ok (Pathlib.MkPath false
          ["korean"; "LIGHTS_ON"; "turn_on_lights_voice1.wav"]).
Proof. vm_compute. reflexivity. Qed.

(** database/tests/test_file_storage.py, [test_delete_file] *)
Example test_delete_file :
  (S3Storage.delete_file Sample.mem_s3 Sample.mem_delete_object
     "s3://femtosense-voice-commands/test/file.wav" ∅).1 = Ok true.
Proof. reflexivity. Qed.
End TestSuites.
